(** * py-setup-tool: a shallow embedding of [setup.py]

    The script is one class, [ProjectSetup], whose methods read and write
    the file system, talk to the terminal and spawn external commands.
    The development is laid out as follows.

    - [Py]: the [str] and [pathlib] functions the script calls, on
      [string];
    - [Os]: a file system keyed by normalised absolute paths, and the
      exceptions of the file operations;
    - [Run]: the state of the process, its environment, and a
      state-and-exception monad with [sys.exit];
    - the methods of [ProjectSetup], statement by statement, in the
      section [ProjectSetup];
    - the vocabulary of the statements and some sample worlds;
    - the properties: string facts, what each primitive leaves alone,
      and one section per method.

    Scope of the model.  A [str] is held as its UTF-8 bytes, so a
    character of Python is one to four bytes here; the white space of
    [str.strip] and the line boundaries of [str.splitlines] are those of
    CPython, in ASCII and beyond.  [str.lower] folds ASCII text itself
    and leaves other text to the case mapping of the interpreter's
    Unicode database, which is part of the environment.  Files hold
    decoded text; permissions, symbolic links and decoding errors are
    not modelled.  What an external command does is an oracle of the
    environment. *)

From Stdlib Require Import ZArith Lia Bool Ascii.
From stdpp Require Import base option list strings gmap.

Local Open Scope stdpp_scope.

(** String concatenation unfolds under [simpl] on a literal prefix. *)
Local Arguments String.append !_ _ / : simpl nomatch.

(* ===================================================================== *)
(** * Python string methods *)
(* ===================================================================== *)

Module Py.

(** Control characters that appear in the script's literals. *)
Definition LF : ascii := "010"%char.
Definition CR : ascii := "013"%char.
Definition TAB : ascii := "009"%char.
Definition ESC : ascii := "027"%char.
Definition DQ : ascii := "034"%char.
Definition BSL : ascii := "092"%char.

Definition nl : string := String LF "".
Definition tab : string := String TAB "".
Definition dq : string := String DQ "".

(** ** Bytes and characters *)

(** The value of a byte. *)
Definition code (c : ascii) : N := N_of_ascii c.

(** [lo <= code c <= hi] *)
Definition between (lo hi : N) (c : ascii) : bool :=
  (lo <=? code c)%N && (code c <=? hi)%N.

(** The number of bytes of the character that [c] opens: one for an
    ASCII character, two to four after a lead byte, and none when [c]
    is a continuation byte or no byte of UTF-8 at all. *)
Definition width (c : ascii) : nat :=
  if between 0 127 c then 1
  else if between 192 223 c then 2
  else if between 224 239 c then 3
  else if between 240 247 c then 4
  else 0.

Definition is_cont (c : ascii) : bool := between 128 191 c.

(** The strings that hold a [str]: every character is complete, a lead
    byte with its continuation bytes. *)
Fixpoint is_text (s : string) : bool :=
  match s with
  | EmptyString => true
  | String c1 s1 =>
      match width c1, s1 with
      | 1, _ => is_text s1
      | 2, String c2 s2 => is_cont c2 && is_text s2
      | 3, String c2 (String c3 s3) => is_cont c2 && is_cont c3 && is_text s3
      | 4, String c2 (String c3 (String c4 s4)) =>
          is_cont c2 && is_cont c3 && is_cont c4 && is_text s4
      | _, _ => false
      end
  end.

(** [s.isascii()] *)
Fixpoint isascii (s : string) : bool :=
  match s with
  | EmptyString => true
  | String c s' => between 0 127 c && isascii s'
  end.

(** ** White space *)

(** The white space of [str.isspace] and [str.strip] in one byte: space,
    TAB, LF, VT, FF, CR and the four separators FS, GS, RS, US. *)
Definition is_space (c : ascii) : bool :=
  existsb (Ascii.eqb c)
    [" "; "009"; "010"; "011"; "012"; "013"; "028"; "029"; "030"; "031"]%char.

(** In two bytes: U+0085 (next line) and U+00A0 (no-break space). *)
Definition is_space2 (c1 c2 : ascii) : bool :=
  Ascii.eqb c1 "194" && (Ascii.eqb c2 "133" || Ascii.eqb c2 "160").

(** In three bytes: U+1680, U+2000 to U+200A, U+2028, U+2029, U+202F,
    U+205F and U+3000. *)
Definition is_space3 (c1 c2 c3 : ascii) : bool :=
  Ascii.eqb c1 "225" && Ascii.eqb c2 "154" && Ascii.eqb c3 "128"
  || Ascii.eqb c1 "226" && Ascii.eqb c2 "128"
     && (between 128 138 c3 || Ascii.eqb c3 "168" || Ascii.eqb c3 "169"
         || Ascii.eqb c3 "175")
  || Ascii.eqb c1 "226" && Ascii.eqb c2 "129" && Ascii.eqb c3 "159"
  || Ascii.eqb c1 "227" && Ascii.eqb c2 "128" && Ascii.eqb c3 "128".

(** The number of bytes of the white-space character at the head of
    [s]; none when [s] does not start with white space. *)
Definition space_width (s : string) : nat :=
  match s with
  | String c1 s1 =>
      if is_space c1 then 1
      else
        match s1 with
        | String c2 s2 =>
            if is_space2 c1 c2 then 2
            else
              match s2 with
              | String c3 _ => if is_space3 c1 c2 c3 then 3 else 0
              | EmptyString => 0
              end
        | EmptyString => 0
        end
  | EmptyString => 0
  end.

(** The text after the white-space character at the head of [s]. *)
Definition after_space (s : string) : option string :=
  match space_width s, s with
  | 1, String _ s1 => Some s1
  | 2, String _ (String _ s2) => Some s2
  | 3, String _ (String _ (String _ s3)) => Some s3
  | _, _ => None
  end.

(** ** Letter case *)

Definition is_upper (c : ascii) : bool := between 65 90 c.

Definition lower_char (c : ascii) : ascii :=
  if is_upper c then ascii_of_N (code c + 32) else c.

(** [s.lower()] on ASCII text. *)
Fixpoint ascii_lower (s : string) : string :=
  match s with
  | EmptyString => EmptyString
  | String c s' => String (lower_char c) (ascii_lower s')
  end.

(** [s.lower()]: CPython folds a [str] that is ASCII throughout byte by
    byte and hands any other to [case_operation], the full lower-casing
    of its Unicode database. *)
Definition lower (case_operation : string -> string) (s : string) : string :=
  if isascii s then ascii_lower s else case_operation s.

(** [s.replace(old, new)] for a one-character [old]; the script never
    calls it otherwise. *)
Fixpoint replace (old : ascii) (new : string) (s : string) : string :=
  match s with
  | EmptyString => EmptyString
  | String c s' =>
      if Ascii.eqb c old then new +:+ replace old new s'
      else String c (replace old new s')
  end.

(** [s.lstrip()]: the white-space characters at the head are dropped. *)
Fixpoint lstrip (s : string) : string :=
  match space_width s, s with
  | 1, String _ s1 => lstrip s1
  | 2, String _ (String _ s2) => lstrip s2
  | 3, String _ (String _ (String _ s3)) => lstrip s3
  | _, _ => s
  end.

(** Truthiness of a [str]. *)
Definition truthy (s : string) : bool :=
  match s with EmptyString => false | _ => true end.

(** [s] is white space throughout. *)
Definition blank (s : string) : bool := negb (truthy (lstrip s)).

(** [s.rstrip()]: the longest tail that is white space throughout is
    dropped. *)
Fixpoint rstrip (s : string) : string :=
  match s with
  | EmptyString => EmptyString
  | String c s' => if blank s then EmptyString else String c (rstrip s')
  end.

(** [s.strip()] *)
Definition strip (s : string) : string := rstrip (lstrip s).

(** [a or b] on strings. *)
Definition str_or (a b : string) : string := if truthy a then a else b.

(** [s.startswith(p)] *)
Definition startswith (p s : string) : bool := String.prefix p s.

(** [s.endswith(q)]: [q] is one of the tails of [s]. *)
Fixpoint endswith (q s : string) : bool :=
  String.eqb q s
  || match s with
     | EmptyString => false
     | String _ s' => endswith q s'
     end.

(** [sub in s]: [sub] is a prefix of one of the tails of [s]. *)
Fixpoint contains (sub s : string) : bool :=
  String.prefix sub s
  || match s with
     | EmptyString => false
     | String _ s' => contains sub s'
     end.

(** Prepend a character to the first field of a split. *)
Definition cons_head (c : ascii) (l : list string) : list string :=
  match l with
  | [] => [String c EmptyString]
  | h :: t => String c h :: t
  end.

(** [s.split(sep)] for a one-character [sep]: never the empty list. *)
Fixpoint split (sep : ascii) (s : string) : list string :=
  match s with
  | EmptyString => [EmptyString]
  | String c s' =>
      if Ascii.eqb c sep then EmptyString :: split sep s'
      else cons_head c (split sep s')
  end.

(** [sep.join(l)] *)
Fixpoint join (sep : string) (l : list string) : string :=
  match l with
  | [] => EmptyString
  | [x] => x
  | x :: t => x +:+ sep +:+ join sep t
  end.

(** The line boundaries of [str.splitlines] in one byte: LF, VT, FF,
    CR, FS, GS, RS. *)
Definition is_linebreak (c : ascii) : bool :=
  existsb (Ascii.eqb c) ["010"; "011"; "012"; "013"; "028"; "029"; "030"]%char.

(** In two bytes: U+0085 (next line). *)
Definition is_linebreak2 (c1 c2 : ascii) : bool :=
  Ascii.eqb c1 "194" && Ascii.eqb c2 "133".

(** In three bytes: U+2028 (line separator) and U+2029 (paragraph
    separator). *)
Definition is_linebreak3 (c1 c2 c3 : ascii) : bool :=
  Ascii.eqb c1 "226" && Ascii.eqb c2 "128"
  && (Ascii.eqb c3 "168" || Ascii.eqb c3 "169").

(** The number of bytes of the line boundary at the head of [s]; CR LF
    is one boundary. *)
Definition break_width (s : string) : nat :=
  match s with
  | String c1 s1 =>
      if is_linebreak c1 then
        match s1 with
        | String c2 _ => if Ascii.eqb c1 CR && Ascii.eqb c2 LF then 2 else 1
        | EmptyString => 1
        end
      else
        match s1 with
        | String c2 s2 =>
            if is_linebreak2 c1 c2 then 2
            else
              match s2 with
              | String c3 _ => if is_linebreak3 c1 c2 c3 then 3 else 0
              | EmptyString => 0
              end
        | EmptyString => 0
        end
  | EmptyString => 0
  end.

(** [s.splitlines()]: boundaries are dropped, and a final boundary opens
    no further line. *)
Fixpoint splitlines (s : string) : list string :=
  match s with
  | EmptyString => []
  | String c s1 =>
      match break_width s, s1 with
      | 0, _ => cons_head c (splitlines s1)
      | 1, _ => EmptyString :: splitlines s1
      | 2, String _ s2 => EmptyString :: splitlines s2
      | 3, String _ (String _ s3) => EmptyString :: splitlines s3
      | _, _ => [EmptyString]
      end
  end.

(** Text-mode reading with universal newlines: CR LF and a lone CR are
    handed to the program as LF. *)
Fixpoint translate_newlines (s : string) : string :=
  match s with
  | EmptyString => EmptyString
  | String c s' =>
      if Ascii.eqb c CR then
        match s' with
        | String c' s'' =>
            if Ascii.eqb c' LF then String LF (translate_newlines s'')
            else String LF (translate_newlines s')
        | EmptyString => String LF EmptyString
        end
      else String c (translate_newlines s')
  end.

(** [for line in f]: the lines of the translated text, each keeping its
    LF terminator; the last one has none when the text does not end in LF. *)
Fixpoint iter_lines (s : string) : list string :=
  match s with
  | EmptyString => []
  | String c s' =>
      if Ascii.eqb c LF then String c EmptyString :: iter_lines s'
      else cons_head c (iter_lines s')
  end.

(** [s * n] *)
Fixpoint repeat (s : string) (n : nat) : string :=
  match n with
  | O => EmptyString
  | S n' => s +:+ repeat s n'
  end.

(** [Path(s).parts] without the anchor: pathlib drops empty and [.]
    components. *)
Definition path_parts (s : string) : list string :=
  List.filter (fun c => negb (String.eqb c "") && negb (String.eqb c "."))
    (split "/"%char s).

(** [Path(s).name] *)
Definition path_name (s : string) : string := List.last (path_parts s) "".

End Py.

(* ===================================================================== *)
(** * The file system *)
(* ===================================================================== *)

(** A node is a regular file with its text, or a directory.  The store
    maps a normalised absolute path (its components from the root) to
    the node there; permissions and symbolic links are not modelled. *)

Module Os.

Inductive node : Type :=
| File (content : string)
| Dir.

Definition path : Type := list string.

Inductive exn : Type :=
| EOFError
| FileNotFoundError
| IsADirectoryError
| NotADirectoryError
| FileExistsError
| KeyError
| CalledProcessError (cmd : list string) (returncode : Z).

(** Lexical resolution of [..]: it cancels the component before it, and
    the root is its own parent. *)
Definition normalize (parts : list string) : path :=
  fold_left
    (fun acc c => if decide (c = "..") then removelast acc else acc ++ [c])
    parts [].

(** The components a path string denotes when it is used from [cwd]. *)
Definition lexical (cwd p : string) : list string :=
  if Py.startswith "/" p then Py.path_parts p
  else Py.path_parts cwd ++ Py.path_parts p.

Definition resolve (cwd p : string) : path := normalize (lexical cwd p).

(** The root directory always exists. *)
Definition stat (fs : gmap path node) (k : path) : option node :=
  match k with
  | [] => Some Dir
  | _ => fs !! k
  end.

(** [os.path.exists] *)
Definition exists_ (fs : gmap path node) (k : path) : bool :=
  match stat fs k with Some _ => true | None => false end.

(** [open(p, "r").read()], text mode. *)
Definition read (fs : gmap path node) (k : path) : exn + string :=
  match stat fs k with
  | Some (File c) => inr (Py.translate_newlines c)
  | Some Dir => inl IsADirectoryError
  | None => inl FileNotFoundError
  end.

(** [open(p, "w").write(content)]: the directory of [p] must be there. *)
Definition write (fs : gmap path node) (k : path) (content : string)
  : exn + gmap path node :=
  match stat fs k with
  | Some Dir => inl IsADirectoryError
  | _ =>
      match stat fs (removelast k) with
      | Some Dir => inr (<[k := File content]> fs)
      | Some (File _) => inl NotADirectoryError
      | None => inl FileNotFoundError
      end
  end.

(** [Path.touch(exist_ok=True)]: an existing node only has its times
    updated, which the store does not record. *)
Definition touch (fs : gmap path node) (k : path) : exn + gmap path node :=
  match stat fs k with
  | Some _ => inr fs
  | None => write fs k ""
  end.

(** [Path.mkdir(parents=True, exist_ok=True)] and
    [os.makedirs(p, exist_ok=True)]: every lexical prefix of the path is
    created in turn unless it is a directory already. *)
Fixpoint makedirs (fs : gmap path node) (pre rest : list string)
  : exn + gmap path node :=
  match rest with
  | [] => inr fs
  | c :: rest' =>
      let pre' := pre ++ [c] in
      let k := normalize pre' in
      match stat fs k with
      | Some Dir => makedirs fs pre' rest'
      | Some (File _) =>
          inl (match rest' with [] => FileExistsError | _ => NotADirectoryError end)
      | None => makedirs (<[k := Dir]> fs) pre' rest'
      end
  end.

(** The name [n] when [k] is [d] followed by [n] alone. *)
Fixpoint child_of (d k : path) : option string :=
  match d, k with
  | [], [n] => Some n
  | x :: d', y :: k' => if decide (x = y) then child_of d' k' else None
  | _, _ => None
  end.

(** [os.listdir]: the names directly under [d], in the store's order. *)
Definition listdir (fs : gmap path node) (d : path) : exn + list string :=
  match stat fs d with
  | Some Dir => inr (omap (fun kv => child_of d kv.1) (map_to_list fs))
  | Some (File _) => inl NotADirectoryError
  | None => inl FileNotFoundError
  end.

End Os.

(* ===================================================================== *)
(** * The process: state, environment and the monad of effects *)
(* ===================================================================== *)

Module Run.

Import Os.

(** What the run can change: the two attributes of the [ProjectSetup]
    object, the file system, [os.environ["PATH"]], what was written to
    the terminal (one chunk per write), the lines still to be read from
    standard input, and the commands spawned so far. *)
Record State : Type := mkState {
  use_poetry : bool;
  package_name : string;
  fs : gmap path node;
  environ_PATH : option string;
  stdout : list string;
  stdin : list string;
  spawned : list (list string)
}.

(** What the run only reads.  [spawn] is the outside world's answer to
    [subprocess.run]: [None] when the executable cannot be started,
    otherwise the return code, the child's output and the file system it
    leaves.  [site_packages] is [site.getsitepackages()[0]] where the
    [site] module has that function (its list is never empty).  [which]
    is [shutil.which], and [str_exn] is [str(e)].  [unicode_lower] is
    what [str.lower] does to a text that is not ASCII throughout: the
    lower-casing by the interpreter's Unicode database. *)
Record Env : Type := mkEnv {
  sysname : string;
  machine : string;
  cwd : string;
  script_dir : string;
  home : string;
  prefix : string;
  base_prefix : option string;
  python_version : string;
  executable : string;
  site_packages : option string;
  spawn : list string -> option string -> gmap path node
          -> option (Z * string * gmap path node);
  which : string -> option string -> gmap path node -> option string;
  str_exn : exn -> string;
  unicode_lower : string -> string
}.

Inductive outcome (A : Type) : Type :=
| Ok (a : A)
| Exit (code : Z)
| Raise (e : exn).
Arguments Ok {A} a.
Arguments Exit {A} code.
Arguments Raise {A} e.

Definition M (A : Type) : Type := State -> outcome A * State.

Definition ret {A} (a : A) : M A := fun st => (Ok a, st).

Definition bind {A B} (m : M A) (k : A -> M B) : M B :=
  fun st =>
    match m st with
    | (Ok a, st') => k a st'
    | (Exit c, st') => (Exit c, st')
    | (Raise e, st') => (Raise e, st')
    end.

(** [raise e] *)
Definition raise {A} (e : exn) : M A := fun st => (Raise e, st).

(** [sys.exit(code)]: [SystemExit] is not an [Exception], so no handler
    of the script catches it. *)
Definition sys_exit (code : Z) : M unit := fun st => (Exit code, st).

(** [try: m  except <those e with h e = Some k>: k] *)
Definition try_except {A} (m : M A) (h : exn -> option (M A)) : M A :=
  fun st =>
    match m st with
    | (Raise e, st') =>
        match h e with
        | Some k => k st'
        | None => (Raise e, st')
        end
    | r => r
    end.

Definition lift {A} (r : exn + A) : M A :=
  match r with
  | inl e => raise e
  | inr a => ret a
  end.

Definition get : M State := fun st => (Ok st, st).

Definition modify (f : State -> State) : M unit := fun st => (Ok tt, f st).

Definition set_use_poetry (b : bool) (st : State) : State :=
  mkState b (package_name st) (fs st) (environ_PATH st) (stdout st)
    (stdin st) (spawned st).

Definition set_package_name (n : string) (st : State) : State :=
  mkState (use_poetry st) n (fs st) (environ_PATH st) (stdout st)
    (stdin st) (spawned st).

Definition set_fs (f : gmap path node) (st : State) : State :=
  mkState (use_poetry st) (package_name st) f (environ_PATH st) (stdout st)
    (stdin st) (spawned st).

Definition set_PATH (p : option string) (st : State) : State :=
  mkState (use_poetry st) (package_name st) (fs st) p (stdout st)
    (stdin st) (spawned st).

Definition set_stdout (o : list string) (st : State) : State :=
  mkState (use_poetry st) (package_name st) (fs st) (environ_PATH st) o
    (stdin st) (spawned st).

Definition set_stdin (i : list string) (st : State) : State :=
  mkState (use_poetry st) (package_name st) (fs st) (environ_PATH st)
    (stdout st) i (spawned st).

Definition set_spawned (l : list (list string)) (st : State) : State :=
  mkState (use_poetry st) (package_name st) (fs st) (environ_PATH st)
    (stdout st) (stdin st) l.

(** Write one chunk to the terminal. *)
Definition emit (s : string) (st : State) : State :=
  set_stdout (stdout st ++ [s]) st.

(** [print(msg)] *)
Definition print (msg : string) : M unit := modify (emit (msg +:+ Py.nl)).

(** [input(prompt)]: the prompt is written without a newline; the end of
    the input raises [EOFError]. *)
Definition input (prompt : string) : M string :=
  fun st =>
    let st' := emit prompt st in
    match stdin st' with
    | [] => (Raise EOFError, st')
    | l :: rest => (Ok l, set_stdin rest st')
    end.

End Run.

Declare Scope run_scope.
Delimit Scope run_scope with run.
Notation "x <- c1 ;; c2" := (Run.bind c1 (fun x => c2))
  (at level 100, c1 at next level, right associativity) : run_scope.
Notation "c1 ;; c2" := (Run.bind c1 (fun _ => c2))
  (at level 100, right associativity) : run_scope.

(* ===================================================================== *)
(** * The script *)
(* ===================================================================== *)

Import Os Run.
Local Open Scope run_scope.

Definition VENV : string := ".venv".

Definition RED : string := String Py.ESC "[91m".
Definition GREEN : string := String Py.ESC "[92m".
Definition RESET : string := String Py.ESC "[0m".

Definition print_success (msg : string) : M unit :=
  print (GREEN +:+ "✅ " +:+ msg +:+ RESET).

Definition print_error (msg : string) : M unit :=
  print (RED +:+ "❌ " +:+ msg +:+ RESET).

Definition print_info (msg : string) : M unit :=
  print ("👉 " +:+ msg).

Definition print_header (msg : string) : M unit :=
  print (Py.nl +:+ "🔎 " +:+ msg +:+ Py.nl +:+ Py.repeat "=" 30).

(** [a or b] where [a] may be [None]. *)
Definition opt_or (a : option string) (b : string) : string :=
  match a with
  | Some s => Py.str_or s b
  | None => b
  end.

(** One line of a template written in the source with [n] blanks of
    indentation. *)
Definition tpl (n : nat) (s : string) : string :=
  Py.repeat " " n +:+ s +:+ Py.nl.

(** The f-string of the poetry branch. *)
Definition poetry_template
  (package_name package_version package_description author_name
   author_email deps : string) : string :=
  Py.nl
  +:+ tpl 16 "[tool.poetry]"
  +:+ tpl 16 ("name = " +:+ Py.dq +:+ package_name +:+ Py.dq)
  +:+ tpl 16 ("version = " +:+ Py.dq +:+ package_version +:+ Py.dq)
  +:+ tpl 16 ("description = " +:+ Py.dq +:+ package_description +:+ Py.dq)
  +:+ tpl 16 ("authors = [" +:+ Py.dq +:+ author_name +:+ " <"
              +:+ author_email +:+ ">" +:+ Py.dq +:+ "]")
  +:+ Py.nl
  +:+ tpl 16 "[tool.poetry.dependencies]"
  +:+ tpl 16 ("python = " +:+ Py.dq +:+ "^3.8" +:+ Py.dq)
  +:+ tpl 0 deps
  +:+ Py.nl
  +:+ tpl 16 "[tool.poetry.dev-dependencies]"
  +:+ tpl 16 ("pytest = " +:+ Py.dq +:+ "^7.0" +:+ Py.dq)
  +:+ Py.nl
  +:+ tpl 16 "[build-system]"
  +:+ tpl 16 ("requires = [" +:+ Py.dq +:+ "poetry-core>=1.0.0" +:+ Py.dq +:+ "]")
  +:+ tpl 16 ("build-backend = " +:+ Py.dq +:+ "poetry.core.masonry.api" +:+ Py.dq)
  +:+ Py.repeat " " 12.

(** The f-string of the other branch. *)
Definition project_template
  (package_name package_version package_description author_name
   author_email build_system : string) : string :=
  Py.nl
  +:+ tpl 16 "[project]"
  +:+ tpl 16 ("name = " +:+ Py.dq +:+ package_name +:+ Py.dq)
  +:+ tpl 16 ("version = " +:+ Py.dq +:+ package_version +:+ Py.dq)
  +:+ tpl 16 ("description = " +:+ Py.dq +:+ package_description +:+ Py.dq)
  +:+ tpl 16 ("authors = [{name=" +:+ Py.dq +:+ author_name +:+ Py.dq
              +:+ ", email=" +:+ Py.dq +:+ author_email +:+ Py.dq +:+ "}]")
  +:+ tpl 16 ("requires-python = " +:+ Py.dq +:+ ">=3.8" +:+ Py.dq)
  +:+ Py.nl
  +:+ tpl 16 "[tool.pytest.ini_options]"
  +:+ tpl 16 ("pythonpath = [" +:+ Py.dq +:+ "src" +:+ Py.dq +:+ "]")
  +:+ tpl 16 ("testpaths = [" +:+ Py.dq +:+ "tests" +:+ Py.dq +:+ ", "
              +:+ Py.dq +:+ "src" +:+ Py.dq +:+ "]")
  +:+ tpl 16 "markers = ["
  +:+ tpl 20 (Py.dq
              +:+ "integration: marks tests as integration (deselect with '-m "
              +:+ String Py.BSL Py.dq +:+ "not integration"
              +:+ String Py.BSL Py.dq +:+ "')" +:+ Py.dq)
  +:+ tpl 16 "]"
  +:+ tpl 16 ("addopts = " +:+ Py.dq +:+ "-m 'not integration'" +:+ Py.dq)
  +:+ Py.nl
  +:+ tpl 16 "[build-system]"
  +:+ tpl 16 ("requires = [" +:+ Py.dq +:+ build_system +:+ Py.dq +:+ "]")
  +:+ tpl 16 ("build-backend = " +:+ Py.dq +:+ build_system +:+ ".build" +:+ Py.dq)
  +:+ Py.nl
  +:+ tpl 16 "[tool.hatch.build.targets.wheel]"
  +:+ tpl 16 ("packages = [" +:+ Py.dq +:+ "src/" +:+ package_name +:+ Py.dq +:+ "]")
  +:+ Py.repeat " " 12.

Definition _dev_requirements_content : string :=
  Py.nl
  +:+ tpl 12 "pytest"
  +:+ tpl 12 "mypy"
  +:+ tpl 12 "types-python-dateutil"
  +:+ tpl 12 "build"
  +:+ tpl 12 "toml"
  +:+ tpl 12 "twine"
  +:+ tpl 12 "wheel"
  +:+ tpl 12 "pkginfo"
  +:+ tpl 12 "hatchling"
  +:+ tpl 12 "moto"
  +:+ Py.repeat " " 8.

(** The test of the loop body of [_convert_requirements_to_poetry] on an
    already stripped line: [line and not line.startswith("#")]. *)
Definition is_dep (line : string) : bool :=
  Py.truthy line && negb (Py.startswith "#" line).

(** The loop of [_convert_requirements_to_poetry]. *)
Definition collect_deps (lines : list string) : list string :=
  fold_left
    (fun deps line =>
       let line := Py.strip line in
       if is_dep line then deps ++ [line] else deps)
    lines [].

Definition _indent_dependencies (deps : string) : string :=
  Py.join Py.nl
    (map (fun dep => Py.repeat " " 4 +:+ dep)
       (List.filter (fun dep => Py.truthy (Py.strip dep)) (Py.splitlines deps))).

Definition _strip_content (content : string) : string :=
  Py.join Py.nl
    (map (fun line => Py.replace Py.TAB "" (Py.strip line))
       (List.filter (fun line => Py.truthy (Py.strip line))
          (Py.split Py.LF content))).

(** [name.startswith("requirements") and name.endswith(".txt")] *)
Definition is_requirements_file (f : string) : bool :=
  Py.startswith "requirements" f && Py.endswith ".txt" f.

(** [s.lower()] in the interpreter of [E]. *)
Definition str_lower (E : Env) (s : string) : string :=
  Py.lower (unicode_lower E) s.

Section ProjectSetup.

Variable E : Env.

Definition path_exists (p : string) : M bool :=
  st <- get ;; ret (Os.exists_ (fs st) (resolve (cwd E) p)).

Definition open_read (p : string) : M string :=
  st <- get ;; lift (Os.read (fs st) (resolve (cwd E) p)).

Definition open_write (p content : string) : M unit :=
  st <- get ;;
  fs' <- lift (Os.write (fs st) (resolve (cwd E) p) content) ;;
  modify (set_fs fs').

Definition mkdir_p (p : string) : M unit :=
  st <- get ;;
  fs' <- lift (Os.makedirs (fs st) [] (lexical (cwd E) p)) ;;
  modify (set_fs fs').

Definition path_touch (p : string) : M unit :=
  st <- get ;;
  fs' <- lift (Os.touch (fs st) (resolve (cwd E) p)) ;;
  modify (set_fs fs').

(** [subprocess.run(cmd, capture_output=capture, text=True, check=check)]:
    the result is the return code and the child's output, which goes to
    the terminal when it is not captured. *)
Definition subprocess_run (cmd : list string) (capture check : bool)
  : M (Z * string) :=
  fun st =>
    let st1 := set_spawned (spawned st ++ [cmd]) st in
    match spawn E cmd (environ_PATH st) (fs st) with
    | None => (Raise FileNotFoundError, st1)
    | Some (rc, out, fs') =>
        let st2 := set_fs fs' (if capture then st1 else emit out st1) in
        if check && negb (rc =? 0)%Z
        then (Raise (CalledProcessError cmd rc), st2)
        else (Ok (rc, out), st2)
    end.

(** [subprocess.run(script, shell=True, check=True)] *)
Definition subprocess_shell (script : string) : M (Z * string) :=
  subprocess_run ["/bin/sh"; "-c"; script] false true.

Definition _detect_project_tool : M (option string) :=
  e <- path_exists "pyproject.toml" ;;
  if negb e then ret None
  else
    try_except
      (contents <- open_read "pyproject.toml" ;;
       if Py.contains "[tool.poetry]" contents then ret (Some "poetry")
       else if Py.contains "[tool.hatch]" contents then ret (Some "hatch")
       else if Py.contains "[tool.flit]" contents then ret (Some "flit")
       else ret None)
      (fun _ => Some (ret None)).

Definition _detect_platform : M string :=
  let sysname := sysname E in
  let arch := machine E in
  print "🧠 Detecting OS and architecture..." ;;
  let os_type := "unknown" in
  os_type <-
    (if String.eqb sysname "Darwin" then ret "mac"
     else if String.eqb sysname "Linux" then
       d <- path_exists "/etc/debian_version" ;;
       ret (if d then "debian" else "linux")
     else
       print_error ("Unsupported OS: " +:+ sysname) ;;
       sys_exit 1 ;;
       ret os_type) ;;
  print ("📟 OS: " +:+ os_type +:+ " | Architecture: " +:+ arch) ;;
  project_tool <- _detect_project_tool ;;
  (if bool_decide (project_tool = Some "poetry") then
     modify (set_use_poetry true) ;;
     print_info "Detected Poetry project from pyproject.toml."
   else if bool_decide (project_tool = Some "hatch") then
     modify (set_use_poetry false) ;;
     print_info "Detected Hatch project from pyproject.toml."
   else if bool_decide (project_tool = Some "flit") then
     modify (set_use_poetry false) ;;
     print_info "Detected Flit project from pyproject.toml."
   else
     a <- input "📦 Do you want to use pip or poetry? (default: pip): " ;;
     let pip_or_poetry := Py.str_or a "pip" in
     modify (set_use_poetry (String.eqb (str_lower E pip_or_poetry) "poetry"))) ;;
  ret os_type.

Definition _convert_requirements_to_poetry : M string :=
  e <- path_exists "requirements.txt" ;;
  deps <-
    (if e then
       f <- open_read "requirements.txt" ;;
       ret (collect_deps (Py.iter_lines f))
     else ret []) ;;
  ret (Py.join Py.nl deps).

Definition _get_default_package_name : string :=
  Py.replace "-" "_" (Py.replace " " "_" (str_lower E (Py.path_name (cwd E)))).

Definition _get_git_config (key : string) : M (option string) :=
  try_except
    (result <- subprocess_run ["git"; "config"; "--get"; key] true false ;;
     if (result.1 =? 0)%Z then ret (Some (Py.strip result.2))
     else ret None)
    (fun _ => Some (ret None)).

Definition _create_pyproject_toml : M unit :=
  e <- path_exists "pyproject.toml" ;;
  if e then print_success "pyproject.toml already exists."
  else
    print_info "pyproject.toml not found. Let's create one." ;;
    modify (set_package_name _get_default_package_name) ;;
    st <- get ;;
    package_name_input <-
      input ("Package name (default: " +:+ package_name st +:+ "): ") ;;
    (if Py.truthy package_name_input then
       modify (set_package_name
                 (Py.replace "-" "_"
                    (str_lower E (Py.replace " " "-" package_name_input))))
     else ret tt) ;;
    v <- input "Package version (default: 0.1.0): " ;;
    let package_version := Py.str_or v "0.1.0" in
    package_description <- input "Package description: " ;;
    g <- _get_git_config "user.name" ;;
    let author_name := opt_or g "unnamed developer" in
    g <- _get_git_config "user.email" ;;
    let author_email := opt_or g "developer@example.com" in
    a <- input ("Author name (default: " +:+ author_name +:+ "): ") ;;
    let author_name := Py.str_or a author_name in
    a <- input ("Author email (default: " +:+ author_email +:+ "): ") ;;
    let author_email := Py.str_or a author_email in
    st <- get ;;
    let src_package_path := "src/" +:+ package_name st in
    mkdir_p src_package_path ;;
    let init_file := src_package_path +:+ "/" +:+ "__init__.py" in
    path_touch init_file ;;
    content <-
      (if use_poetry st then
         deps_block <- _convert_requirements_to_poetry ;;
         ret (poetry_template (package_name st) package_version
                package_description author_name author_email
                (_indent_dependencies deps_block))
       else
         b <- input "Build system (default: hatchling): " ;;
         let build_system := Py.str_or b "hatchling" in
         let content :=
           project_template (package_name st) package_version
             package_description author_name author_email build_system in
         mkdir_p "tests" ;;
         ret content) ;;
    open_write "pyproject.toml" (_strip_content content) ;;
    print_success "pyproject.toml created.".

Definition _write_if_missing (filename content : string) : M unit :=
  e <- path_exists filename ;;
  if negb e then
    print_info (filename +:+ " not found. Let's create one.") ;;
    open_write filename content ;;
    print_success (filename +:+ " created.")
  else print_success (filename +:+ " already exists.").

Definition _setup_requirements : M unit :=
  _write_if_missing "requirements.txt" "# project requirements" ;;
  _write_if_missing "requirements.dev.txt"
    (_strip_content _dev_requirements_content).

Definition _setup_poetry : M unit :=
  _create_pyproject_toml ;;
  print "📚  Using Poetry for environment setup..." ;;
  try_except
    (st <- get ;;
     match which E "poetry" (environ_PATH st) (fs st) with
     | None =>
         print "⬇️ Installing Poetry..." ;;
         subprocess_shell
           "curl -sSL https://install.python-poetry.org | python3 -" ;;
         st <- get ;;
         match environ_PATH st with
         | Some p => modify (set_PATH (Some (home E +:+ "/.local/bin:" +:+ p)))
         | None => raise KeyError
         end
     | Some _ => ret tt
     end ;;
     result <- subprocess_run ["poetry"; "--version"] true false ;;
     (if negb (result.1 =? 0)%Z then
        print_error "Poetry installation failed." ;; sys_exit 1
      else ret tt) ;;
     print_success (Py.strip result.2) ;;
     print "🔧 Creating virtual environment with Poetry..." ;;
     subprocess_run ["poetry"; "install"] false true ;;
     ret tt)
    (fun e =>
       match e with
       | CalledProcessError _ _ =>
           Some (print_error ("Poetry setup failed: " +:+ str_exn E e) ;;
                 sys_exit 1)
       | _ => None
       end).

Definition get_list_of_requirements_files : M (list string) :=
  st <- get ;;
  names <- lift (Os.listdir (fs st) (resolve (cwd E) (script_dir E))) ;;
  ret (List.filter is_requirements_file names).

(** The body of the [for] loop of [_setup_pip]. *)
Definition install_requirements (req_file : string) : M unit :=
  print ("🔗 Installing packages from " +:+ req_file +:+ "...") ;;
  subprocess_run [VENV +:+ "/bin/pip"; "install"; "-r"; req_file; "--upgrade"]
    false true ;;
  ret tt.

Fixpoint for_each {A} (body : A -> M unit) (l : list A) : M unit :=
  match l with
  | [] => ret tt
  | x :: l' => body x ;; for_each body l'
  end.

Definition _setup_pip : M unit :=
  _create_pyproject_toml ;;
  print ("🐍 Setting up Python virtual environment at " +:+ VENV +:+ "...") ;;
  try_except
    (subprocess_run ["python3"; "-m"; "venv"; VENV] false true ;;
     subprocess_run [VENV +:+ "/bin/pip"; "install"; "--upgrade"; "pip"]
       false true ;;
     req_files <- get_list_of_requirements_files ;;
     for_each install_requirements req_files ;;
     print "🔗 Installing local package in editable mode..." ;;
     subprocess_run [VENV +:+ "/bin/pip"; "install"; "-e"; "."] false true ;;
     ret tt)
    (fun e =>
       match e with
       | CalledProcessError _ _ =>
           Some (print_error ("pip setup failed: " +:+ str_exn E e) ;;
                 sys_exit 1)
       | _ => None
       end).

(** [getattr(sys, "base_prefix", sys.prefix)] *)
Definition sys_base_prefix : string :=
  match base_prefix E with
  | Some b => b
  | None => prefix E
  end.

Definition is_virtual_environment : bool :=
  negb (String.eqb (prefix E) sys_base_prefix).

Definition print_env_info : M unit :=
  print_header "Python Environment Info" ;;
  print ("📦 Python Version     : " +:+ python_version E) ;;
  print ("🐍 Python Executable  : " +:+ executable E) ;;
  print ("📂 sys.prefix         : " +:+ prefix E) ;;
  print ("📂 Base Prefix        : " +:+ sys_base_prefix) ;;
  let site_packages :=
    match site_packages E with
    | Some p => p
    | None => "N/A"
    end in
  print ("🧠 site-packages path : " +:+ site_packages) ;;
  let in_venv := is_virtual_environment in
  print ("✅ In Virtual Env     : " +:+ (if in_venv then "Yes" else "No")) ;;
  if in_venv then
    print ("📁 Virtual Env Name   : " +:+ Py.path_name (prefix E))
  else ret tt.

Definition setup : M unit :=
  _detect_platform ;;
  _setup_requirements ;;
  st <- get ;;
  (if use_poetry st then _setup_poetry else _setup_pip) ;;
  print_env_info ;;
  print (Py.nl +:+ "🎉 Setup complete!") ;;
  st <- get ;;
  if negb (use_poetry st) then
    print ("➡️  Run 'source " +:+ VENV
           +:+ "/bin/activate' to activate the virtual environment.")
  else ret tt.

(** [ps = ProjectSetup(); ps.setup()] *)
Definition main : M unit :=
  modify (set_use_poetry false) ;;
  modify (set_package_name "") ;;
  setup.

End ProjectSetup.


(* ===================================================================== *)
(** * Vocabulary of the statements *)
(* ===================================================================== *)

(** Apply [f] to every character. *)
Fixpoint map_chars (f : ascii -> ascii) (s : string) : string :=
  match s with
  | EmptyString => EmptyString
  | String c s' => String (f c) (map_chars f s')
  end.

(** Every character satisfies [P]. *)
Fixpoint all_chars (P : ascii -> bool) (s : string) : bool :=
  match s with
  | EmptyString => true
  | String c s' => P c && all_chars P s'
  end.



(** Some byte of [s] is [c]. *)
Fixpoint has (c : ascii) (s : string) : bool :=
  match s with
  | EmptyString => false
  | String x s' => Ascii.eqb x c || has c s'
  end.

(** Blanks and hyphens become the separator of package names. *)
Definition separator (c : ascii) : ascii :=
  if Ascii.eqb c " " || Ascii.eqb c "-" then "_"%char else c.

(** The character-wise reading of the default package name on an ASCII
    name: blanks and hyphens become the separator, everything else is
    lower-cased. *)
Definition default_name_char (c : ascii) : ascii :=
  if Ascii.eqb c " " || Ascii.eqb c "-" then "_"%char else Py.lower_char c.

(** What the lower-casing of Unicode obeys, on the ASCII characters of
    the result other than the letters [a] to [z]: none is a capital, and
    each is a character of the text that was lower-cased.  (A character
    outside ASCII lower-cases to characters outside ASCII, U+0130 and
    U+212A apart, which give [i] and [k].) *)
Definition case_mapping (f : string -> string) : Prop :=
  forall s c,
    has c (f s) = true ->
    Py.between 0 127 c = true -> Py.between 97 122 c = false ->
    Py.is_upper c = false /\ has c s = true.

(** What no package name typed at the prompt may contain. *)
Definition clean_char (c : ascii) : bool :=
  negb (Ascii.eqb c " ") && negb (Ascii.eqb c "-") && negb (Py.is_upper c).

(** [sub] occurs somewhere in [s]. *)
Definition occurs (sub s : string) : Prop :=
  exists a b, s = a +:+ sub +:+ b.

(** The chunks that [print], [print_success] and [print_error] write. *)
Definition line (msg : string) : string := msg +:+ Py.nl.

Definition success_line (msg : string) : string :=
  line (GREEN +:+ "✅ " +:+ msg +:+ RESET).

Definition error_line (msg : string) : string :=
  line (RED +:+ "❌ " +:+ msg +:+ RESET).

(** The six lines that [print_env_info] writes first, whatever the
    answer on the virtual environment. *)
Definition env_info_lines (E : Env) : list string :=
  [line (Py.nl +:+ "🔎 " +:+ "Python Environment Info" +:+ Py.nl +:+ Py.repeat "=" 30);
   line ("📦 Python Version     : " +:+ python_version E);
   line ("🐍 Python Executable  : " +:+ executable E);
   line ("📂 sys.prefix         : " +:+ prefix E);
   line ("📂 Base Prefix        : " +:+ sys_base_prefix E);
   line ("🧠 site-packages path : "
         +:+ match site_packages E with Some p => p | None => "N/A" end)].

(** A chunk that is a virtual-environment-name line. *)
Definition is_venv_name_line (chunk : string) : bool :=
  Py.startswith "📁 Virtual Env Name" chunk.

(** [st'] comes later than [st] in a run that left the attributes of the
    [ProjectSetup] object alone: the terminal only received more
    chunks. *)
Definition later (st st' : State) : Prop :=
  package_name st' = package_name st
  /\ use_poetry st' = use_poetry st
  /\ exists l, stdout st' = stdout st ++ l.

(** A computation that keeps the object's attributes and only adds to
    the terminal, however it ends. *)
Definition quiet {A} (m : M A) : Prop :=
  forall st r st', m st = (r, st') -> later st st'.

(** The command behind [_get_git_config key]. *)
Definition git_config_cmd (key : string) : list string :=
  ["git"; "config"; "--get"; key].

(** The identity lookup fails in every situation: git cannot be started
    or ends with a status other than 0. *)
Definition git_fails (E : Env) : Prop :=
  forall key p f,
    match spawn E (git_config_cmd key) p f with
    | Some (rc, _, _) => rc <> 0%Z
    | None => True
    end.

(** The requirement lines of a base-requirements text: its lines,
    stripped, that are neither empty nor comments. *)
Definition requirement_lines (text : string) : list string :=
  List.filter is_dep (map Py.strip (Py.iter_lines text)).

(** A dependency with the indentation [_indent_dependencies] gives it. *)
Definition indent4 (dep : string) : string := Py.repeat " " 4 +:+ dep.

(** No line boundary of [str.splitlines] starts anywhere in [s]. *)
Fixpoint single_line (s : string) : bool :=
  match s with
  | EmptyString => true
  | String _ s' => Nat.eqb (Py.break_width s) 0 && single_line s'
  end.

(** The bytes that end a white-space character. *)
Definition space_tail (c : ascii) : bool :=
  Py.is_space c || Ascii.eqb c "133" || Ascii.eqb c "160" || Ascii.eqb c "128"
  || Py.between 128 138 c || Ascii.eqb c "168" || Ascii.eqb c "169"
  || Ascii.eqb c "175" || Ascii.eqb c "159".

(** The dependency block as [_create_pyproject_toml] computes it for the
    poetry template. *)
Definition dependency_block (E : Env) : M string :=
  (deps_block <- _convert_requirements_to_poetry E ;;
   ret (_indent_dependencies deps_block))%run.

(** The commands of the pip strategy. *)
Definition venv_cmd : list string := ["python3"; "-m"; "venv"; VENV].

Definition pip_upgrade_cmd : list string :=
  [VENV +:+ "/bin/pip"; "install"; "--upgrade"; "pip"].

Definition install_cmd (req_file : string) : list string :=
  [VENV +:+ "/bin/pip"; "install"; "-r"; req_file; "--upgrade"].

Definition editable_cmd : list string :=
  [VENV +:+ "/bin/pip"; "install"; "-e"; "."].

(** Every external command can be started and ends with status 0. *)
Definition every_command_succeeds (E : Env) : Prop :=
  forall cmd p f, exists out f', spawn E cmd p f = Some (0%Z, out, f').

(** The requirements files of a directory: its entries whose names start
    with [requirements] and end with [.txt]. *)
Definition requirements_files_in (f : gmap path node) (d : path)
  : list string :=
  match Os.listdir f d with
  | inr names => List.filter is_requirements_file names
  | inl _ => []
  end.

(** No character of [s] is a line feed: what [input()] returns. *)
Definition no_lf (s : string) : bool :=
  all_chars (fun c => negb (Ascii.eqb c Py.LF)) s.

(** The line of the manifest that carries the package name. *)
Definition name_line (package_name : string) : string :=
  "name = " +:+ Py.dq +:+ Py.replace Py.TAB "" package_name +:+ Py.dq.

(** What [_detect_project_tool] answers on the text of a manifest. *)
Definition tool_of (contents : string) : option string :=
  if Py.contains "[tool.poetry]" contents then Some "poetry"
  else if Py.contains "[tool.hatch]" contents then Some "hatch"
  else if Py.contains "[tool.flit]" contents then Some "flit"
  else None.


(** The three ways the first part of [_detect_platform] names the
    system. *)
Definition os_type_of (E : Env) (f : gmap path node) : option string :=
  if String.eqb (sysname E) "Darwin" then Some "mac"
  else if String.eqb (sysname E) "Linux" then
    Some (if Os.exists_ f (resolve (cwd E) "/etc/debian_version")
          then "debian" else "linux")
  else None.

(* ===================================================================== *)
(** * Further vocabulary *)
(* ===================================================================== *)

(** The two files that [_setup_requirements] looks after. *)
Definition base_requirements : string := "requirements.txt".
Definition dev_requirements : string := "requirements.dev.txt".

(** The chunk that [print_info] writes. *)
Definition info_line (msg : string) : string := line ("👉 " +:+ msg).

(** What [_detect_project_tool] finds in the file system [f] seen from
    the working directory of [E]. *)
Definition detected_tool (E : Env) (f : gmap path node) : option string :=
  match Os.read f (resolve (cwd E) "pyproject.toml") with
  | inr contents => tool_of contents
  | inl _ => None
  end.

(** The lines that [_strip_content] joins. *)
Definition stripped_lines (content : string) : list string :=
  map (fun line => Py.replace Py.TAB "" (Py.strip line))
    (List.filter (fun line => Py.truthy (Py.strip line))
       (Py.split Py.LF content)).

(** A line as [_strip_content] leaves it: not empty, without line feed
    or tab, and with nothing left to strip at either end. *)
Definition tidy (x : string) : Prop :=
  x <> "" /\ no_lf x = true /\ Py.strip x = x /\ Py.replace Py.TAB "" x = x.

(** The requirement lines of the base-requirements file in the file
    system [f], seen from the working directory of [E]; none when the
    file is not there. *)
Definition base_requirement_lines (E : Env) (f : gmap path node)
  : list string :=
  match Os.read f (resolve (cwd E) "requirements.txt") with
  | inr text => requirement_lines text
  | inl _ => []
  end.

(** The poetry template down to the line of the authors. *)
Definition poetry_template_top
  (package_name package_version package_description author_name
   author_email : string) : string :=
  Py.nl
  +:+ tpl 16 "[tool.poetry]"
  +:+ tpl 16 ("name = " +:+ Py.dq +:+ package_name +:+ Py.dq)
  +:+ tpl 16 ("version = " +:+ Py.dq +:+ package_version +:+ Py.dq)
  +:+ tpl 16 ("description = " +:+ Py.dq +:+ package_description +:+ Py.dq)
  +:+ Py.repeat " " 16
  +:+ ("authors = [" +:+ Py.dq +:+ author_name +:+ " <"
       +:+ author_email +:+ ">" +:+ Py.dq +:+ "]").

(** A line [key = "value"] of the manifest: tabs do not survive the
    stripping. *)
Definition field_line (key value : string) : string :=
  key +:+ " = " +:+ Py.dq +:+ Py.replace Py.TAB "" value +:+ Py.dq.

Definition authors_line (author_name author_email : string) : string :=
  "authors = [" +:+ Py.dq +:+ Py.replace Py.TAB "" author_name +:+ " <"
  +:+ Py.replace Py.TAB "" author_email +:+ ">" +:+ Py.dq +:+ "]".

(** The five lines of the poetry manifest above its dependency
    section. *)
Definition poetry_manifest_top
  (package_name package_version package_description author_name
   author_email : string) : list string :=
  ["[tool.poetry]";
   field_line "name" package_name;
   field_line "version" package_version;
   field_line "description" package_description;
   authors_line author_name author_email].

(** The two lines of the poetry manifest that open its dependency
    section. *)
Definition poetry_dependencies_head : list string :=
  ["[tool.poetry.dependencies]"; "python = " +:+ Py.dq +:+ "^3.8" +:+ Py.dq].

(** What follows the dependency block in the poetry manifest. *)
Definition poetry_manifest_tail : list string :=
  ["[tool.poetry.dev-dependencies]";
   "pytest = " +:+ Py.dq +:+ "^7.0" +:+ Py.dq;
   "[build-system]";
   "requires = [" +:+ Py.dq +:+ "poetry-core>=1.0.0" +:+ Py.dq +:+ "]";
   "build-backend = " +:+ Py.dq +:+ "poetry.core.masonry.api" +:+ Py.dq].

(** The poetry template up to the line before the dependency block, and
    from the line after it. *)
Definition poetry_template_head
  (package_name package_version package_description author_name
   author_email : string) : string :=
  Py.nl
  +:+ tpl 16 "[tool.poetry]"
  +:+ tpl 16 ("name = " +:+ Py.dq +:+ package_name +:+ Py.dq)
  +:+ tpl 16 ("version = " +:+ Py.dq +:+ package_version +:+ Py.dq)
  +:+ tpl 16 ("description = " +:+ Py.dq +:+ package_description +:+ Py.dq)
  +:+ tpl 16 ("authors = [" +:+ Py.dq +:+ author_name +:+ " <"
              +:+ author_email +:+ ">" +:+ Py.dq +:+ "]")
  +:+ Py.nl
  +:+ tpl 16 "[tool.poetry.dependencies]"
  +:+ Py.repeat " " 16 +:+ ("python = " +:+ Py.dq +:+ "^3.8" +:+ Py.dq).

Definition poetry_template_tail : string :=
  Py.nl
  +:+ tpl 16 "[tool.poetry.dev-dependencies]"
  +:+ tpl 16 ("pytest = " +:+ Py.dq +:+ "^7.0" +:+ Py.dq)
  +:+ Py.nl
  +:+ tpl 16 "[build-system]"
  +:+ tpl 16 ("requires = [" +:+ Py.dq +:+ "poetry-core>=1.0.0" +:+ Py.dq +:+ "]")
  +:+ tpl 16 ("build-backend = " +:+ Py.dq +:+ "poetry.core.masonry.api" +:+ Py.dq)
  +:+ Py.repeat " " 12.

(** Answers of the outside world to one command, whatever the
    situation: it ends with status 0; it ends with another status. *)
Definition succeeds_on (E : Env) (cmd : list string) : Prop :=
  forall p f, exists out f', spawn E cmd p f = Some (0%Z, out, f').

Definition fails_on (E : Env) (cmd : list string) : Prop :=
  forall p f, exists rc out f',
    spawn E cmd p f = Some (rc, out, f') /\ rc <> 0%Z.

(** The commands of the poetry strategy. *)
Definition poetry_installer_cmd : list string :=
  ["/bin/sh"; "-c"; "curl -sSL https://install.python-poetry.org | python3 -"].

Definition poetry_version_cmd : list string := ["poetry"; "--version"].

Definition poetry_install_cmd : list string := ["poetry"; "install"].

(** The banner of each strategy. *)
Definition pip_banner : string :=
  line ("🐍 Setting up Python virtual environment at " +:+ VENV +:+ "...").

Definition poetry_banner : string :=
  line "📚  Using Poetry for environment setup...".

(** The last lines of a run that ends normally. *)
Definition complete_line : string := line (Py.nl +:+ "🎉 Setup complete!").

Definition activate_line : string :=
  line ("➡️  Run 'source " +:+ VENV
        +:+ "/bin/activate' to activate the virtual environment.").

(** The commands one run may spawn, by strategy. *)
Definition is_identity_lookup (cmd : list string) : Prop :=
  cmd = git_config_cmd "user.name" \/ cmd = git_config_cmd "user.email".

Definition poetry_side (cmd : list string) : Prop :=
  is_identity_lookup cmd
  \/ cmd = poetry_installer_cmd
  \/ cmd = poetry_version_cmd
  \/ cmd = poetry_install_cmd.

Definition pip_side (cmd : list string) : Prop :=
  is_identity_lookup cmd
  \/ cmd = venv_cmd
  \/ cmd = pip_upgrade_cmd
  \/ (exists f, is_requirements_file f = true /\ cmd = install_cmd f)
  \/ cmd = editable_cmd.

(** [m] only adds commands that satisfy [P] to those spawned, however
    it ends. *)
Definition spawns_only (P : list string -> Prop) {A} (m : M A) : Prop :=
  forall st r st',
    m st = (r, st') ->
    exists l, spawned st' = spawned st ++ l /\ Forall P l.

(** No restriction on the commands. *)
Definition any_command (cmd : list string) : Prop := True.

Definition no_command (cmd : list string) : Prop := False.

(** When [m] ends normally, [cmd] is among the commands it has
    spawned. *)
Definition spawns_on_success (cmd : list string) {A} (m : M A) : Prop :=
  forall st a st',
    m st = (Ok a, st') ->
    exists l, spawned st' = spawned st ++ l /\ In cmd l.

(** [m] leaves the choice of the workflow as it is, however it ends. *)
Definition keeps_choice {A} (m : M A) : Prop :=
  forall st r st', m st = (r, st') -> use_poetry st' = use_poetry st.

(* ===================================================================== *)
(** * Sample worlds *)
(* ===================================================================== *)

(** Concrete environments and states on which the statements below are
    exercised. *)
Module Sample.

Import Os Run.

(** Every command succeeds, prints [out] and leaves the files alone. *)
Definition spawn_ok (cmd : list string) (p : option string)
  (f : gmap path node) : option (Z * string * gmap path node) :=
  Some (0%Z, "out", f).

(** No command can be started. *)
Definition spawn_none (cmd : list string) (p : option string)
  (f : gmap path node) : option (Z * string * gmap path node) :=
  None.

(** Every command fails with status 1. *)
Definition spawn_fail (cmd : list string) (p : option string)
  (f : gmap path node) : option (Z * string * gmap path node) :=
  Some (1%Z, "", f).

Definition which_found (cmd : string) (p : option string)
  (f : gmap path node) : option string :=
  Some ("/usr/bin/" +:+ cmd).

Definition str_exn_plain (e : exn) : string := "error".

(** The lower-casing of the sample interpreters, exact on Latin-1 text:
    beyond ASCII, the capitals U+00C0 to U+00DE, the sign U+00D7 apart. *)
Fixpoint latin_lower (s : string) : string :=
  match s with
  | EmptyString => EmptyString
  | String c1 s1 =>
      match s1 with
      | String c2 s2 =>
          if Ascii.eqb c1 "195" && Py.between 128 158 c2
             && negb (Ascii.eqb c2 "151")
          then String c1 (String (ascii_of_N (Py.code c2 + 32)) (latin_lower s2))
          else String (Py.lower_char c1) (latin_lower s1)
      | EmptyString => String (Py.lower_char c1) EmptyString
      end
  end.

Definition project_dir : string := "/home/me/My Project".

Definition linux : Env :=
  mkEnv "Linux" "x86_64" project_dir project_dir "/home/me"
    "/usr" (Some "/usr") "3.11.2" "/usr/bin/python3"
    (Some "/usr/lib/python3/site-packages")
    spawn_ok which_found str_exn_plain latin_lower.

Definition mac_venv : Env :=
  mkEnv "Darwin" "arm64" project_dir project_dir "/Users/me"
    "/Users/me/My Project/.venv" (Some "/usr/local") "3.12.1"
    "/Users/me/My Project/.venv/bin/python" None
    spawn_ok which_found str_exn_plain latin_lower.

Definition freebsd : Env :=
  mkEnv "FreeBSD" "amd64" project_dir project_dir "/home/me"
    "/usr/local" (Some "/usr/local") "3.11.2" "/usr/local/bin/python3"
    (Some "/usr/local/lib/python3.11/site-packages")
    spawn_ok which_found str_exn_plain latin_lower.

(** Git is missing: the identity lookup cannot even start. *)
Definition linux_no_git : Env :=
  mkEnv "Linux" "x86_64" project_dir project_dir "/home/me"
    "/usr" (Some "/usr") "3.11.2" "/usr/bin/python3"
    (Some "/usr/lib/python3/site-packages")
    spawn_none which_found str_exn_plain latin_lower.

(** The script lives in [/opt/tools], away from the project. *)
Definition linux_elsewhere : Env :=
  mkEnv "Linux" "x86_64" project_dir "/opt/tools" "/home/me"
    "/usr" (Some "/usr") "3.11.2" "/usr/bin/python3"
    (Some "/usr/lib/python3/site-packages")
    spawn_ok which_found str_exn_plain latin_lower.

Definition project_path : path := ["home"; "me"; "My Project"].

(** An empty project directory. *)
Definition fs_empty : gmap path node :=
  <[project_path := Dir]> (<[["home"; "me"] := Dir]> (<[["home"] := Dir]> ∅)).

(** The requirements file of the dependency-parsing example. *)
Definition example_requirements : string :=
  Py.nl +:+ "requests>=2" +:+ Py.nl +:+ "# comment" +:+ Py.nl +:+ Py.nl
  +:+ "flask" +:+ Py.nl.

Definition fs_requirements : gmap path node :=
  <[project_path ++ ["requirements.txt"] := File example_requirements]> fs_empty.

(** A project that already has a poetry manifest. *)
Definition poetry_manifest : string :=
  "[build-system]" +:+ Py.nl +:+ "[tool.hatch]" +:+ Py.nl +:+ "[tool.poetry]"
  +:+ Py.nl +:+ "name = 'kept'" +:+ Py.nl.

Definition fs_configured : gmap path node :=
  <[project_path ++ ["pyproject.toml"] := File poetry_manifest]> fs_requirements.

(** The script's directory holds one extra requirements file, and the
    project none of that name. *)
Definition fs_elsewhere : gmap path node :=
  <[["opt"; "tools"; "requirements.extra.txt"] := File "six"]>
    (<[["opt"; "tools"; "setup.py"] := File ""]>
       (<[["opt"; "tools"] := Dir]> (<[["opt"] := Dir]> fs_configured))).

(** White space and line boundaries beyond ASCII: U+00A0, U+0085,
    U+2003 and U+2028. *)
Definition no_break_space : string := String "194" (String "160" "").
Definition next_line : string := String "194" (String "133" "").
Definition em_space : string := String "226" (String "128" (String "131" "")).
Definition line_separator : string :=
  String "226" (String "128" (String "168" "")).

(** A requirements file whose only line carries a form feed. *)
Definition form_feed_requirements : string :=
  "a" +:+ String "012" "b" +:+ Py.nl.

Definition fs_form_feed : gmap path node :=
  <[project_path ++ ["requirements.txt"] := File form_feed_requirements]> fs_empty.

(** A requirements file whose only line carries a tab. *)
Definition tab_requirements : string :=
  "requests" +:+ Py.tab +:+ ">=2" +:+ Py.nl.

Definition fs_tab : gmap path node :=
  <[project_path ++ ["requirements.txt"] := File tab_requirements]> fs_empty.

Definition state (f : gmap path node) (input : list string) : State :=
  mkState false "" f (Some "/usr/bin") [] input [].

(** The poetry manifest for the file of the dependency-parsing example,
    line by line. *)
Definition example_manifest : list string :=
  ["[tool.poetry]";
   "name = " +:+ Py.dq +:+ "my_pkg_x" +:+ Py.dq;
   "version = " +:+ Py.dq +:+ "0.1.0" +:+ Py.dq;
   "description = " +:+ Py.dq +:+ "a demo" +:+ Py.dq;
   "authors = [" +:+ Py.dq +:+ "unnamed developer <developer@example.com>"
     +:+ Py.dq +:+ "]";
   "[tool.poetry.dependencies]";
   "python = " +:+ Py.dq +:+ "^3.8" +:+ Py.dq;
   "requests>=2";
   "flask";
   "[tool.poetry.dev-dependencies]";
   "pytest = " +:+ Py.dq +:+ "^7.0" +:+ Py.dq;
   "[build-system]";
   "requires = [" +:+ Py.dq +:+ "poetry-core>=1.0.0" +:+ Py.dq +:+ "]";
   "build-backend = " +:+ Py.dq +:+ "poetry.core.masonry.api" +:+ Py.dq].

(** The [n] lines of a file after its first [k]. *)
Definition lines_from (k n : nat) (x : node) : list string :=
  match x with
  | File text => firstn n (skipn k (Py.split Py.LF text))
  | Dir => []
  end.

End Sample.

(** Further sample worlds. *)
Module Scenario.

Import Os Run.

(** Installing from [requirements.txt] fails; every other command
    succeeds. *)
Definition spawn_base_fails (cmd : list string) (p : option string)
  (f : gmap path node) : option (Z * string * gmap path node) :=
  if bool_decide (cmd = install_cmd "requirements.txt")
  then Some (1%Z, "", f)
  else Some (0%Z, "out", f).

Definition linux_base_fails : Env :=
  mkEnv "Linux" "x86_64" Sample.project_dir Sample.project_dir "/home/me"
    "/usr" (Some "/usr") "3.11.2" "/usr/bin/python3"
    (Some "/usr/lib/python3/site-packages")
    spawn_base_fails Sample.which_found Sample.str_exn_plain Sample.latin_lower.

(** Poetry is not on the search path. *)
Definition which_nothing (cmd : string) (p : option string)
  (f : gmap path node) : option string :=
  None.

Definition linux_no_poetry : Env :=
  mkEnv "Linux" "x86_64" Sample.project_dir Sample.project_dir "/home/me"
    "/usr" (Some "/usr") "3.11.2" "/usr/bin/python3"
    (Some "/usr/lib/python3/site-packages")
    Sample.spawn_ok which_nothing Sample.str_exn_plain Sample.latin_lower.

(** Every command ends with status 1. *)
Definition linux_commands_fail : Env :=
  mkEnv "Linux" "x86_64" Sample.project_dir Sample.project_dir "/home/me"
    "/usr" (Some "/usr") "3.11.2" "/usr/bin/python3"
    (Some "/usr/lib/python3/site-packages")
    Sample.spawn_fail Sample.which_found Sample.str_exn_plain Sample.latin_lower.

(** A project with a manifest and both requirements files. *)
Definition fs_both : gmap path node :=
  <[Sample.project_path ++ ["requirements.dev.txt"] := File "pytest"]>
    Sample.fs_configured.

End Scenario.

(* ===================================================================== *)
(** * Facts about the string methods *)
(* ===================================================================== *)

Section StringFacts.

Import Py.

Lemma app_assoc_s (a b c : string) : (a +:+ b) +:+ c = a +:+ (b +:+ c).
Proof. induction a as [|x a IH]; simpl; [reflexivity | now rewrite IH]. Qed.

Lemma app_empty_r (a : string) : a +:+ "" = a.
Proof. induction a as [|x a IH]; simpl; [reflexivity | now rewrite IH]. Qed.

(** ** [startswith] and [in] *)

Lemma prefix_spec (p s : string) :
  String.prefix p s = true <-> exists b, s = p +:+ b.
Proof.
  revert s. induction p as [|x p IH]; intros [|y s]; simpl.
  - split; [intros _; now exists "" | reflexivity].
  - split; [intros _; now exists (String y s) | reflexivity].
  - split; [discriminate | intros [b Hb]; discriminate].
  - destruct (ascii_dec x y) as [->|Hne].
    + rewrite IH. split; intros [b Hb]; exists b; congruence.
    + split; [discriminate | intros [b Hb]; congruence].
Qed.

Lemma contains_unfold (sub s : string) :
  contains sub s
  = String.prefix sub s
    || match s with
       | EmptyString => false
       | String _ s' => contains sub s'
       end.
Proof. destruct s; reflexivity. Qed.

(** [sub in s] holds exactly when [s] is some text, then [sub], then
    some text: the position of the occurrence is free. *)
Lemma contains_spec (sub s : string) :
  contains sub s = true <-> exists a b, s = a +:+ sub +:+ b.
Proof.
  induction s as [|y s IH]; rewrite contains_unfold.
  - rewrite orb_false_r, prefix_spec. split.
    + intros [b Hb]. now exists "", b.
    + intros [a [b Hb]]. destruct a; [now exists b | discriminate].
  - rewrite orb_true_iff, IH, prefix_spec. split.
    + intros [[b Hb] | [a [b Hb]]].
      * now exists "", b.
      * exists (String y a), b. simpl. now rewrite Hb.
    + intros [a [b Hb]]. destruct a as [|x a]; simpl in Hb.
      * left. now exists b.
      * right. exists a, b. congruence.
Qed.

(** ** [ascii_lower] and [replace] character by character *)

Lemma replace_char_map (old new : ascii) (s : string) :
  replace old (String new "") s
  = map_chars (fun c => if Ascii.eqb c old then new else c) s.
Proof.
  induction s as [|c s IH]; simpl; [reflexivity|].
  destruct (Ascii.eqb c old); simpl; now rewrite IH.
Qed.

Lemma ascii_lower_map (s : string) : ascii_lower s = map_chars lower_char s.
Proof. induction s as [|c s IH]; simpl; [reflexivity | now rewrite IH]. Qed.

Lemma map_chars_compose (f g : ascii -> ascii) (s : string) :
  map_chars f (map_chars g s) = map_chars (fun c => f (g c)) s.
Proof. induction s as [|c s IH]; simpl; [reflexivity | now rewrite IH]. Qed.

Lemma map_chars_ext (f g : ascii -> ascii) (s : string) :
  (forall c, f c = g c) -> map_chars f s = map_chars g s.
Proof.
  intros H. induction s as [|c s IH]; simpl; [reflexivity | now rewrite H, IH].
Qed.

Lemma all_chars_map (P : ascii -> bool) (f : ascii -> ascii) (s : string) :
  (forall c, P (f c) = true) -> all_chars P (map_chars f s) = true.
Proof.
  intros H. induction s as [|c s IH]; simpl; [reflexivity | now rewrite H, IH].
Qed.

Lemma all_chars_impl (P Q : ascii -> bool) (s : string) :
  (forall c, P c = true -> Q c = true) ->
  all_chars P s = true -> all_chars Q s = true.
Proof.
  intros HPQ. induction s as [|c s IH]; simpl; [reflexivity|].
  intros [Hc Hs]%andb_true_iff. now rewrite (HPQ c Hc), IH.
Qed.

(** Replacing a character that does not occur changes nothing. *)
Lemma replace_absent (old : ascii) (new s : string) :
  all_chars (fun c => negb (Ascii.eqb c old)) s = true ->
  replace old new s = s.
Proof.
  induction s as [|c s IH]; simpl; [reflexivity|].
  intros [Hc Hs]%andb_true_iff. apply negb_true_iff in Hc.
  now rewrite Hc, (IH Hs).
Qed.

Lemma map_chars_length (f : ascii -> ascii) (s : string) :
  String.length (map_chars f s) = String.length s.
Proof. induction s as [|c s IH]; simpl; [reflexivity | now rewrite IH]. Qed.

End StringFacts.
(* ===================================================================== *)
(** * Facts about [strip] *)
(* ===================================================================== *)

Section StripFacts.

Import Py.

Lemma all_chars_app (P : ascii -> bool) (a b : string) :
  all_chars P (a +:+ b) = all_chars P a && all_chars P b.
Proof.
  induction a as [|c a IH]; simpl; [reflexivity|].
  now rewrite IH, andb_assoc.
Qed.

Lemma lstrip_eq (s : string) :
  lstrip s
  = match space_width s, s with
    | 1, String _ s1 => lstrip s1
    | 2, String _ (String _ s2) => lstrip s2
    | 3, String _ (String _ (String _ s3)) => lstrip s3
    | _, _ => s
    end.
Proof. now destruct s. Qed.

Lemma lstrip_unfold (s : string) :
  lstrip s = match after_space s with Some r => lstrip r | None => s end.
Proof.
  rewrite lstrip_eq. unfold after_space.
  destruct (space_width s) as [|[|[|[|n]]]];
    destruct s as [|c1 [|c2 [|c3 s3]]]; reflexivity.
Qed.

(** White space at the head is a proper prefix. *)
Lemma after_space_split (s r : string) :
  after_space s = Some r -> exists w, w <> "" /\ s = w +:+ r.
Proof.
  unfold after_space.
  destruct s as [|c1 [|c2 [|c3 s3]]]; cbn [space_width];
    repeat match goal with
           | |- context [if ?b then _ else _] => destruct b
           end; intros [= <-].
  all: first
    [ now exists (String c1 "")
    | now exists (String c1 (String c2 ""))
    | now exists (String c1 (String c2 (String c3 ""))) ].
Qed.

Lemma length_app_s (a b : string) :
  String.length (a +:+ b) = String.length a + String.length b.
Proof. induction a as [|x a IH]; simpl; [reflexivity | now rewrite IH]. Qed.

Lemma after_space_shorter (s r : string) :
  after_space s = Some r -> String.length r < String.length s.
Proof.
  intros (w & Hw & ->)%after_space_split. rewrite length_app_s.
  destruct w; [congruence | simpl; lia].
Qed.

(** Induction along the white space at the head of a string. *)
Lemma lstrip_ind (P : string -> Prop) :
  (forall s, after_space s = None -> P s) ->
  (forall s r, after_space s = Some r -> P r -> P s) ->
  forall s, P s.
Proof.
  intros Hnone Hsome s.
  remember (String.length s) as n eqn:Hn. revert s Hn.
  induction n as [n IH] using lt_wf_ind. intros s ->.
  destruct (after_space s) as [r|] eqn:Hr; [|now apply Hnone].
  apply (Hsome s r Hr). apply (IH (String.length r)); [|reflexivity].
  now apply after_space_shorter.
Qed.

Lemma after_space_lstrip (s : string) : after_space (lstrip s) = None.
Proof.
  induction s as [s Hs | s r Hr IH] using lstrip_ind;
    rewrite lstrip_unfold; [now rewrite Hs | now rewrite Hr].
Qed.

Lemma lstrip_fixed (s : string) : after_space s = None -> lstrip s = s.
Proof. intros H. now rewrite lstrip_unfold, H. Qed.

Lemma lstrip_again (s : string) : lstrip (lstrip s) = lstrip s.
Proof. apply lstrip_fixed, after_space_lstrip. Qed.

(** What [lstrip] leaves is a tail of the string. *)
Lemma lstrip_tail (s : string) : exists w, s = w +:+ lstrip s.
Proof.
  induction s as [s Hs | s r Hr (w & IH)] using lstrip_ind;
    rewrite lstrip_unfold.
  - rewrite Hs. now exists "".
  - rewrite Hr. destruct (after_space_split _ _ Hr) as (w0 & _ & ->).
    exists (w0 +:+ w). now rewrite app_assoc_s, <- IH.
Qed.

(** White space at the head does not depend on what follows it. *)
Lemma after_space_app (a r b : string) :
  after_space a = Some r -> after_space (a +:+ b) = Some (r +:+ b).
Proof.
  unfold after_space.
  destruct a as [|c1 [|c2 [|c3 s3]]]; cbn [space_width String.append];
    repeat match goal with
           | |- context [if ?b then _ else _] => destruct b eqn:?
           end; try discriminate; intros [= <-]; try reflexivity.
  all: destruct b as [|x [|y b]]; cbn [space_width String.append];
    repeat match goal with
           | H : ?t = _ |- context [?t] => rewrite H
           end; reflexivity.
Qed.

Lemma after_space_prefix (a b : string) :
  after_space (a +:+ b) = None -> after_space a = None.
Proof.
  intros H. destruct (after_space a) as [r|] eqn:Hr; [|reflexivity].
  rewrite (after_space_app _ _ b Hr) in H. discriminate.
Qed.

Lemma blank_unfold (s : string) :
  blank s = match after_space s with
            | Some r => blank r
            | None => negb (truthy s)
            end.
Proof. unfold blank. rewrite lstrip_unfold. now destruct (after_space s). Qed.

Lemma blank_app (a b : string) :
  blank a = true -> blank b = true -> blank (a +:+ b) = true.
Proof.
  intros Ha Hb. induction a as [s Hs | s r Hr IH] using lstrip_ind.
  - rewrite blank_unfold, Hs in Ha. destruct s; [exact Hb | discriminate].
  - rewrite blank_unfold, Hr in Ha.
    rewrite blank_unfold, (after_space_app _ _ b Hr). now apply IH.
Qed.

Lemma rstrip_unfold (c : ascii) (s : string) :
  rstrip (String c s)
  = if blank (String c s) then "" else String c (rstrip s).
Proof. reflexivity. Qed.

(** What [rstrip] drops is white space throughout. *)
Lemma rstrip_head (s : string) :
  exists t, s = rstrip s +:+ t /\ blank t = true.
Proof.
  induction s as [|c s (t & IH & Ht)]; [now exists ""|].
  rewrite rstrip_unfold. destruct (blank (String c s)) eqn:Hb.
  - now exists (String c s).
  - exists t. split; [|exact Ht]. simpl. now rewrite <- IH.
Qed.

Lemma rstrip_again (s : string) : rstrip (rstrip s) = rstrip s.
Proof.
  induction s as [|c s IH]; [reflexivity|].
  rewrite rstrip_unfold. destruct (blank (String c s)) eqn:Hb; [reflexivity|].
  rewrite rstrip_unfold, IH.
  destruct (blank (String c (rstrip s))) eqn:Hb'; [|reflexivity].
  destruct (rstrip_head s) as (t & Hs & Ht).
  rewrite Hs in Hb.
  change (String c (rstrip s +:+ t)) with (String c (rstrip s) +:+ t) in Hb.
  now rewrite (blank_app _ _ Hb' Ht) in Hb.
Qed.

Lemma rstrip_not_blank (s : string) :
  blank s = false -> rstrip s <> "".
Proof. destruct s as [|c s]; [discriminate|]. rewrite rstrip_unfold. now intros ->. Qed.

Lemma strip_fixed_left (s : string) : lstrip (strip s) = strip s.
Proof.
  unfold strip. apply lstrip_fixed.
  destruct (rstrip_head (lstrip s)) as (t & Hs & _).
  apply (after_space_prefix _ t). rewrite <- Hs. apply after_space_lstrip.
Qed.

Lemma strip_again (l : string) : strip (strip l) = strip l.
Proof.
  unfold strip at 1. rewrite strip_fixed_left. apply rstrip_again.
Qed.

Lemma all_chars_lstrip (P : ascii -> bool) (s : string) :
  all_chars P s = true -> all_chars P (lstrip s) = true.
Proof.
  destruct (lstrip_tail s) as (w & Hw). rewrite Hw at 1.
  rewrite all_chars_app. now intros [_ H]%andb_true_iff.
Qed.

Lemma all_chars_rstrip (P : ascii -> bool) (s : string) :
  all_chars P s = true -> all_chars P (rstrip s) = true.
Proof.
  destruct (rstrip_head s) as (t & Ht & _). rewrite Ht at 1.
  rewrite all_chars_app. now intros [H _]%andb_true_iff.
Qed.

Lemma all_chars_strip (P : ascii -> bool) (s : string) :
  all_chars P s = true -> all_chars P (strip s) = true.
Proof. intros H. now apply all_chars_rstrip, all_chars_lstrip. Qed.

End StripFacts.
Section StripTail.

Import Py.

Ltac bool_false H :=
  repeat match type of H with
         | (_ || _) = false => apply orb_false_elim in H as [H ?]
         end.

Lemma is_space2_tail (c1 c2 : ascii) :
  is_space2 c1 c2 = true -> space_tail c2 = true.
Proof.
  intros H. destruct (space_tail c2) eqn:E; [reflexivity|].
  unfold space_tail in E. bool_false E. unfold is_space2 in H.
  repeat match goal with Hx : _ = false |- _ => rewrite Hx in H; clear Hx end.
  now rewrite ?andb_false_r in H.
Qed.

Lemma is_space3_tail (c1 c2 c3 : ascii) :
  is_space3 c1 c2 c3 = true -> space_tail c3 = true.
Proof.
  intros H. destruct (space_tail c3) eqn:E; [reflexivity|].
  unfold space_tail in E. bool_false E. unfold is_space3 in H.
  repeat match goal with Hx : _ = false |- _ => rewrite Hx in H; clear Hx end.
  now rewrite ?andb_false_r in H.
Qed.

Lemma is_space_tail (c : ascii) : is_space c = true -> space_tail c = true.
Proof. intros H. unfold space_tail. now rewrite H. Qed.

(** White space at the head of a string ends with one of those bytes or
    before the last byte. *)
Lemma after_space_last (u : string) (c : ascii) (r : string) :
  after_space (u +:+ String c "") = Some r ->
  (r = "" /\ space_tail c = true) \/ exists u', r = u' +:+ String c "".
Proof.
  unfold after_space.
  destruct u as [|c1 [|c2 [|c3 u]]]; cbn [space_width String.append];
    repeat match goal with
           | |- context [if ?b then _ else _] => destruct b eqn:?
           end; try discriminate; intros [= <-].
  all: first
    [ left; split; [reflexivity|];
      first [ now apply is_space_tail
            | eapply is_space2_tail; eassumption
            | eapply is_space3_tail; eassumption ]
    | right; now exists ""
    | right; now exists (String c2 "")
    | right; now exists (String c3 "")
    | right; now exists (String c2 (String c3 ""))
    | right; now exists (String c2 (String c3 u))
    | right; now exists (String c3 u)
    | right; now exists u ].
Qed.

Lemma blank_last (u : string) (c : ascii) :
  blank (u +:+ String c "") = true -> space_tail c = true.
Proof.
  remember (u +:+ String c "") as s eqn:Hs. revert u Hs.
  induction s as [s Hn | s r Hr IH] using lstrip_ind; intros u -> Hb.
  - rewrite blank_unfold, Hn in Hb. now destruct u.
  - rewrite blank_unfold, Hr in Hb.
    apply after_space_last in Hr as [[_ Ht]|(u' & ->)]; [exact Ht|].
    now apply (IH u').
Qed.

(** A string that ends with a byte that ends no white space has nothing
    to strip on the right. *)
Lemma rstrip_app_last (s : string) (c : ascii) :
  space_tail c = false -> rstrip (s +:+ String c "") = s +:+ String c "".
Proof.
  intros Hc. induction s as [|x s IH].
  - cbn [String.append]. rewrite rstrip_unfold.
    destruct (blank (String c "")) eqn:Hb; [|reflexivity].
    apply (blank_last "") in Hb. congruence.
  - change (String x s +:+ String c "") with (String x (s +:+ String c "")).
    rewrite rstrip_unfold, IH.
    destruct (blank _) eqn:Hb; [|reflexivity].
    apply (blank_last (String x s)) in Hb. congruence.
Qed.

End StripTail.

(* ===================================================================== *)
(** * Facts about [splitlines] *)
(* ===================================================================== *)

Section Lines.

Import Py.

Lemma splitlines_eq (c : ascii) (s1 : string) :
  splitlines (String c s1)
  = match break_width (String c s1), s1 with
    | 0, _ => cons_head c (splitlines s1)
    | 1, _ => EmptyString :: splitlines s1
    | 2, String _ s2 => EmptyString :: splitlines s2
    | 3, String _ (String _ s3) => EmptyString :: splitlines s3
    | _, _ => [EmptyString]
    end.
Proof. reflexivity. Qed.

Lemma splitlines_cons (c : ascii) (s : string) :
  break_width (String c s) = 0 ->
  splitlines (String c s) = cons_head c (splitlines s).
Proof. intros H. now rewrite splitlines_eq, H. Qed.

Lemma splitlines_nl (s : string) : splitlines (nl +:+ s) = "" :: splitlines s.
Proof. now destruct s. Qed.

(** A line feed after a string adds no boundary inside the string. *)
Lemma break_width_app_nl (c : ascii) (d rest : string) :
  break_width (String c d) = 0 ->
  break_width (String c d +:+ nl +:+ rest) = 0.
Proof.
  destruct d as [|c2 [|c3 d]]; cbn [break_width String.append nl];
    unfold is_linebreak2, is_linebreak3;
    repeat match goal with
           | |- context [if ?b then _ else _] => destruct b eqn:?
           end; try discriminate; try reflexivity; intros _.
  all: destruct rest as [|x rest]; cbn [String.append];
    rewrite ?andb_false_r; try reflexivity.
  all: repeat match goal with
           | |- context [if ?b then _ else _] => destruct b eqn:?
           end; try discriminate; try reflexivity.
  all: exfalso;
    repeat match goal with
           | H : _ && _ = true |- _ => apply andb_true_iff in H as [? ?]
           | H : Ascii.eqb LF _ = true |- _ => discriminate H
           | H : Ascii.eqb LF _ || _ = true |- _ => discriminate H
           end.
Qed.

Lemma splitlines_app_nl (d rest : string) :
  single_line d = true ->
  splitlines (d +:+ nl +:+ rest) = d :: splitlines rest.
Proof.
  induction d as [|c d IH]; intros H.
  - apply splitlines_nl.
  - cbn [single_line] in H. apply andb_true_iff in H as [Hc Hd].
    apply Nat.eqb_eq in Hc.
    pose proof (break_width_app_nl c d rest Hc) as Hb.
    change (String c d +:+ nl +:+ rest) with (String c (d +:+ nl +:+ rest)) in *.
    now rewrite (splitlines_cons _ _ Hb), (IH Hd).
Qed.

Lemma splitlines_single (d : string) :
  single_line d = true -> d <> "" -> splitlines d = [d].
Proof.
  induction d as [|c d IH]; intros H Hne; [congruence|].
  cbn [single_line] in H. apply andb_true_iff in H as [Hc Hd].
  apply Nat.eqb_eq in Hc.
  rewrite (splitlines_cons _ _ Hc). destruct d as [|c' d']; [reflexivity|].
  now rewrite (IH Hd).
Qed.

Lemma splitlines_join (deps : list string) :
  Forall (fun d => single_line d = true) deps ->
  Forall (fun d => d <> "") deps ->
  splitlines (join nl deps) = deps.
Proof.
  induction deps as [|d deps IH]; intros Hs Hn; [reflexivity|].
  inversion Hs as [|? ? Hd Hs']; inversion Hn as [|? ? Hd' Hn']; subst.
  destruct deps as [|d2 deps].
  - now apply splitlines_single.
  - change (join nl (d :: d2 :: deps)) with (d +:+ nl +:+ join nl (d2 :: deps)).
    rewrite (splitlines_app_nl _ _ Hd). f_equal. now apply IH.
Qed.

Lemma single_line_no_lf (s : string) : single_line s = true -> no_lf s = true.
Proof.
  unfold no_lf. induction s as [|c s IH]; [reflexivity|].
  cbn [single_line all_chars]. intros [Hc Hs]%andb_true_iff.
  rewrite (IH Hs), andb_true_r. apply Nat.eqb_eq in Hc.
  destruct (Ascii.eqb c LF) eqn:E; [|reflexivity].
  apply Ascii.eqb_eq in E as ->. now destruct s.
Qed.

End Lines.
(* ===================================================================== *)
(** * Facts about texts *)
(* ===================================================================== *)

Section Texts.

Import Py.

(** ** Bytes by their place in a character *)

Ltac by_byte c :=
  destruct c as [[] [] [] [] [] [] [] []]; try discriminate;
  repeat split; reflexivity.

Lemma width1_space (c c2 c3 : ascii) :
  width c = 1 -> is_space2 c c2 = false /\ is_space3 c c2 c3 = false.
Proof. by_byte c. Qed.

Lemma width2_space (c1 c2 c3 : ascii) :
  width c1 = 2 ->
  is_space c1 = false /\ is_space3 c1 c2 c3 = false
  /\ Ascii.eqb c1 TAB = false /\ Ascii.eqb c1 LF = false.
Proof. by_byte c1. Qed.

Lemma width3_space (c1 c2 : ascii) :
  width c1 = 3 ->
  is_space c1 = false /\ is_space2 c1 c2 = false
  /\ Ascii.eqb c1 TAB = false /\ Ascii.eqb c1 LF = false.
Proof. by_byte c1. Qed.

Lemma width4_space (c1 c2 c3 : ascii) :
  width c1 = 4 ->
  is_space c1 = false /\ is_space2 c1 c2 = false
  /\ is_space3 c1 c2 c3 = false
  /\ Ascii.eqb c1 TAB = false /\ Ascii.eqb c1 LF = false.
Proof. by_byte c1. Qed.

Lemma cont_space (c c2 c3 : ascii) :
  is_cont c = true ->
  is_space c = false /\ is_space2 c c2 = false /\ is_space3 c c2 c3 = false
  /\ Ascii.eqb c TAB = false /\ Ascii.eqb c LF = false.
Proof. by_byte c. Qed.

(** ** Texts, character by character *)

Lemma is_text_1 (c : ascii) (s : string) :
  width c = 1 -> is_text (String c s) = is_text s.
Proof. intros H. cbn [is_text]. now rewrite H. Qed.

Lemma is_text_2 (c1 c2 : ascii) (s : string) :
  width c1 = 2 ->
  is_text (String c1 (String c2 s)) = is_cont c2 && is_text s.
Proof. intros H. cbn [is_text]. now rewrite H. Qed.

Lemma is_text_3 (c1 c2 c3 : ascii) (s : string) :
  width c1 = 3 ->
  is_text (String c1 (String c2 (String c3 s)))
  = is_cont c2 && is_cont c3 && is_text s.
Proof. intros H. cbn [is_text]. now rewrite H. Qed.

Lemma is_text_4 (c1 c2 c3 c4 : ascii) (s : string) :
  width c1 = 4 ->
  is_text (String c1 (String c2 (String c3 (String c4 s))))
  = is_cont c2 && is_cont c3 && is_cont c4 && is_text s.
Proof. intros H. cbn [is_text]. now rewrite H. Qed.

(** Induction on a text, one character at a time. *)
Lemma text_ind (P : string -> Prop) :
  P "" ->
  (forall c s, width c = 1 -> is_text s = true -> P s -> P (String c s)) ->
  (forall c1 c2 s,
      width c1 = 2 -> is_cont c2 = true -> is_text s = true -> P s ->
      P (String c1 (String c2 s))) ->
  (forall c1 c2 c3 s,
      width c1 = 3 -> is_cont c2 = true -> is_cont c3 = true ->
      is_text s = true -> P s ->
      P (String c1 (String c2 (String c3 s)))) ->
  (forall c1 c2 c3 c4 s,
      width c1 = 4 -> is_cont c2 = true -> is_cont c3 = true ->
      is_cont c4 = true -> is_text s = true -> P s ->
      P (String c1 (String c2 (String c3 (String c4 s))))) ->
  forall s, is_text s = true -> P s.
Proof.
  intros H0 H1 H2 H3 H4 s.
  remember (String.length s) as n eqn:Hn. revert s Hn.
  induction n as [n IH] using lt_wf_ind. intros s -> Ht.
  destruct s as [|c1 s1]; [exact H0|].
  cbn [is_text] in Ht.
  destruct (width c1) as [|[|[|[|[|w]]]]] eqn:Hw; try discriminate.
  - apply H1; [exact Hw | exact Ht|].
    apply (IH (String.length s1)); [simpl; lia | reflexivity | exact Ht].
  - destruct s1 as [|c2 s2]; [discriminate|].
    apply andb_true_iff in Ht as [Hc2 Ht].
    apply H2; [exact Hw | exact Hc2 | exact Ht|].
    apply (IH (String.length s2)); [simpl; lia | reflexivity | exact Ht].
  - destruct s1 as [|c2 [|c3 s3]]; try discriminate.
    apply andb_true_iff in Ht as [Hc Ht].
    apply andb_true_iff in Hc as [Hc2 Hc3].
    apply H3; [exact Hw | exact Hc2 | exact Hc3 | exact Ht|].
    apply (IH (String.length s3)); [simpl; lia | reflexivity | exact Ht].
  - destruct s1 as [|c2 [|c3 [|c4 s4]]]; try discriminate.
    apply andb_true_iff in Ht as [Hc Ht].
    apply andb_true_iff in Hc as [Hc Hc4].
    apply andb_true_iff in Hc as [Hc2 Hc3].
    apply H4; [exact Hw | exact Hc2 | exact Hc3 | exact Hc4 | exact Ht|].
    apply (IH (String.length s4)); [simpl; lia | reflexivity | exact Ht].
Qed.

(** ** White space at the head of a text *)

Lemma after_space_1 (c : ascii) (s : string) :
  width c = 1 ->
  after_space (String c s) = if is_space c then Some s else None.
Proof.
  intros Hw. unfold after_space. cbn [space_width].
  destruct (is_space c); [reflexivity|].
  destruct s as [|c2 [|c3 s]]; [reflexivity| |].
  - now rewrite (proj1 (width1_space c c2 c2 Hw)).
  - destruct (width1_space c c2 c3 Hw) as [-> ->]. reflexivity.
Qed.

Lemma after_space_2 (c1 c2 : ascii) (s : string) :
  width c1 = 2 ->
  after_space (String c1 (String c2 s))
  = if is_space2 c1 c2 then Some s else None.
Proof.
  intros Hw. unfold after_space. cbn [space_width].
  destruct (width2_space c1 c2 c2 Hw) as (-> & _).
  destruct (is_space2 c1 c2); [reflexivity|].
  destruct s as [|c3 s]; [reflexivity|].
  destruct (width2_space c1 c2 c3 Hw) as (_ & -> & _). reflexivity.
Qed.

Lemma after_space_3 (c1 c2 c3 : ascii) (s : string) :
  width c1 = 3 ->
  after_space (String c1 (String c2 (String c3 s)))
  = if is_space3 c1 c2 c3 then Some s else None.
Proof.
  intros Hw. unfold after_space. cbn [space_width].
  destruct (width3_space c1 c2 Hw) as (-> & -> & _).
  now destruct (is_space3 c1 c2 c3).
Qed.

Lemma after_space_4 (c1 : ascii) (s : string) :
  width c1 = 4 -> after_space (String c1 s) = None.
Proof.
  intros Hw. unfold after_space. cbn [space_width].
  destruct s as [|c2 [|c3 s]].
  - now destruct (width4_space c1 c1 c1 Hw) as (-> & _).
  - now destruct (width4_space c1 c2 c1 Hw) as (-> & -> & _).
  - now destruct (width4_space c1 c2 c3 Hw) as (-> & -> & -> & _).
Qed.

Lemma after_space_cont (c : ascii) (s : string) :
  is_cont c = true -> after_space (String c s) = None.
Proof.
  intros Hw. unfold after_space. cbn [space_width].
  destruct s as [|c2 [|c3 s]].
  - now destruct (cont_space c c c Hw) as (-> & _).
  - now destruct (cont_space c c2 c Hw) as (-> & -> & _).
  - now destruct (cont_space c c2 c3 Hw) as (-> & -> & -> & _).
Qed.

Lemma blank_cont (c : ascii) (s : string) :
  is_cont c = true -> blank (String c s) = false.
Proof. intros H. now rewrite blank_unfold, (after_space_cont c s H). Qed.

(** ** Stripping a text gives a text *)

Lemma is_text_lstrip (s : string) :
  is_text s = true -> is_text (lstrip s) = true.
Proof.
  revert s. apply text_ind.
  - reflexivity.
  - intros c s Hw Ht IH. rewrite lstrip_unfold, (after_space_1 c s Hw).
    destruct (is_space c); [exact IH | now rewrite (is_text_1 c s Hw)].
  - intros c1 c2 s Hw Hc Ht IH. rewrite lstrip_unfold, (after_space_2 c1 c2 s Hw).
    destruct (is_space2 c1 c2); [exact IH|].
    now rewrite (is_text_2 c1 c2 s Hw), Hc.
  - intros c1 c2 c3 s Hw Hc2 Hc3 Ht IH.
    rewrite lstrip_unfold, (after_space_3 c1 c2 c3 s Hw).
    destruct (is_space3 c1 c2 c3); [exact IH|].
    now rewrite (is_text_3 c1 c2 c3 s Hw), Hc2, Hc3.
  - intros c1 c2 c3 c4 s Hw Hc2 Hc3 Hc4 Ht IH.
    rewrite lstrip_unfold, (after_space_4 c1 _ Hw).
    now rewrite (is_text_4 c1 c2 c3 c4 s Hw), Hc2, Hc3, Hc4.
Qed.

(** [rstrip] on a character that is not of one byte. *)
Lemma rstrip_2 (c1 c2 : ascii) (s : string) :
  is_cont c2 = true ->
  rstrip (String c1 (String c2 s))
  = if blank (String c1 (String c2 s)) then ""
    else String c1 (String c2 (rstrip s)).
Proof.
  intros Hc. rewrite rstrip_unfold.
  destruct (blank (String c1 _)); [reflexivity|].
  now rewrite rstrip_unfold, (blank_cont c2 s Hc).
Qed.

Lemma rstrip_3 (c1 c2 c3 : ascii) (s : string) :
  is_cont c2 = true -> is_cont c3 = true ->
  rstrip (String c1 (String c2 (String c3 s)))
  = if blank (String c1 (String c2 (String c3 s))) then ""
    else String c1 (String c2 (String c3 (rstrip s))).
Proof.
  intros Hc2 Hc3. rewrite rstrip_unfold.
  destruct (blank (String c1 _)); [reflexivity|].
  now rewrite (rstrip_2 c2 c3 s Hc3), (blank_cont c2 _ Hc2).
Qed.

Lemma rstrip_4 (c1 c2 c3 c4 : ascii) (s : string) :
  is_cont c2 = true -> is_cont c3 = true -> is_cont c4 = true ->
  rstrip (String c1 (String c2 (String c3 (String c4 s))))
  = if blank (String c1 (String c2 (String c3 (String c4 s)))) then ""
    else String c1 (String c2 (String c3 (String c4 (rstrip s)))).
Proof.
  intros Hc2 Hc3 Hc4. rewrite rstrip_unfold.
  destruct (blank (String c1 _)); [reflexivity|].
  now rewrite (rstrip_3 c2 c3 c4 s Hc3 Hc4), (blank_cont c2 _ Hc2).
Qed.

Lemma is_text_rstrip (s : string) :
  is_text s = true -> is_text (rstrip s) = true.
Proof.
  revert s. apply text_ind.
  - reflexivity.
  - intros c s Hw Ht IH. rewrite rstrip_unfold.
    destruct (blank _); [reflexivity | now rewrite (is_text_1 _ _ Hw)].
  - intros c1 c2 s Hw Hc Ht IH. rewrite (rstrip_2 c1 c2 s Hc).
    destruct (blank _); [reflexivity | now rewrite (is_text_2 _ _ _ Hw), Hc].
  - intros c1 c2 c3 s Hw Hc2 Hc3 Ht IH. rewrite (rstrip_3 c1 c2 c3 s Hc2 Hc3).
    destruct (blank _); [reflexivity|].
    now rewrite (is_text_3 _ _ _ _ Hw), Hc2, Hc3.
  - intros c1 c2 c3 c4 s Hw Hc2 Hc3 Hc4 Ht IH.
    rewrite (rstrip_4 c1 c2 c3 c4 s Hc2 Hc3 Hc4).
    destruct (blank _); [reflexivity|].
    now rewrite (is_text_4 _ _ _ _ _ Hw), Hc2, Hc3, Hc4.
Qed.

Lemma is_text_strip (s : string) :
  is_text s = true -> is_text (strip s) = true.
Proof. intros H. now apply is_text_rstrip, is_text_lstrip. Qed.

(** ** The lines of a text are texts *)

Lemma is_text_cons_head_1 (c : ascii) (l : list string) :
  width c = 1 ->
  Forall (fun x => is_text x = true) l ->
  Forall (fun x => is_text x = true) (cons_head c l).
Proof.
  intros Hw [|x t Hx Hl]; simpl.
  - constructor; [now rewrite (is_text_1 _ _ Hw) | constructor].
  - constructor; [now rewrite (is_text_1 _ _ Hw) | exact Hl].
Qed.

Lemma split_cons (c : ascii) (s : string) :
  Ascii.eqb c LF = false -> split LF (String c s) = cons_head c (split LF s).
Proof. intros Hc. simpl. now rewrite Hc. Qed.

Lemma split_text (s : string) :
  is_text s = true -> Forall (fun x => is_text x = true) (split LF s).
Proof.
  revert s. apply text_ind.
  - now constructor.
  - intros c s Hw Ht IH. cbn [split]. destruct (Ascii.eqb c LF).
    + now constructor.
    + now apply is_text_cons_head_1.
  - intros c1 c2 s Hw Hc Ht IH.
    destruct (width2_space c1 c2 c2 Hw) as (_ & _ & _ & H1).
    destruct (cont_space c2 c2 c2 Hc) as (_ & _ & _ & _ & H2).
    rewrite (split_cons _ _ H1), (split_cons _ _ H2).
    destruct IH as [|x t Hx Hl]; simpl;
      (constructor; [now rewrite (is_text_2 _ _ _ Hw), Hc | assumption || constructor]).
  - intros c1 c2 c3 s Hw Hc2 Hc3 Ht IH.
    destruct (width3_space c1 c2 Hw) as (_ & _ & _ & H1).
    destruct (cont_space c2 c2 c2 Hc2) as (_ & _ & _ & _ & H2).
    destruct (cont_space c3 c2 c2 Hc3) as (_ & _ & _ & _ & H3).
    rewrite (split_cons _ _ H1), (split_cons _ _ H2), (split_cons _ _ H3).
    destruct IH as [|x t Hx Hl]; simpl;
      (constructor;
       [now rewrite (is_text_3 _ _ _ _ Hw), Hc2, Hc3 | assumption || constructor]).
  - intros c1 c2 c3 c4 s Hw Hc2 Hc3 Hc4 Ht IH.
    destruct (width4_space c1 c2 c2 Hw) as (_ & _ & _ & _ & H1).
    destruct (cont_space c2 c2 c2 Hc2) as (_ & _ & _ & _ & H2).
    destruct (cont_space c3 c2 c2 Hc3) as (_ & _ & _ & _ & H3).
    destruct (cont_space c4 c2 c2 Hc4) as (_ & _ & _ & _ & H4).
    rewrite (split_cons _ _ H1), (split_cons _ _ H2), (split_cons _ _ H3),
      (split_cons _ _ H4).
    destruct IH as [|x t Hx Hl]; simpl;
      (constructor;
       [now rewrite (is_text_4 _ _ _ _ _ Hw), Hc2, Hc3, Hc4
       | assumption || constructor]).
Qed.

End Texts.
Section Tabs.

Import Py.

Lemma blank_1 (c : ascii) (s : string) :
  width c = 1 -> blank (String c s) = is_space c && blank s.
Proof.
  intros Hw. rewrite blank_unfold, (after_space_1 c s Hw).
  now destruct (is_space c).
Qed.

Lemma blank_2 (c1 c2 : ascii) (s : string) :
  width c1 = 2 -> blank (String c1 (String c2 s)) = is_space2 c1 c2 && blank s.
Proof.
  intros Hw. rewrite blank_unfold, (after_space_2 c1 c2 s Hw).
  now destruct (is_space2 c1 c2).
Qed.

Lemma blank_3 (c1 c2 c3 : ascii) (s : string) :
  width c1 = 3 ->
  blank (String c1 (String c2 (String c3 s))) = is_space3 c1 c2 c3 && blank s.
Proof.
  intros Hw. rewrite blank_unfold, (after_space_3 c1 c2 c3 s Hw).
  now destruct (is_space3 c1 c2 c3).
Qed.

Lemma blank_4 (c1 : ascii) (s : string) :
  width c1 = 4 -> blank (String c1 s) = false.
Proof. intros Hw. now rewrite blank_unfold, (after_space_4 c1 s Hw). Qed.

Lemma remove_cons (old c : ascii) (s : string) :
  Ascii.eqb c old = false ->
  replace old "" (String c s) = String c (replace old "" s).
Proof. intros H. cbn [replace]. now rewrite H. Qed.

Lemma remove_at (old c : ascii) (s : string) :
  Ascii.eqb c old = true -> replace old "" (String c s) = replace old "" s.
Proof. intros H. cbn [replace]. now rewrite H. Qed.

(** Bytes of a character of several bytes are no tabs. *)
Ltac keep_wide :=
  repeat match goal with
         | H : width ?c = 2 |- context [replace TAB "" (String ?c _)] =>
             rewrite (remove_cons TAB c)
               by (now destruct (width2_space c c c H) as (_ & _ & ? & _))
         | H : width ?c = 3 |- context [replace TAB "" (String ?c _)] =>
             rewrite (remove_cons TAB c)
               by (now destruct (width3_space c c H) as (_ & _ & ? & _))
         | H : width ?c = 4 |- context [replace TAB "" (String ?c _)] =>
             rewrite (remove_cons TAB c)
               by (now destruct (width4_space c c c H) as (_ & _ & _ & ? & _))
         | H : is_cont ?c = true |- context [replace TAB "" (String ?c _)] =>
             rewrite (remove_cons TAB c)
               by (now destruct (cont_space c c c H) as (_ & _ & _ & ? & _))
         end.

(** In a text, the tabs do not decide whether it is white space
    throughout. *)
Lemma blank_remove_tabs (s : string) :
  is_text s = true -> blank (replace TAB "" s) = blank s.
Proof.
  revert s. apply (text_ind (fun s => blank (replace TAB "" s) = blank s)).
  - reflexivity.
  - intros c s Hw Ht IH. rewrite (blank_1 c s Hw).
    destruct (Ascii.eqb c TAB) eqn:Hc.
    + rewrite (remove_at _ _ _ Hc), IH.
      apply Ascii.eqb_eq in Hc as ->. reflexivity.
    + now rewrite (remove_cons _ _ _ Hc), (blank_1 c _ Hw), IH.
  - intros c1 c2 s Hw Hc Ht IH. keep_wide.
    now rewrite !(blank_2 c1 c2 _ Hw), IH.
  - intros c1 c2 c3 s Hw Hc2 Hc3 Ht IH. keep_wide.
    now rewrite !(blank_3 c1 c2 c3 _ Hw), IH.
  - intros c1 c2 c3 c4 s Hw Hc2 Hc3 Hc4 Ht IH. keep_wide.
    now rewrite !(blank_4 c1 _ Hw).
Qed.

(** A text that does not start with white space does not after its tabs
    are removed. *)
Lemma after_space_remove_tabs (r : string) :
  is_text r = true -> after_space r = None ->
  after_space (replace TAB "" r) = None.
Proof.
  revert r.
  apply (text_ind (fun r => after_space r = None ->
                            after_space (replace TAB "" r) = None)).
  - reflexivity.
  - intros c s Hw Ht _. rewrite (after_space_1 c s Hw).
    destruct (is_space c) eqn:Hs; [discriminate|]. intros _.
    destruct (Ascii.eqb c TAB) eqn:Hc.
    { apply Ascii.eqb_eq in Hc as ->. discriminate Hs. }
    now rewrite (remove_cons _ _ _ Hc), (after_space_1 c _ Hw), Hs.
  - intros c1 c2 s Hw Hc Ht _. rewrite (after_space_2 c1 c2 s Hw).
    destruct (is_space2 c1 c2) eqn:Hs; [discriminate|]. intros _.
    keep_wide. now rewrite (after_space_2 c1 c2 _ Hw), Hs.
  - intros c1 c2 c3 s Hw Hc2 Hc3 Ht _. rewrite (after_space_3 c1 c2 c3 s Hw).
    destruct (is_space3 c1 c2 c3) eqn:Hs; [discriminate|]. intros _.
    keep_wide. now rewrite (after_space_3 c1 c2 c3 _ Hw), Hs.
  - intros c1 c2 c3 c4 s Hw Hc2 Hc3 Hc4 Ht _ _. keep_wide.
    apply (after_space_4 c1 _ Hw).
Qed.

Lemma rstrip_fixed_inv (c : ascii) (s : string) :
  rstrip (String c s) = String c s ->
  blank (String c s) = false /\ rstrip s = s.
Proof.
  rewrite rstrip_unfold. destruct (blank (String c s)); [discriminate|].
  now intros [= ->].
Qed.

(** A text with nothing to strip on the right has nothing to strip on
    the right after its tabs are removed. *)
Lemma rstrip_remove_tabs (r : string) :
  is_text r = true -> rstrip r = r ->
  rstrip (replace TAB "" r) = replace TAB "" r.
Proof.
  revert r.
  apply (text_ind (fun r => rstrip r = r ->
                            rstrip (replace TAB "" r) = replace TAB "" r)).
  - reflexivity.
  - intros c s Hw Ht IH H.
    pose proof (blank_remove_tabs (String c s)) as Hb.
    rewrite (is_text_1 c s Hw) in Hb. specialize (Hb Ht).
    apply rstrip_fixed_inv in H as [Hn Hs]. rewrite Hn in Hb.
    destruct (Ascii.eqb c TAB) eqn:Hc.
    + rewrite (remove_at _ _ _ Hc). now apply IH.
    + rewrite (remove_cons _ _ _ Hc) in *. now rewrite rstrip_unfold, Hb, IH.
  - intros c1 c2 s Hw Hc Ht IH H.
    pose proof (blank_remove_tabs (String c1 (String c2 s))) as Hb.
    rewrite (is_text_2 c1 c2 s Hw), Hc in Hb. specialize (Hb Ht).
    rewrite (rstrip_2 c1 c2 s Hc) in H.
    destruct (blank (String c1 (String c2 s))); [discriminate|].
    injection H as H. revert Hb. keep_wide. intros Hb.
    now rewrite (rstrip_2 c1 c2 _ Hc), Hb, (IH H).
  - intros c1 c2 c3 s Hw Hc2 Hc3 Ht IH H.
    pose proof (blank_remove_tabs (String c1 (String c2 (String c3 s)))) as Hb.
    rewrite (is_text_3 c1 c2 c3 s Hw), Hc2, Hc3 in Hb. specialize (Hb Ht).
    rewrite (rstrip_3 c1 c2 c3 s Hc2 Hc3) in H.
    destruct (blank (String c1 (String c2 (String c3 s)))); [discriminate|].
    injection H as H. revert Hb. keep_wide. intros Hb.
    now rewrite (rstrip_3 c1 c2 c3 _ Hc2 Hc3), Hb, (IH H).
  - intros c1 c2 c3 c4 s Hw Hc2 Hc3 Hc4 Ht IH H.
    pose proof (blank_4 c1 (String c2 (String c3 (String c4 s))) Hw) as Hn.
    rewrite (rstrip_4 c1 c2 c3 c4 s Hc2 Hc3 Hc4), Hn in H.
    injection H as H. keep_wide.
    now rewrite (rstrip_4 c1 c2 c3 c4 _ Hc2 Hc3 Hc4), (blank_4 c1 _ Hw), (IH H).
Qed.

Lemma after_space_strip (s : string) : after_space (strip s) = None.
Proof.
  unfold strip. destruct (rstrip_head (lstrip s)) as (t & Hs & _).
  apply (after_space_prefix _ t). rewrite <- Hs. apply after_space_lstrip.
Qed.

Lemma after_space_tab (s : string) : after_space (String TAB s) = Some s.
Proof. reflexivity. Qed.

(** A stripped line of a text, once its tabs are removed, has nothing
    left to strip and is empty only if it was. *)
Lemma strip_remove_tabs (l : string) :
  is_text l = true ->
  strip (replace TAB "" (strip l)) = replace TAB "" (strip l)
  /\ (truthy (strip l) = true -> truthy (replace TAB "" (strip l)) = true).
Proof.
  intros Ht.
  pose proof (is_text_strip l Ht) as Hr.
  pose proof (after_space_strip l) as Ha.
  split.
  - unfold strip at 1.
    rewrite (lstrip_fixed _ (after_space_remove_tabs _ Hr Ha)).
    apply (rstrip_remove_tabs _ Hr).
    unfold strip. apply rstrip_again.
  - destruct (strip l) as [|c r]; [discriminate|]. intros _.
    destruct (Ascii.eqb c TAB) eqn:Hc.
    + apply Ascii.eqb_eq in Hc as ->. now rewrite after_space_tab in Ha.
    + now rewrite (remove_cons _ _ _ Hc).
Qed.

End Tabs.

(* ===================================================================== *)
(** * The model at work *)
(* ===================================================================== *)

Example splitlines_example :
  Py.splitlines ("a" +:+ Py.nl +:+ Py.nl +:+ "b" +:+ Py.nl) = ["a"; ""; "b"].
Proof. reflexivity. Qed.

Example splitlines_crlf_example :
  Py.splitlines ("a" +:+ String Py.CR Py.nl +:+ "b" +:+ String "012" "c")
  = ["a"; "b"; "c"].
Proof. reflexivity. Qed.

Example split_example :
  Py.split Py.LF ("a" +:+ Py.nl +:+ Py.nl +:+ "b" +:+ Py.nl) = ["a"; ""; "b"; ""].
Proof. reflexivity. Qed.

Example iter_lines_example :
  Py.iter_lines (Py.translate_newlines ("a" +:+ String Py.CR Py.nl +:+ "b"))
  = ["a" +:+ Py.nl; "b"].
Proof. reflexivity. Qed.

Example strip_example : Py.strip ("  a b " +:+ Py.tab +:+ Py.nl) = "a b".
Proof. reflexivity. Qed.

Example strip_wide_example :
  Py.strip (Sample.no_break_space +:+ " a" +:+ Sample.em_space +:+ "b "
            +:+ Sample.next_line +:+ Py.tab)
  = "a" +:+ Sample.em_space +:+ "b"
  /\ Py.strip (Sample.em_space +:+ Sample.no_break_space) = "".
Proof. split; reflexivity. Qed.

Example splitlines_wide_example :
  Py.splitlines ("a" +:+ Sample.next_line +:+ "b" +:+ Sample.line_separator
                 +:+ "c" +:+ Sample.no_break_space +:+ "d")
  = ["a"; "b"; "c" +:+ Sample.no_break_space +:+ "d"].
Proof. reflexivity. Qed.

Example lower_example :
  str_lower Sample.linux "My-Project Z@[`{" = "my-project z@[`{"
  /\ str_lower Sample.linux "ÉCOLE-X Y" = "école-x y".
Proof. split; reflexivity. Qed.

Example default_name_example :
  map_chars separator (str_lower Sample.linux "ÉCOLE-X Y") = "école_x_y"
  /\ map_chars separator (str_lower Sample.linux "My Project") = "my_project".
Proof. split; reflexivity. Qed.

Example is_text_example :
  Py.is_text ("✅ école" +:+ Sample.em_space) = true
  /\ Py.is_text (String "195" "cole") = false.
Proof. split; reflexivity. Qed.

Example path_name_example : Py.path_name "/home/me/My Project/" = "My Project".
Proof. reflexivity. Qed.

Example is_requirements_file_example :
  map is_requirements_file
    ["requirements.txt"; "requirements.dev.txt"; "requirements"; "dev.txt";
     "requirements.txt.bak"]
  = [true; true; false; false; false].
Proof. reflexivity. Qed.

Example resolve_example :
  resolve "/home/me/My Project" "src/../tests/./x" = ["home"; "me"; "My Project"; "tests"; "x"]
  /\ resolve "/home/me" "/etc/debian_version" = ["etc"; "debian_version"].
Proof. split; reflexivity. Qed.

Example dev_requirements_example :
  _strip_content _dev_requirements_content
  = Py.join Py.nl
      ["pytest"; "mypy"; "types-python-dateutil"; "build"; "toml"; "twine";
       "wheel"; "pkginfo"; "hatchling"; "moto"].
Proof. reflexivity. Qed.

(** The poetry manifest written for the example requirements file: the
    per-line stripping of [_strip_content] leaves the dependencies flush
    left in the file. *)
Example poetry_manifest_example :
  Os.stat
    (fs (_create_pyproject_toml Sample.linux_no_git
           (set_use_poetry true
              (Sample.state Sample.fs_requirements
                 ["My Pkg-X"; ""; "a demo"; ""; ""]))).2)
    (Sample.project_path ++ ["pyproject.toml"])
  = Some (File (Py.join Py.nl
      ["[tool.poetry]";
       "name = " +:+ Py.dq +:+ "my_pkg_x" +:+ Py.dq;
       "version = " +:+ Py.dq +:+ "0.1.0" +:+ Py.dq;
       "description = " +:+ Py.dq +:+ "a demo" +:+ Py.dq;
       "authors = [" +:+ Py.dq +:+ "unnamed developer <developer@example.com>"
         +:+ Py.dq +:+ "]";
       "[tool.poetry.dependencies]";
       "python = " +:+ Py.dq +:+ "^3.8" +:+ Py.dq;
       "requests>=2";
       "flask";
       "[tool.poetry.dev-dependencies]";
       "pytest = " +:+ Py.dq +:+ "^7.0" +:+ Py.dq;
       "[build-system]";
       "requires = [" +:+ Py.dq +:+ "poetry-core>=1.0.0" +:+ Py.dq +:+ "]";
       "build-backend = " +:+ Py.dq +:+ "poetry.core.masonry.api" +:+ Py.dq])).
Proof. vm_compute. reflexivity. Qed.

(* ===================================================================== *)
(** * Running the monad *)
(* ===================================================================== *)

Lemma bind_ok {A B} (m : M A) (k : A -> M B) st a st' :
  m st = (Ok a, st') -> Run.bind m k st = k a st'.
Proof. intros H. unfold Run.bind. now rewrite H. Qed.

Lemma bind_exit {A B} (m : M A) (k : A -> M B) st c st' :
  m st = (Exit c, st') -> Run.bind m k st = (Exit c, st').
Proof. intros H. unfold Run.bind. now rewrite H. Qed.

Lemma bind_raise {A B} (m : M A) (k : A -> M B) st e st' :
  m st = (Raise e, st') -> Run.bind m k st = (Raise e, st').
Proof. intros H. unfold Run.bind. now rewrite H. Qed.

(** A computation that ends normally after [bind] went through both
    halves. *)
Lemma bind_inv_ok {A B} (m : M A) (k : A -> M B) st b st' :
  Run.bind m k st = (Ok b, st') ->
  exists a st1, m st = (Ok a, st1) /\ k a st1 = (Ok b, st').
Proof.
  unfold Run.bind. destruct (m st) as [[a|c|e] st1]; intros H;
    [now exists a, st1 | discriminate | discriminate].
Qed.

Lemma print_run (msg : string) st :
  print msg st = (Ok tt, emit (msg +:+ Py.nl) st).
Proof. reflexivity. Qed.

Lemma path_exists_run E p st :
  path_exists E p st = (Ok (Os.exists_ (fs st) (resolve (cwd E) p)), st).
Proof. reflexivity. Qed.


(** Run the first command of a sequence by the lemma [L]. *)
Ltac step_with L := erewrite bind_ok by (apply L).
Ltac step_in H L := erewrite bind_ok in H by (apply L).

Lemma modify_run (f : State -> State) st : modify f st = (Ok tt, f st).
Proof. reflexivity. Qed.

Lemma get_run st : get st = (Ok st, st).
Proof. reflexivity. Qed.

Lemma print_info_run (msg : string) st :
  print_info msg st = (Ok tt, emit (line ("👉 " +:+ msg)) st).
Proof. reflexivity. Qed.

Lemma print_success_run (msg : string) st :
  print_success msg st = (Ok tt, emit (success_line msg) st).
Proof. reflexivity. Qed.

Lemma input_run (prompt l : string) (rest : list string) st :
  stdin st = l :: rest ->
  input prompt st = (Ok l, set_stdin rest (emit prompt st)).
Proof. intros H. unfold input. simpl. now rewrite H. Qed.

Lemma input_eof (prompt : string) st :
  stdin st = [] -> input prompt st = (Raise EOFError, emit prompt st).
Proof. intros H. unfold input. simpl. now rewrite H. Qed.

Lemma open_read_run E p st contents :
  Os.read (fs st) (resolve (cwd E) p) = inr contents ->
  open_read E p st = (Ok contents, st).
Proof.
  intros H. unfold open_read. step_with get_run. now rewrite H.
Qed.

(** However [input] ends, its prompt was written. *)
Lemma input_emits (prompt : string) st o st' :
  input prompt st = (o, st') -> In prompt (stdout st').
Proof.
  unfold input. destruct (stdin (emit prompt st)); intros [= <- <-];
    simpl; apply in_or_app; right; left; reflexivity.
Qed.


(* ===================================================================== *)
(** * What the file and process primitives leave alone *)
(* ===================================================================== *)

Section Frame.

Variable E : Env.

Lemma later_refl st : later st st.
Proof. repeat split. exists []. now rewrite app_nil_r. Qed.

Lemma later_trans a b c : later a b -> later b c -> later a c.
Proof.
  intros (Hn1 & Hp1 & l1 & Ho1) (Hn2 & Hp2 & l2 & Ho2).
  repeat split; [congruence | congruence |].
  exists (l1 ++ l2). now rewrite Ho2, Ho1, app_assoc.
Qed.

Lemma later_emit s st : later st (emit s st).
Proof. repeat split. now exists [s]. Qed.

Lemma later_set_fs f st : later st (set_fs f st).
Proof. repeat split. exists []. simpl. now rewrite app_nil_r. Qed.

Lemma later_set_stdin i st : later st (set_stdin i st).
Proof. repeat split. exists []. simpl. now rewrite app_nil_r. Qed.

Lemma later_set_spawned l st : later st (set_spawned l st).
Proof. repeat split. exists []. simpl. now rewrite app_nil_r. Qed.

Lemma quiet_ret {A} (a : A) : quiet (ret a).
Proof. intros st r st' [= <- <-]. apply later_refl. Qed.

Lemma quiet_raise {A} e : quiet (@raise A e).
Proof. intros st r st' [= <- <-]. apply later_refl. Qed.

Lemma quiet_sys_exit c : quiet (sys_exit c).
Proof. intros st r st' [= <- <-]. apply later_refl. Qed.

Lemma quiet_get : quiet get.
Proof. intros st r st' [= <- <-]. apply later_refl. Qed.

Lemma quiet_lift {A} (x : exn + A) : quiet (lift x).
Proof. destruct x; [apply quiet_raise | apply quiet_ret]. Qed.

Lemma quiet_bind {A B} (m : M A) (k : A -> M B) :
  quiet m -> (forall a, quiet (k a)) -> quiet (Run.bind m k).
Proof.
  intros Hm Hk st r st'. unfold Run.bind.
  destruct (m st) as [[a|c|e] st1] eqn:Hrun; intros H.
  - eapply later_trans; [eapply Hm, Hrun | eapply Hk, H].
  - injection H as <- <-. eapply Hm, Hrun.
  - injection H as <- <-. eapply Hm, Hrun.
Qed.

Lemma quiet_try {A} (m : M A) (h : exn -> option (M A)) :
  quiet m -> (forall e k, h e = Some k -> quiet k) -> quiet (try_except m h).
Proof.
  intros Hm Hh st r st'. unfold try_except.
  destruct (m st) as [[a|c|e] st1] eqn:Hrun.
  - intros [= <- <-]. eapply Hm, Hrun.
  - intros [= <- <-]. eapply Hm, Hrun.
  - destruct (h e) as [k|] eqn:He.
    + intros H. eapply later_trans; [eapply Hm, Hrun | eapply Hh, H; exact He].
    + intros [= <- <-]. eapply Hm, Hrun.
Qed.

Lemma quiet_print msg : quiet (print msg).
Proof. intros st r st' [= <- <-]. apply later_emit. Qed.

Lemma quiet_input prompt : quiet (input prompt).
Proof.
  intros st r st'. unfold input.
  destruct (stdin (emit prompt st)) as [|l rest]; intros [= <- <-].
  - apply later_emit.
  - eapply later_trans; [apply later_emit | apply later_set_stdin].
Qed.

Lemma quiet_set_fs f : quiet (modify (set_fs f)).
Proof. intros st r st' [= <- <-]. apply later_set_fs. Qed.

Lemma quiet_subprocess_run cmd capture check :
  quiet (subprocess_run E cmd capture check).
Proof.
  intros st r st'. unfold subprocess_run.
  destruct (spawn E cmd (environ_PATH st) (fs st)) as [[[rc out] f']|].
  - destruct (check && negb (rc =? 0)%Z); intros [= <- <-];
      (eapply later_trans; [|apply later_set_fs]);
      (destruct capture;
       [apply later_set_spawned
       |eapply later_trans; [apply later_set_spawned | apply later_emit]]).
  - intros [= <- <-]. apply later_set_spawned.
Qed.

End Frame.

(** Break a goal [quiet m] along the structure of [m]. *)
Ltac quiet_step :=
  first
    [ apply quiet_ret | apply quiet_raise | apply quiet_sys_exit
    | apply quiet_get | apply quiet_lift | apply quiet_print
    | apply quiet_input | apply quiet_set_fs | apply quiet_subprocess_run
    | apply quiet_bind; [|intros ?]
    | apply quiet_try; [|intros ? ? ?]
    | match goal with
      | |- quiet (if ?b then _ else _) => destruct b
      | |- quiet (match ?x with _ => _ end) => destruct x
      end ].

Ltac quiet_auto := repeat quiet_step.

Section FrameMethods.

Variable E : Env.

Lemma quiet_path_exists p : quiet (path_exists E p).
Proof. unfold path_exists. quiet_auto. Qed.

Lemma quiet_open_read p : quiet (open_read E p).
Proof. unfold open_read. quiet_auto. Qed.

Lemma quiet_open_write p content : quiet (open_write E p content).
Proof. unfold open_write. quiet_auto. Qed.

Lemma quiet_mkdir_p p : quiet (mkdir_p E p).
Proof. unfold mkdir_p. quiet_auto. Qed.

Lemma quiet_path_touch p : quiet (path_touch E p).
Proof. unfold path_touch. quiet_auto. Qed.

Lemma quiet_get_git_config key : quiet (_get_git_config E key).
Proof.
  unfold _get_git_config. quiet_auto.
  match goal with H : Some _ = Some _ |- _ => injection H as <- end.
  quiet_auto.
Qed.

Lemma quiet_convert_requirements : quiet (_convert_requirements_to_poetry E).
Proof.
  unfold _convert_requirements_to_poetry.
  apply quiet_bind; [apply quiet_path_exists | intros e].
  apply quiet_bind; [|intros; apply quiet_ret].
  destruct e; [|apply quiet_ret].
  apply quiet_bind; [apply quiet_open_read | intros; apply quiet_ret].
Qed.

End FrameMethods.

(* ===================================================================== *)
(** * Existing files are kept *)
(* ===================================================================== *)

Section Idempotence.

Variable E : Env.

Lemma create_pyproject_toml_present st :
  Os.exists_ (fs st) (resolve (cwd E) "pyproject.toml") = true ->
  _create_pyproject_toml E st
  = (Ok tt, emit (success_line "pyproject.toml already exists.") st).
Proof.
  intros H. unfold _create_pyproject_toml.
  rewrite (bind_ok _ _ _ _ _ (path_exists_run E _ st)), H.
  reflexivity.
Qed.

Lemma write_if_missing_present filename content st :
  Os.exists_ (fs st) (resolve (cwd E) filename) = true ->
  _write_if_missing E filename content st
  = (Ok tt, emit (success_line (filename +:+ " already exists.")) st).
Proof.
  intros H. unfold _write_if_missing.
  rewrite (bind_ok _ _ _ _ _ (path_exists_run E _ st)), H.
  reflexivity.
Qed.

Lemma write_inv (f f' : gmap path node) k content :
  Os.write f k content = inr f' -> f' = <[k := File content]> f.
Proof.
  unfold Os.write. intros H.
  destruct (stat f k) as [[?|]|]; try discriminate;
    destruct (stat f (removelast k)) as [[?|]|]; try discriminate;
    now injection H as <-.
Qed.

(** Once written, a file is there. *)
Lemma write_exists (f f' : gmap path node) k content :
  Os.write f k content = inr f' -> Os.exists_ f' k = true.
Proof.
  intros ->%write_inv. unfold Os.exists_, Os.stat.
  destruct k; [reflexivity|]. now rewrite lookup_insert_eq.
Qed.

(** Writing one file removes no other. *)
Lemma write_keeps (f f' : gmap path node) k k' content :
  Os.write f k content = inr f' ->
  Os.exists_ f k' = true -> Os.exists_ f' k' = true.
Proof.
  intros ->%write_inv. unfold Os.exists_, Os.stat.
  destruct k' as [|c' k']; [reflexivity|].
  rewrite lookup_insert. now destruct (decide (k = c' :: k')).
Qed.

End Idempotence.

(** C1. When [pyproject.toml] is already there, [_create_pyproject_toml]
    ends normally having only printed that it exists; when the target of
    [_write_if_missing] is already there, it ends normally having only
    printed that it exists.  In both cases the file system, and with it
    the content of that file, is the one the call started from, and no
    command was spawned. *)
Theorem existing_files_are_kept
  (E : Env) (st1 st2 : State) (filename content : string) :
  Os.exists_ (fs st1) (resolve (cwd E) "pyproject.toml") = true ->
  Os.exists_ (fs st2) (resolve (cwd E) filename) = true ->
  (exists st1',
      _create_pyproject_toml E st1 = (Ok tt, st1')
      /\ fs st1' = fs st1
      /\ stdout st1'
         = stdout st1 ++ [success_line "pyproject.toml already exists."]
      /\ spawned st1' = spawned st1
      /\ package_name st1' = package_name st1
      /\ stdin st1' = stdin st1)
  /\ (exists st2',
         _write_if_missing E filename content st2 = (Ok tt, st2')
         /\ fs st2' = fs st2
         /\ stdout st2'
            = stdout st2 ++ [success_line (filename +:+ " already exists.")]
         /\ spawned st2' = spawned st2
         /\ stdin st2' = stdin st2).
Proof.
  intros H1 H2. split.
  - eexists. split; [now apply create_pyproject_toml_present|].
    repeat split.
  - eexists. split; [now apply write_if_missing_present|].
    repeat split.
Qed.

Lemma existing_files_are_kept_witness :
  Os.exists_ Sample.fs_configured
    (resolve Sample.project_dir "pyproject.toml") = true
  /\ Os.exists_ Sample.fs_configured
       (resolve Sample.project_dir "requirements.txt") = true
  /\ (_create_pyproject_toml Sample.linux (Sample.state Sample.fs_configured [])).1
     = Ok tt
  /\ (_write_if_missing Sample.linux "requirements.txt" "# project requirements"
        (Sample.state Sample.fs_configured [])).1
     = Ok tt.
Proof.
  assert (H1 : Os.exists_ (fs (Sample.state Sample.fs_configured []))
                 (resolve (cwd Sample.linux) "pyproject.toml") = true)
    by (vm_compute; reflexivity).
  assert (H2 : Os.exists_ (fs (Sample.state Sample.fs_configured []))
                 (resolve (cwd Sample.linux) "requirements.txt") = true)
    by (vm_compute; reflexivity).
  split; [exact H1 | split; [exact H2 |]].
  destruct (existing_files_are_kept Sample.linux _ _ "requirements.txt"
              "# project requirements" H1 H2)
    as [[s1 [-> _]] [s2 [-> _]]].
  split; reflexivity.
Defined.

Section SecondRun.

Variable E : Env.

(** After [_write_if_missing] the file is there, and so is whatever was
    there before. *)
Lemma write_if_missing_ok filename content st st' :
  _write_if_missing E filename content st = (Ok tt, st') ->
  Os.exists_ (fs st') (resolve (cwd E) filename) = true
  /\ forall k, Os.exists_ (fs st) k = true -> Os.exists_ (fs st') k = true.
Proof.
  unfold _write_if_missing. step_with path_exists_run.
  destruct (Os.exists_ (fs st) (resolve (cwd E) filename)) eqn:Hex;
    cbn [negb]; cbv beta iota.
  - intros [= <-]. simpl. auto.
  - step_with print_info_run. intros H.
    apply bind_inv_ok in H as ([] & s1 & Hw & H). injection H as <-.
    unfold open_write in Hw. rewrite (bind_ok _ _ _ _ _ (get_run _)) in Hw.
    apply bind_inv_ok in Hw as (f' & s2 & Hl & Hm).
    destruct (Os.write _ _ _) as [e|f''] eqn:Hwr; [discriminate|].
    injection Hl as <- <-. injection Hm as <-. simpl in *. split.
    + eapply write_exists, Hwr.
    + intros k. eapply write_keeps, Hwr.
Qed.

(** Running [_setup_requirements] again after it ended normally changes
    no file. *)
Lemma setup_requirements_again st st1 :
  _setup_requirements E st = (Ok tt, st1) ->
  exists st2, _setup_requirements E st1 = (Ok tt, st2) /\ fs st2 = fs st1.
Proof.
  unfold _setup_requirements. intros H.
  apply bind_inv_ok in H as ([] & s & H1 & H2).
  apply write_if_missing_ok in H1 as [Hbase _].
  apply write_if_missing_ok in H2 as [Hdev Hkeep].
  apply Hkeep in Hbase.
  rewrite (bind_ok _ _ _ _ _ (write_if_missing_present E _ _ st1 Hbase)).
  rewrite write_if_missing_present by exact Hdev.
  eexists. split; reflexivity.
Qed.

End SecondRun.

(* ===================================================================== *)
(** * What the file operations create and keep *)
(* ===================================================================== *)

Section FileFacts.

Lemma stat_insert_dir (f : gmap path node) (k : path) :
  stat (<[k := Dir]> f) k = Some Dir.
Proof. destruct k; [reflexivity|]. simpl. apply lookup_insert_eq. Qed.

Lemma stat_insert_keeps_dir (f : gmap path node) (k kd : path) :
  stat f kd = Some Dir -> stat (<[k := Dir]> f) kd = Some Dir.
Proof.
  destruct kd as [|c kd]; [reflexivity|]. simpl. intros H.
  rewrite lookup_insert. now destruct (decide (k = c :: kd)).
Qed.

(** [makedirs] only adds directories. *)
Lemma makedirs_keeps_dir (f f' : gmap path node) (pre rest : list string) kd :
  Os.makedirs f pre rest = inr f' ->
  stat f kd = Some Dir -> stat f' kd = Some Dir.
Proof.
  revert f pre. induction rest as [|c rest IH]; intros f pre; simpl.
  - now intros [= <-].
  - destruct (stat f (normalize (pre ++ [c]))) as [[?|]|]; intros H Hd.
    + discriminate.
    + eapply IH; eassumption.
    + eapply IH; [exact H|]. now apply stat_insert_keeps_dir.
Qed.

(** After [makedirs] the directory asked for is there. *)
Lemma makedirs_creates (f f' : gmap path node) (pre rest : list string) :
  Os.makedirs f pre rest = inr f' ->
  rest <> [] ->
  stat f' (normalize (pre ++ rest)) = Some Dir.
Proof.
  revert f pre. induction rest as [|c rest IH]; intros f pre H Hne; [congruence|].
  simpl in H.
  replace (pre ++ c :: rest) with ((pre ++ [c]) ++ rest)
    by (now rewrite <- app_assoc).
  destruct (stat f (normalize (pre ++ [c]))) as [[?|]|] eqn:Hk.
  - discriminate.
  - destruct rest as [|c' rest'].
    + simpl in H. injection H as <-. now rewrite app_nil_r.
    + now apply (IH f).
  - destruct rest as [|c' rest'].
    + simpl in H. injection H as <-. rewrite app_nil_r.
      apply stat_insert_dir.
    + now apply (IH (<[normalize (pre ++ [c]) := Dir]> f)).
Qed.

Lemma write_keeps_dir (f f' : gmap path node) k content kd :
  Os.write f k content = inr f' ->
  stat f kd = Some Dir -> stat f' kd = Some Dir.
Proof.
  intros Hw Hd. pose proof (write_inv _ _ _ _ Hw) as ->.
  destruct kd as [|c kd]; [reflexivity|]. simpl in *.
  rewrite lookup_insert. destruct (decide (k = c :: kd)) as [->|]; [|exact Hd].
  unfold Os.write in Hw. simpl in Hw. rewrite Hd in Hw. discriminate.
Qed.

Lemma write_stat (f f' : gmap path node) k content :
  Os.write f k content = inr f' -> stat f' k = Some (File content).
Proof.
  intros Hw. pose proof (write_inv _ _ _ _ Hw) as ->.
  destruct k as [|c k].
  - unfold Os.write in Hw. simpl in Hw. discriminate.
  - simpl. apply lookup_insert_eq.
Qed.

Lemma touch_keeps_dir (f f' : gmap path node) k kd :
  Os.touch f k = inr f' ->
  stat f kd = Some Dir -> stat f' kd = Some Dir.
Proof.
  unfold Os.touch. destruct (stat f k).
  - now intros [= <-].
  - apply write_keeps_dir.
Qed.

End FileFacts.

Section MethodInversion.

Variable E : Env.

Lemma lift_inv {A} (x : exn + A) st a st' :
  lift x st = (Ok a, st') -> x = inr a /\ st' = st.
Proof. destruct x; intros [= <- <-]; auto. Qed.

Lemma open_write_inv p content st st' :
  open_write E p content st = (Ok tt, st') ->
  exists f',
    Os.write (fs st) (resolve (cwd E) p) content = inr f'
    /\ st' = set_fs f' st.
Proof.
  unfold open_write. step_with get_run. intros H.
  apply bind_inv_ok in H as (f' & s1 & Hl & H).
  apply lift_inv in Hl as [Hw ->]. exists f'. split; [exact Hw|].
  now injection H as <-.
Qed.

Lemma mkdir_p_inv p st st' :
  mkdir_p E p st = (Ok tt, st') ->
  exists f',
    Os.makedirs (fs st) [] (lexical (cwd E) p) = inr f'
    /\ st' = set_fs f' st.
Proof.
  unfold mkdir_p. step_with get_run. intros H.
  apply bind_inv_ok in H as (f' & s1 & Hl & H).
  apply lift_inv in Hl as [Hw ->]. exists f'. split; [exact Hw|].
  now injection H as <-.
Qed.

Lemma path_touch_inv p st st' :
  path_touch E p st = (Ok tt, st') ->
  exists f',
    Os.touch (fs st) (resolve (cwd E) p) = inr f'
    /\ st' = set_fs f' st.
Proof.
  unfold path_touch. step_with get_run. intros H.
  apply bind_inv_ok in H as (f' & s1 & Hl & H).
  apply lift_inv in Hl as [Hw ->]. exists f'. split; [exact Hw|].
  now injection H as <-.
Qed.

Lemma input_inv prompt st l st' :
  input prompt st = (Ok l, st') -> fs st' = fs st.
Proof.
  unfold input. destruct (stdin (emit prompt st)); intros [= <- <-]; reflexivity.
Qed.

(** [_convert_requirements_to_poetry] only reads. *)
Lemma convert_requirements_inv st deps st' :
  _convert_requirements_to_poetry E st = (Ok deps, st') -> st' = st.
Proof.
  unfold _convert_requirements_to_poetry. step_with path_exists_run.
  intros H. apply bind_inv_ok in H as (l & s1 & Hl & H).
  injection H as _ <-.
  destruct (Os.exists_ _ _).
  - unfold open_read in Hl.
    apply bind_inv_ok in Hl as (t & s2 & Hl & H).
    injection H as _ <-.
    rewrite (bind_ok _ _ _ _ _ (get_run st)) in Hl.
    now apply lift_inv in Hl as [_ ->].
  - now injection Hl as _ <-.
Qed.

End MethodInversion.

(* ===================================================================== *)
(** * Platform detection *)
(* ===================================================================== *)

Section Platform.

Variable E : Env.

(** On an unrecognised system [_detect_platform] prints its banner and
    the error, and exits with status 1. *)
Lemma detect_platform_unsupported st :
  sysname E <> "Darwin" -> sysname E <> "Linux" ->
  _detect_platform E st
  = (Exit 1,
     emit (error_line ("Unsupported OS: " +:+ sysname E))
       (emit (line "🧠 Detecting OS and architecture...") st)).
Proof.
  intros HD HL. unfold _detect_platform.
  apply String.eqb_neq in HD. apply String.eqb_neq in HL.
  rewrite HD, HL. reflexivity.
Qed.

Lemma detect_platform_ok st t st' :
  _detect_platform E st = (Ok t, st') -> os_type_of E (fs st) = Some t.
Proof.
  unfold _detect_platform, os_type_of.
  destruct (String.eqb (sysname E) "Darwin");
    [|destruct (String.eqb (sysname E) "Linux")]; intros H;
    apply bind_inv_ok in H as (? & ? & H0 & H); inversion H0; subst; clear H0;
    apply bind_inv_ok in H as (? & ? & H0 & H).
  - inversion H0; subst; clear H0.
    repeat (apply bind_inv_ok in H as (? & ? & _ & H)).
    unfold ret in H. congruence.
  - apply bind_inv_ok in H0 as (? & ? & H1 & H0).
    inversion H1; subst; clear H1. inversion H0; subst; clear H0.
    repeat (apply bind_inv_ok in H as (? & ? & _ & H)).
    unfold ret in H. congruence.
  - apply bind_inv_ok in H0 as (? & ? & _ & H0).
    apply bind_inv_ok in H0 as (? & ? & H0 & _). discriminate H0.
Qed.

End Platform.

(** C3. On a system that is neither Darwin nor Linux, [setup] prints the
    detection banner and the error naming the system, and exits with
    status 1; the file system is untouched, no command was spawned and
    no input was read. *)
Theorem unsupported_os_aborts_first (E : Env) (st : State) :
  sysname E <> "Darwin" -> sysname E <> "Linux" ->
  exists st',
    setup E st = (Exit 1, st')
    /\ fs st' = fs st
    /\ stdout st'
       = stdout st
         ++ [line "🧠 Detecting OS and architecture...";
             error_line ("Unsupported OS: " +:+ sysname E)]
    /\ spawned st' = spawned st
    /\ stdin st' = stdin st.
Proof.
  intros HD HL. eexists. split.
  - unfold setup. erewrite bind_exit by (now apply detect_platform_unsupported).
    reflexivity.
  - simpl. rewrite <- app_assoc. repeat split.
Qed.

Lemma unsupported_os_aborts_first_witness :
  sysname Sample.freebsd <> "Darwin"
  /\ sysname Sample.freebsd <> "Linux"
  /\ (setup Sample.freebsd (Sample.state Sample.fs_empty [])).1 = Exit 1
  /\ fs (setup Sample.freebsd (Sample.state Sample.fs_empty [])).2
     = Sample.fs_empty
  /\ stdout (setup Sample.freebsd (Sample.state Sample.fs_empty [])).2
     = [line "🧠 Detecting OS and architecture...";
        error_line "Unsupported OS: FreeBSD"].
Proof.
  assert (HD : sysname Sample.freebsd <> "Darwin") by discriminate.
  assert (HL : sysname Sample.freebsd <> "Linux") by discriminate.
  split; [exact HD | split; [exact HL |]].
  destruct (unsupported_os_aborts_first Sample.freebsd
              (Sample.state Sample.fs_empty []) HD HL)
    as (st' & -> & Hfs & Hout & _).
  simpl. rewrite Hfs, Hout. repeat split.
Defined.

(** C9. When [_detect_platform] returns, what it returns is ["mac"],
    ["debian"] or ["linux"], and so never the placeholder ["unknown"]. *)
Theorem detect_platform_os_type (E : Env) (st st' : State) (os_type : string) :
  _detect_platform E st = (Ok os_type, st') ->
  (os_type = "mac" \/ os_type = "debian" \/ os_type = "linux")
  /\ os_type <> "unknown".
Proof.
  intros H%detect_platform_ok. unfold os_type_of in H.
  destruct (String.eqb (sysname E) "Darwin").
  - injection H as <-. split; [auto | discriminate].
  - destruct (String.eqb (sysname E) "Linux"); [|discriminate].
    injection H as <-.
    destruct (Os.exists_ _ _); (split; [auto | discriminate]).
Qed.

Lemma detect_platform_os_type_witness :
  (_detect_platform Sample.linux (Sample.state Sample.fs_configured [])).1
  = Ok "linux"
  /\ ("linux" = "mac" \/ "linux" = "debian" \/ "linux" = "linux")
  /\ "linux" <> "unknown".
Proof.
  split; [vm_compute; reflexivity|].
  apply (detect_platform_os_type Sample.linux
           (Sample.state Sample.fs_configured [])
           (_detect_platform Sample.linux (Sample.state Sample.fs_configured [])).2).
  vm_compute. reflexivity.
Defined.

(* ===================================================================== *)
(** * The environment report *)
(* ===================================================================== *)

(** C8. [print_env_info] always ends normally and writes its six leading
    lines; then, when [sys.prefix] equals the base prefix, the line
    [In Virtual Env : No] and nothing more, so that no chunk it wrote is
    a virtual-environment-name line; and when the two differ, the line
    [In Virtual Env : Yes] followed by the name line that carries the
    base name of [sys.prefix]. *)
Theorem env_report_sentinel (E : Env) (st : State) :
  exists st',
    print_env_info E st = (Ok tt, st')
    /\ fs st' = fs st
    /\ (prefix E = sys_base_prefix E ->
        stdout st'
        = stdout st ++ env_info_lines E ++ [line "✅ In Virtual Env     : No"]
        /\ forallb (fun c => negb (is_venv_name_line c))
             (env_info_lines E ++ [line "✅ In Virtual Env     : No"]) = true)
    /\ (prefix E <> sys_base_prefix E ->
        stdout st'
        = stdout st ++ env_info_lines E
          ++ [line "✅ In Virtual Env     : Yes";
              line ("📁 Virtual Env Name   : " +:+ Py.path_name (prefix E))]).
Proof.
  unfold print_env_info, is_virtual_environment.
  destruct (String.eqb (prefix E) (sys_base_prefix E)) eqn:Heq.
  - apply String.eqb_eq in Heq. eexists. split; [reflexivity|].
    split; [reflexivity|]. split; [|congruence].
    intros _. split.
    + simpl. repeat rewrite <- app_assoc. reflexivity.
    + reflexivity.
  - apply String.eqb_neq in Heq. eexists. split; [reflexivity|].
    split; [reflexivity|]. split; [congruence|].
    intros _. simpl. repeat rewrite <- app_assoc. reflexivity.
Qed.

Lemma env_report_sentinel_witness :
  (stdout (print_env_info Sample.linux (Sample.state Sample.fs_empty [])).2
   = env_info_lines Sample.linux ++ [line "✅ In Virtual Env     : No"])
  /\ (stdout (print_env_info Sample.mac_venv (Sample.state Sample.fs_empty [])).2
      = env_info_lines Sample.mac_venv
        ++ [line "✅ In Virtual Env     : Yes";
            line "📁 Virtual Env Name   : .venv"]).
Proof.
  split.
  - destruct (env_report_sentinel Sample.linux (Sample.state Sample.fs_empty []))
      as (st' & -> & _ & Hno & _).
    exact (proj1 (Hno eq_refl)).
  - destruct (env_report_sentinel Sample.mac_venv (Sample.state Sample.fs_empty []))
      as (st' & -> & _ & _ & Hyes).
    simpl. rewrite Hyes; [reflexivity | discriminate].
Defined.
(* ===================================================================== *)
(** * Package names *)
(* ===================================================================== *)

Section LowerFacts.

Import Py.

Lemma all_chars_has (P : ascii -> bool) (s : string) :
  all_chars P s = true <-> forall c, has c s = true -> P c = true.
Proof.
  induction s as [|x s IH]; cbn [all_chars has].
  - split; [discriminate | reflexivity].
  - rewrite andb_true_iff, IH. split.
    + intros [Hx Hs] c [Hc|Hc]%orb_true_iff; [|now apply Hs].
      now apply Ascii.eqb_eq in Hc as <-.
    + intros H. split.
      * apply H. now rewrite Ascii.eqb_refl.
      * intros c Hc. apply H. now rewrite Hc, orb_true_r.
Qed.

Lemma has_map_chars (g : ascii -> ascii) (c : ascii) (s : string) :
  has c (map_chars g s) = true -> exists x, has x s = true /\ g x = c.
Proof.
  induction s as [|y s IH]; cbn [map_chars has]; [discriminate|].
  intros [Hc|Hc]%orb_true_iff.
  - apply Ascii.eqb_eq in Hc. exists y. now rewrite Ascii.eqb_refl.
  - destruct (IH Hc) as (x & Hx & Hg). exists x. now rewrite Hx, orb_true_r.
Qed.

Lemma lower_ascii (f : string -> string) (s : string) :
  isascii s = true -> lower f s = ascii_lower s.
Proof. unfold lower. now intros ->. Qed.

Lemma lower_char_upper (x : ascii) :
  is_upper x = true -> between 97 122 (lower_char x) = true.
Proof. destruct x as [[] [] [] [] [] [] [] []]; now vm_compute. Qed.

Lemma lower_char_other (x : ascii) : is_upper x = false -> lower_char x = x.
Proof. unfold lower_char. now intros ->. Qed.

(** [str.lower] obeys the law of case mappings when the Unicode
    database does. *)
Lemma lower_case_mapping (f : string -> string) :
  case_mapping f -> case_mapping (lower f).
Proof.
  intros Hf s c. unfold lower. destruct (isascii s); [|apply Hf].
  rewrite ascii_lower_map. intros (x & Hx & <-)%has_map_chars Ha Hl.
  destruct (is_upper x) eqn:Hu.
  - now rewrite (lower_char_upper x Hu) in Hl.
  - rewrite (lower_char_other x Hu). now split.
Qed.

Lemma separator_replace (s : string) :
  replace "-" "_" (replace " " "_" s) = map_chars separator s.
Proof.
  rewrite !replace_char_map, map_chars_compose. apply map_chars_ext.
  intros [[] [] [] [] [] [] [] []]; reflexivity.
Qed.

Lemma separator_free (s : string) :
  all_chars (fun c => negb (Ascii.eqb c " ") && negb (Ascii.eqb c "-"))
    (map_chars separator s) = true.
Proof. apply all_chars_map. intros [[] [] [] [] [] [] [] []]; reflexivity. Qed.

Lemma isascii_map (g : ascii -> ascii) (s : string) :
  (forall c, between 0 127 c = true -> between 0 127 (g c) = true) ->
  isascii s = true -> isascii (map_chars g s) = true.
Proof.
  intros Hg. induction s as [|c s IH]; cbn [isascii map_chars]; [reflexivity|].
  intros [Hc Hs]%andb_true_iff. now rewrite (Hg c Hc), IH.
Qed.

Lemma two_step_ind (P : string -> Prop) :
  P "" -> (forall c, P (String c "")) ->
  (forall c1 c2 s, P s -> P (String c2 s) -> P (String c1 (String c2 s))) ->
  forall s, P s.
Proof.
  intros H0 H1 H2 s.
  assert (H : P s /\ forall c, P (String c s)); [|now destruct H].
  induction s as [|x s [IHs IHc]]; [now split|].
  split; [apply IHc|]. intros c. now apply H2.
Qed.

Lemma latin_capital (c2 : ascii) :
  between 128 158 c2 = true ->
  between 0 127 (ascii_of_N (code c2 + 32)) = false.
Proof. destruct c2 as [[] [] [] [] [] [] [] []]; now vm_compute. Qed.

(** The lower-casing of the sample interpreters obeys the law of case
    mappings. *)
Lemma latin_lower_case_mapping : case_mapping Sample.latin_lower.
Proof.
  intros s. induction s as [|x|c1 c2 s IH2 IH1] using two_step_ind;
    intros c Hc Ha Hl.
  - discriminate.
  - cbn [Sample.latin_lower has] in *. rewrite orb_false_r in *.
    apply Ascii.eqb_eq in Hc as <-.
    destruct (is_upper x) eqn:Hu.
    + now rewrite (lower_char_upper x Hu) in Hl.
    + rewrite (lower_char_other x Hu). split; [exact Hu | apply Ascii.eqb_refl].
  - cbn [Sample.latin_lower] in Hc.
    destruct (Ascii.eqb c1 "195" && between 128 158 c2
              && negb (Ascii.eqb c2 "151")) eqn:Hw.
    + apply andb_true_iff in Hw as [Hw _].
      apply andb_true_iff in Hw as [H1 H2%latin_capital].
      apply Ascii.eqb_eq in H1 as ->.
      cbn [has] in Hc. apply orb_true_iff in Hc as [Hc|Hc].
      { apply Ascii.eqb_eq in Hc as <-. discriminate Ha. }
      apply orb_true_iff in Hc as [Hc|Hc].
      { apply Ascii.eqb_eq in Hc as <-. congruence. }
      destruct (IH2 c Hc Ha Hl) as [Hu Hs]. split; [exact Hu|].
      cbn [has]. now rewrite Hs, !orb_true_r.
    + cbn [has] in Hc. apply orb_true_iff in Hc as [Hc|Hc].
      * apply Ascii.eqb_eq in Hc as <-.
        destruct (is_upper c1) eqn:Hu.
        { now rewrite (lower_char_upper c1 Hu) in Hl. }
        rewrite (lower_char_other c1 Hu). split; [exact Hu|].
        cbn [has]. now rewrite Ascii.eqb_refl.
      * destruct (IH1 c Hc Ha Hl) as [Hu Hs]. split; [exact Hu|].
        change (has c (String c1 (String c2 s)))
          with (Ascii.eqb c1 c || has c (String c2 s)).
        now rewrite Hs, orb_true_r.
Qed.

End LowerFacts.

Section Names.

Variable E : Env.

(** On an ASCII name the default is read off character by character. *)
Lemma default_name_chars (s : string) :
  Py.isascii s = true ->
  Py.replace "-" "_" (Py.replace " " "_" (str_lower E s))
  = map_chars default_name_char s.
Proof.
  intros Hs. unfold str_lower.
  rewrite (lower_ascii _ _ Hs), ascii_lower_map, !replace_char_map,
    !map_chars_compose.
  apply map_chars_ext.
  intros [[] [] [] [] [] [] [] []]; reflexivity.
Qed.

Lemma typed_name_chars (s : string) :
  Py.isascii s = true ->
  Py.replace "-" "_" (str_lower E (Py.replace " " "-" s))
  = map_chars default_name_char s.
Proof.
  intros Hs. unfold str_lower. rewrite !replace_char_map.
  rewrite lower_ascii.
  - rewrite ascii_lower_map, !map_chars_compose.
    apply map_chars_ext.
    intros [[] [] [] [] [] [] [] []]; reflexivity.
  - apply isascii_map; [|exact Hs].
    intros [[] [] [] [] [] [] [] []]; now vm_compute.
Qed.

Lemma clean_wide_or_letter (x : ascii) :
  Py.between 0 127 x = false \/ Py.between 97 122 x = true ->
  clean_char (if Ascii.eqb x "-" then "_"%char else x) = true
  /\ Ascii.eqb x Py.LF = false.
Proof.
  destruct x as [[] [] [] [] [] [] [] []]; vm_compute;
    intros [H|H]; try discriminate H; now split.
Qed.

Lemma clean_mark (x : ascii) :
  Py.is_upper x = false -> Ascii.eqb x " " = false ->
  clean_char (if Ascii.eqb x "-" then "_"%char else x) = true.
Proof.
  destruct x as [[] [] [] [] [] [] [] []]; vm_compute;
    intros H1 H2; try discriminate; reflexivity.
Qed.

(** The default name is the lower-cased base name with its separators
    unified, and holds neither blank nor hyphen. *)
Lemma default_package_name_parts :
  _get_default_package_name E
  = map_chars separator (str_lower E (Py.path_name (cwd E)))
  /\ all_chars (fun c => negb (Ascii.eqb c " ") && negb (Ascii.eqb c "-"))
       (_get_default_package_name E) = true.
Proof.
  unfold _get_default_package_name. rewrite separator_replace.
  split; [reflexivity | apply separator_free].
Qed.

(** Whatever is typed, the name stored for it holds no blank, no hyphen
    and no ASCII capital. *)
Lemma typed_name_clean (s : string) :
  Py.isascii s = true \/ case_mapping (unicode_lower E) ->
  all_chars clean_char
    (Py.replace "-" "_" (str_lower E (Py.replace " " "-" s))) = true.
Proof.
  intros [Hs|Hf%lower_case_mapping].
  { rewrite (typed_name_chars s Hs). apply all_chars_map.
    intros [[] [] [] [] [] [] [] []]; reflexivity. }
  rewrite !replace_char_map.
  apply all_chars_has. intros c (x & Hx & <-)%has_map_chars.
  destruct (Py.between 0 127 x) eqn:Ha;
    [|now apply clean_wide_or_letter; left].
  destruct (Py.between 97 122 x) eqn:Hl;
    [now apply clean_wide_or_letter; right|].
  destruct (Hf _ _ Hx Ha Hl) as (Hu & (y & _ & Hy)%has_map_chars).
  apply clean_mark; [exact Hu|].
  rewrite <- Hy. destruct (Ascii.eqb y " ") eqn:Hb; [reflexivity | exact Hb].
Qed.

(** The stored name holds a line feed only if the typed text does. *)
Lemma no_lf_typed_name (i : string) :
  Py.isascii i = true \/ case_mapping (unicode_lower E) ->
  no_lf i = true ->
  no_lf (Py.replace "-" "_" (str_lower E (Py.replace " " "-" i))) = true.
Proof.
  intros [Hs|Hf%lower_case_mapping] Hi; unfold no_lf in *.
  { rewrite (typed_name_chars i Hs).
    induction i as [|c i IH]; [reflexivity|].
    cbn [all_chars map_chars Py.isascii] in *.
    apply andb_true_iff in Hi as [Hc Hi]. apply andb_true_iff in Hs as [_ Hs].
    rewrite (IH Hs Hi), andb_true_r.
    revert Hc. destruct c as [[] [] [] [] [] [] [] []]; now vm_compute. }
  rewrite !replace_char_map.
  apply all_chars_has. intros c (x & Hx & <-)%has_map_chars.
  apply negb_true_iff.
  destruct (Ascii.eqb x "-") eqn:Hh; [reflexivity|].
  destruct (Ascii.eqb x Py.LF) eqn:Hlf; [|reflexivity].
  apply Ascii.eqb_eq in Hlf as ->.
  destruct (Hf _ _ Hx eq_refl eq_refl) as (_ & (y & Hy & Hsp)%has_map_chars).
  rewrite all_chars_has in Hi. specialize (Hi y Hy).
  destruct (Ascii.eqb y " ") eqn:Hb; [discriminate Hsp|].
  subst y. discriminate Hi.
Qed.

End Names.

(** C6. The default package name is the base name of the working
    directory, lower-cased, in which every blank and every hyphen has
    become an underscore: it holds no blank and no hyphen.  On an ASCII
    base name every other character is the lower-case one of the base
    name, position by position; for the base name [My Project] the
    default is [my_project]. *)
Theorem default_package_name (E : Env) :
  _get_default_package_name E
  = map_chars separator (str_lower E (Py.path_name (cwd E)))
  /\ all_chars (fun c => negb (Ascii.eqb c " ") && negb (Ascii.eqb c "-"))
       (_get_default_package_name E) = true
  /\ (Py.isascii (Py.path_name (cwd E)) = true ->
      _get_default_package_name E
      = map_chars default_name_char (Py.path_name (cwd E)))
  /\ (Py.path_name (cwd E) = "My Project" ->
      _get_default_package_name E = "my_project").
Proof.
  destruct (default_package_name_parts E) as (Hd & Hfree).
  split; [exact Hd|]. split; [exact Hfree|]. split.
  - intros Ha. now apply default_name_chars.
  - unfold _get_default_package_name. intros ->. reflexivity.
Qed.

Lemma default_package_name_witness :
  Py.path_name (cwd Sample.linux) = "My Project"
  /\ _get_default_package_name Sample.linux = "my_project"
  /\ _get_default_package_name Sample.linux
     = map_chars default_name_char "My Project".
Proof.
  assert (H : Py.path_name (cwd Sample.linux) = "My Project")
    by (vm_compute; reflexivity).
  destruct (default_package_name Sample.linux) as (_ & _ & Ha & Hm).
  split; [exact H|]. split; [exact (Hm H)|].
  rewrite Ha; [now rewrite H | now rewrite H].
Defined.

(* ===================================================================== *)
(** * The name line of the manifest *)
(* ===================================================================== *)

Section ManifestLines.

Import Py.

Lemma split_app_nl (a b : string) :
  no_lf a = true -> split LF (a +:+ nl +:+ b) = a :: split LF b.
Proof.
  induction a as [|c a IH]; intros H; [reflexivity|].
  apply andb_true_iff in H as [Hc Ha]. apply negb_true_iff in Hc.
  change (String c a +:+ nl +:+ b) with (String c (a +:+ nl +:+ b)).
  now rewrite (split_cons _ _ Hc), (IH Ha).
Qed.

Lemma replace_app (old : ascii) (new a b : string) :
  replace old new (a +:+ b) = replace old new a +:+ replace old new b.
Proof.
  induction a as [|c a IH]; simpl; [reflexivity|].
  destruct (Ascii.eqb c old); rewrite IH; [|reflexivity].
  now rewrite app_assoc_s.
Qed.

Lemma no_lf_replace_tab (s : string) :
  all_chars clean_char s = true ->
  all_chars clean_char (replace TAB "" s) = true.
Proof.
  induction s as [|c s IH]; simpl; [reflexivity|].
  intros [Hc Hs]%andb_true_iff.
  destruct (Ascii.eqb c TAB); simpl; [now apply IH|].
  now rewrite Hc, IH.
Qed.

(** The text of the line [name = "..."] as the template has it, once
    stripped. *)
Lemma strip_name_field (package_name : string) :
  strip (repeat " " 16 +:+ "name = " +:+ dq +:+ package_name +:+ dq)
  = "name = " +:+ dq +:+ package_name +:+ dq.
Proof.
  unfold strip.
  change (rstrip (("name = " +:+ dq +:+ package_name) +:+ String DQ "")
          = ("name = " +:+ dq +:+ package_name) +:+ String DQ "").
  now apply rstrip_app_last.
Qed.

Lemma tpl_app (n : nat) (s rest : string) :
  tpl n s +:+ rest = (repeat " " n +:+ s) +:+ nl +:+ rest.
Proof. unfold tpl. now rewrite !app_assoc_s. Qed.

(** Whatever follows, a template that opens with a blank line, a section
    header and the name line is stripped to the header, the name line
    without its tabs, and further lines. *)
Lemma strip_content_name_line (header package_name tail : string) :
  no_lf header = true ->
  truthy (strip (repeat " " 16 +:+ header)) = true ->
  no_lf package_name = true ->
  exists hdr rest,
    _strip_content
      (nl +:+ tpl 16 header
       +:+ tpl 16 ("name = " +:+ dq +:+ package_name +:+ dq) +:+ tail)
    = join nl (hdr :: name_line package_name :: rest).
Proof.
  intros Hh Ht Hp. unfold _strip_content.
  rewrite !tpl_app.
  change (split LF (nl +:+ ?x)) with ("" :: split LF x).
  rewrite split_app_nl
    by (unfold no_lf in *; now rewrite all_chars_app, Hh).
  rewrite split_app_nl
    by (unfold no_lf in *; rewrite !all_chars_app; now rewrite Hp).
  cbn [List.filter]. change (truthy (strip "")) with false. cbv iota.
  rewrite Ht, strip_name_field.
  change (truthy ("name = " +:+ ?x)) with true. cbv iota.
  cbn [map]. do 2 eexists. apply f_equal.
  apply f_equal2; [reflexivity|]. apply f_equal2; [|reflexivity].
  unfold name_line. rewrite strip_name_field, !replace_app. reflexivity.
Qed.

Lemma strip_content_poetry_name
  (package_name version description author_name author_email deps : string) :
  no_lf package_name = true ->
  exists hdr rest,
    _strip_content
      (poetry_template package_name version description author_name
         author_email deps)
    = join nl (hdr :: name_line package_name :: rest).
Proof.
  intros Hp. unfold poetry_template.
  now apply strip_content_name_line.
Qed.

Lemma strip_content_project_name
  (package_name version description author_name author_email build : string) :
  no_lf package_name = true ->
  exists hdr rest,
    _strip_content
      (project_template package_name version description author_name
         author_email build)
    = join nl (hdr :: name_line package_name :: rest).
Proof.
  intros Hp. unfold project_template.
  now apply strip_content_name_line.
Qed.

End ManifestLines.

(* ===================================================================== *)
(** * The package name typed at the prompt *)
(* ===================================================================== *)

Section TypedName.

Variable E : Env.

(** The part of [_create_pyproject_toml] that follows the package-name
    prompt, from the state [s] in which the typed name has just been
    stored. *)
Lemma create_pyproject_toml_typed st i rest :
  Os.exists_ (fs st) (resolve (cwd E) "pyproject.toml") = false ->
  stdin st = i :: rest ->
  i <> "" ->
  exists (k : M unit) s,
    _create_pyproject_toml E st = k s
    /\ package_name s = Py.replace "-" "_" (str_lower E (Py.replace " " "-" i))
    /\ quiet k
    /\ forall st',
         k s = (Ok tt, st') ->
         Os.stat (fs st')
           (normalize (lexical (cwd E) ("src/" +:+ package_name s)))
         = Some Dir
         /\ exists version description author_name author_email x,
              let manifest t :=
                Os.stat (fs st') (resolve (cwd E) "pyproject.toml")
                = Some (File (_strip_content t)) in
              manifest (poetry_template (package_name s) version description
                          author_name author_email x)
              \/ manifest (project_template (package_name s) version
                             description author_name author_email x).
Proof.
  intros Hex Hin Hi. unfold _create_pyproject_toml.
  step_with path_exists_run. rewrite Hex.
  step_with print_info_run. step_with modify_run. step_with get_run.
  erewrite bind_ok by (apply input_run; simpl; exact Hin).
  destruct i as [|c i]; [congruence|]. simpl Py.truthy. cbv iota.
  step_with modify_run.
  match goal with
  | |- exists k s, ?k0 ?s0 = _ /\ _ =>
      exists k0; remember s0 as s eqn:Hs; exists s
  end.
  split; [reflexivity|].
  split; [subst s; reflexivity|]. split.
  { repeat first
      [ apply quiet_get_git_config | apply quiet_mkdir_p
      | apply quiet_path_touch | apply quiet_open_write
      | apply quiet_convert_requirements | quiet_step ]. }
  clear Hs. intros st' H.
  apply bind_inv_ok in H as (v & s1 & H1 & H).
  apply bind_inv_ok in H as (d & s2 & H2 & H).
  apply bind_inv_ok in H as (g1 & s3 & H3 & H).
  apply bind_inv_ok in H as (g2 & s4 & H4 & H).
  apply bind_inv_ok in H as (a1 & s5 & H5 & H).
  apply bind_inv_ok in H as (a2 & s6 & H6 & H).
  rewrite (bind_ok _ _ _ _ _ (get_run s6)) in H.
  assert (Hn6 : package_name s6 = package_name s).
  { apply quiet_input in H1 as (Hn1 & _). apply quiet_input in H2 as (Hn2 & _).
    apply quiet_get_git_config in H3 as (Hn3 & _).
    apply quiet_get_git_config in H4 as (Hn4 & _).
    apply quiet_input in H5 as (Hn5 & _). apply quiet_input in H6 as (Hn6 & _).
    rewrite Hn6, Hn5, Hn4, Hn3, Hn2, Hn1. reflexivity. }
  rewrite <- Hn6.
  apply bind_inv_ok in H as ([] & s7 & H7 & H).
  apply bind_inv_ok in H as ([] & s8 & H8 & H).
  apply bind_inv_ok in H as (content & s9 & H9 & H).
  apply bind_inv_ok in H as ([] & s10 & H10 & H).
  injection H as <-.
  apply mkdir_p_inv in H7 as (f7 & Hmk & ->).
  apply path_touch_inv in H8 as (f8 & Hto & ->).
  apply open_write_inv in H10 as (f10 & Hwr & ->).
  assert (Hdir7 : Os.stat f7
                    (normalize (lexical (cwd E) ("src/" +:+ package_name s6)))
                  = Some Dir).
  { apply (makedirs_creates _ _ [] _ Hmk).
    unfold lexical. destruct (Py.startswith "/" _); simpl;
      [discriminate | now destruct (Py.path_parts (cwd E))]. }
  assert (Hdir8 : Os.stat f8
                    (normalize (lexical (cwd E) ("src/" +:+ package_name s6)))
                  = Some Dir)
    by (eapply touch_keeps_dir; eassumption).
  simpl fs in *.
  destruct (use_poetry s6).
  - apply bind_inv_ok in H9 as (deps & s' & Hc & Hr).
    apply convert_requirements_inv in Hc as ->. injection Hr as <- <-.
    simpl fs in Hwr. split.
    + eapply write_keeps_dir; eassumption.
    + do 5 eexists. left. eapply write_stat. exact Hwr.
  - apply bind_inv_ok in H9 as (b & s' & Hb & Hr).
    apply bind_inv_ok in Hr as ([] & s'' & Hm & Hr).
    injection Hr as <- <-.
    apply mkdir_p_inv in Hm as (f9 & Hmk9 & ->).
    apply input_inv in Hb. simpl fs in Hb, Hmk9, Hwr. rewrite Hb in Hmk9.
    split.
    + eapply write_keeps_dir; [exact Hwr|].
      eapply makedirs_keeps_dir; eassumption.
    + do 5 eexists. right. eapply write_stat. exact Hwr.
Qed.

End TypedName.

(** C10.  When there is no manifest and a name that is not empty is
    typed at the package-name prompt, the stored package name is the
    typed one with each blank replaced by a hyphen, then lower-cased,
    then each hyphen replaced by an underscore, however the call ends.
    It contains no blank, no hyphen and no upper-case ASCII letter: this
    is so for every typed text that is ASCII, and for every other text
    as long as the case mapping of the interpreter's Unicode database
    obeys the law [case_mapping].  When the call ends normally, the
    directory [src/<name>] exists, and the manifest written opens with a
    section header followed by the line [name = "<name>"] (the name
    without its tabs), which contains no blank, hyphen or upper-case
    letter either; the typed text holds no line feed, [input()] having
    removed it. *)
Theorem typed_package_name
  (E : Env) (st : State) (i : string) (rest : list string)
  (r : outcome unit) (st' : State) :
  Os.exists_ (fs st) (resolve (cwd E) "pyproject.toml") = false ->
  stdin st = i :: rest ->
  i <> "" ->
  Py.isascii i = true \/ case_mapping (unicode_lower E) ->
  _create_pyproject_toml E st = (r, st') ->
  package_name st'
  = Py.replace "-" "_" (str_lower E (Py.replace " " "-" i))
  /\ all_chars clean_char (package_name st') = true
  /\ (r = Ok tt ->
      Os.stat (fs st')
        (normalize (lexical (cwd E) ("src/" +:+ package_name st')))
      = Some Dir
      /\ all_chars clean_char (Py.replace Py.TAB "" (package_name st')) = true
      /\ (no_lf i = true ->
          exists hdr more,
            Os.stat (fs st') (resolve (cwd E) "pyproject.toml")
            = Some (File (Py.join Py.nl
                            (hdr :: name_line (package_name st') :: more))))).
Proof.
  intros Hex Hin Hi Hlow Hrun.
  destruct (create_pyproject_toml_typed E st i rest Hex Hin Hi)
    as (k & s & Heq & Hname & Hq & Hok).
  rewrite Heq in Hrun.
  assert (Hst' : package_name st'
                 = Py.replace "-" "_" (str_lower E (Py.replace " " "-" i))).
  { apply Hq in Hrun as (Hn & _). now rewrite Hn. }
  split; [exact Hst'|]. rewrite Hst'.
  split; [now apply typed_name_clean|].
  intros ->. destruct (Hok st' Hrun) as (Hdir & v & d & an & ae & x & Hm).
  rewrite Hname in Hdir, Hm. split; [exact Hdir|].
  split; [now apply no_lf_replace_tab, typed_name_clean|].
  intros Hlf.
  pose proof (no_lf_typed_name E i Hlow Hlf) as Hlfn.
  destruct Hm as [Hm|Hm]; rewrite Hm.
  - destruct (strip_content_poetry_name _ v d an ae x Hlfn)
      as (hdr & more & ->). now exists hdr, more.
  - destruct (strip_content_project_name _ v d an ae x Hlfn)
      as (hdr & more & ->). now exists hdr, more.
Qed.

Lemma typed_package_name_witness :
  package_name
    (_create_pyproject_toml Sample.linux
       (Sample.state Sample.fs_requirements
          ["École Pkg-X"; ""; "a demo"; ""; ""; ""])).2
  = "école_pkg_x"
  /\ Os.stat
       (fs (_create_pyproject_toml Sample.linux
              (Sample.state Sample.fs_requirements
                 ["École Pkg-X"; ""; "a demo"; ""; ""; ""])).2)
       (Sample.project_path ++ ["src"; "école_pkg_x"])
     = Some Dir
  /\ exists hdr more,
       Os.stat
         (fs (_create_pyproject_toml Sample.linux
                (Sample.state Sample.fs_requirements
                   ["École Pkg-X"; ""; "a demo"; ""; ""; ""])).2)
         (Sample.project_path ++ ["pyproject.toml"])
       = Some (File (Py.join Py.nl (hdr :: name_line "école_pkg_x" :: more))).
Proof.
  pose (st := Sample.state Sample.fs_requirements
                ["École Pkg-X"; ""; "a demo"; ""; ""; ""]).
  destruct (typed_package_name Sample.linux st "École Pkg-X"
              [""; "a demo"; ""; ""; ""] (Ok tt)
              (_create_pyproject_toml Sample.linux st).2)
    as (Hn & _ & Hok).
  - vm_compute. reflexivity.
  - reflexivity.
  - discriminate.
  - right. exact latin_lower_case_mapping.
  - vm_compute. reflexivity.
  - fold st.
    assert (Hname : package_name (_create_pyproject_toml Sample.linux st).2
                    = "école_pkg_x") by (rewrite Hn; reflexivity).
    split; [exact Hname|].
    destruct (Hok eq_refl) as (Hdir & _ & Hman). rewrite Hname in Hdir, Hman.
    split; [exact Hdir|]. exact (Hman eq_refl).
Defined.

(* ===================================================================== *)
(** * The identity lookup *)
(* ===================================================================== *)

Section GitConfig.

Variable E : Env.

(** [_get_git_config] always returns: the stripped output when git ran
    and ended with status 0, [None] in every other case.  It reads no
    input and writes nothing to the terminal. *)
Lemma get_git_config_run key st :
  exists g st',
    _get_git_config E key st = (Ok g, st')
    /\ g = match spawn E (git_config_cmd key) (environ_PATH st) (fs st) with
           | Some (rc, out, _) =>
               if (rc =? 0)%Z then Some (Py.strip out) else None
           | None => None
           end
    /\ stdin st' = stdin st
    /\ stdout st' = stdout st
    /\ package_name st' = package_name st
    /\ use_poetry st' = use_poetry st.
Proof.
  unfold _get_git_config, try_except, Run.bind, subprocess_run, git_config_cmd.
  destruct (spawn E _ _ _) as [[[rc out] f']|]; simpl.
  - destruct (rc =? 0)%Z; do 2 eexists; repeat split.
  - do 2 eexists; repeat split.
Qed.

Lemma get_git_config_fails key st :
  git_fails E ->
  exists st',
    _get_git_config E key st = (Ok None, st')
    /\ stdin st' = stdin st
    /\ stdout st' = stdout st.
Proof.
  intros Hf. destruct (get_git_config_run key st) as (g & st' & Hrun & Hg & Hin & Hout & _).
  exists st'. repeat split; try assumption.
  rewrite Hrun. f_equal. f_equal. rewrite Hg.
  specialize (Hf key (environ_PATH st) (fs st)).
  destruct (spawn E _ _ _) as [[[rc out] f']|]; [|reflexivity].
  destruct (Z.eqb_spec rc 0); [contradiction | reflexivity].
Qed.

End GitConfig.

(** C7. [_get_git_config] never raises and never exits: it returns the
    stripped output of git when git ran and ended with status 0, and
    [None] otherwise.  When the lookup fails, [_create_pyproject_toml]
    offers ["unnamed developer"] and ["developer@example.com"] as the
    author's name and email: these are the defaults its two prompts
    show. *)
Theorem git_identity_lookup_is_soft (E : Env) :
  (forall key st,
      exists g st',
        _get_git_config E key st = (Ok g, st')
        /\ g = match spawn E (git_config_cmd key) (environ_PATH st) (fs st) with
               | Some (rc, out, _) =>
                   if (rc =? 0)%Z then Some (Py.strip out) else None
               | None => None
               end)
  /\ (forall st n v d a rest r st',
         git_fails E ->
         Os.exists_ (fs st) (resolve (cwd E) "pyproject.toml") = false ->
         stdin st = n :: v :: d :: a :: rest ->
         _create_pyproject_toml E st = (r, st') ->
         (forall key, exists s, _get_git_config E key st = (Ok None, s))
         /\ opt_or None "unnamed developer" = "unnamed developer"
         /\ opt_or None "developer@example.com" = "developer@example.com"
         /\ In "Author name (default: unnamed developer): " (stdout st')
         /\ In "Author email (default: developer@example.com): " (stdout st')).
Proof.
  split.
  { intros key st.
    destruct (get_git_config_run E key st) as (g & st' & Hrun & Hg & _).
    now exists g, st'. }
  intros st n v d a rest r st' Hf Hex Hin H.
  split.
  { intros key. destruct (get_git_config_fails E key st Hf) as (s & Hs & _).
    now exists s. }
  split; [reflexivity|]. split; [reflexivity|].
  unfold _create_pyproject_toml in H.
  step_in H path_exists_run. rewrite Hex in H.
  step_in H print_info_run. step_in H modify_run. step_in H get_run.
  erewrite bind_ok in H by (apply input_run; simpl; exact Hin).
  match type of H with
  | Run.bind ?m ?k ?s = _ =>
      assert (Hm : exists s1, m s = (Ok tt, s1)
                              /\ stdin s1 = v :: d :: a :: rest)
  end.
  { destruct (Py.truthy n); eexists; split; reflexivity. }
  destruct Hm as (s1 & Hm & Hin1). rewrite (bind_ok _ _ _ _ _ Hm) in H.
  erewrite bind_ok in H by (apply input_run; exact Hin1).
  erewrite bind_ok in H by (apply input_run; reflexivity).
  match type of H with
  | Run.bind (_get_git_config E ?k1) _ ?s = _ =>
      destruct (get_git_config_fails E k1 s Hf) as (s2 & Hg1 & Hin2 & Hout2)
  end.
  rewrite (bind_ok _ _ _ _ _ Hg1) in H.
  match type of H with
  | Run.bind (_get_git_config E ?k1) _ ?s = _ =>
      destruct (get_git_config_fails E k1 s Hf) as (s3 & Hg2 & Hin3 & Hout3)
  end.
  rewrite (bind_ok _ _ _ _ _ Hg2) in H.
  simpl opt_or in H.
  erewrite bind_ok in H
    by (apply input_run; rewrite Hin3, Hin2; reflexivity).
  match type of H with
  | Run.bind (input ?p) ?k ?s = _ =>
      assert (Hs : In "Author name (default: unnamed developer): " (stdout s))
        by (simpl; apply in_or_app; right; left; reflexivity);
      destruct (input p s) as [o s4] eqn:Hi;
      assert (Hl4 : later s s4) by (eapply quiet_input; exact Hi);
      assert (Ho4 : In p (stdout s4)) by (eapply input_emits; exact Hi)
  end.
  assert (Hq : later s4 st').
  { destruct o as [x|c|e].
    - rewrite (bind_ok _ _ _ _ _ Hi) in H.
      match type of H with
      | ?k ?s = _ => assert (Hk : quiet k); [|apply Hk in H; exact H]
      end.
      repeat first
        [ apply quiet_get_git_config | apply quiet_mkdir_p
        | apply quiet_path_touch | apply quiet_open_write
        | apply quiet_convert_requirements | quiet_step ].
    - rewrite (bind_exit _ _ _ _ _ Hi) in H. injection H as <- <-.
      apply later_refl.
    - rewrite (bind_raise _ _ _ _ _ Hi) in H. injection H as <- <-.
      apply later_refl. }
  destruct Hq as (_ & _ & l & Hl). destruct Hl4 as (_ & _ & l4 & Hl4).
  rewrite Hl, Hl4. split.
  - apply in_or_app. left. apply in_or_app. now left.
  - apply in_or_app. left. rewrite <- Hl4. exact Ho4.
Qed.

Lemma git_identity_lookup_is_soft_witness :
  git_fails Sample.linux_no_git
  /\ In "Author name (default: unnamed developer): "
       (stdout (_create_pyproject_toml Sample.linux_no_git
                  (Sample.state Sample.fs_requirements
                     ["demo"; ""; "a demo"; ""; ""; ""])).2)
  /\ In "Author email (default: developer@example.com): "
       (stdout (_create_pyproject_toml Sample.linux_no_git
                  (Sample.state Sample.fs_requirements
                     ["demo"; ""; "a demo"; ""; ""; ""])).2).
Proof.
  assert (Hf : git_fails Sample.linux_no_git) by (intros key p f; exact I).
  split; [exact Hf|].
  eapply (proj2 (git_identity_lookup_is_soft Sample.linux_no_git)
            (Sample.state Sample.fs_requirements
               ["demo"; ""; "a demo"; ""; ""; ""])
            "demo" "" "a demo" "" [""; ""] _ _ Hf).
  - vm_compute. reflexivity.
  - reflexivity.
  - apply surjective_pairing.
Defined.

(* ===================================================================== *)
(** * Detection of the packaging tool *)
(* ===================================================================== *)

Section ToolDetection.

Variable E : Env.

Lemma detect_project_tool_read st contents :
  Os.read (fs st) (resolve (cwd E) "pyproject.toml") = inr contents ->
  _detect_project_tool E st = (Ok (tool_of contents), st).
Proof.
  intros Hr. unfold _detect_project_tool.
  step_with path_exists_run.
  assert (Hex : Os.exists_ (fs st) (resolve (cwd E) "pyproject.toml") = true).
  { unfold Os.read in Hr. unfold Os.exists_.
    destruct (stat _ _) as [[?|]|]; [reflexivity | reflexivity | discriminate]. }
  rewrite Hex. change (negb true) with false. cbv beta iota.
  unfold try_except.
  erewrite bind_ok by (apply open_read_run; exact Hr).
  unfold tool_of.
  repeat (destruct (Py.contains _ contents); [reflexivity|]).
  reflexivity.
Qed.

Lemma not_occurs_contains sub s : ~ occurs sub s -> Py.contains sub s = false.
Proof.
  intros H. destruct (Py.contains sub s) eqn:Hc; [|reflexivity].
  exfalso. apply H. now apply contains_spec.
Qed.

End ToolDetection.

(** C2. On a manifest that can be read, [_detect_project_tool] ends
    normally, changes nothing, and answers by the first marker, in the
    order [[tool.poetry]], [[tool.hatch]], [[tool.flit]], that occurs
    anywhere in the text: poetry as soon as its marker occurs, hatch
    when the poetry marker does not occur and the hatch marker does,
    flit when only the flit marker occurs, and no tool when none of the
    three occurs. *)
Theorem tool_detection_priority (E : Env) (st : State) (contents : string) :
  Os.read (fs st) (resolve (cwd E) "pyproject.toml") = inr contents ->
  exists tool,
    _detect_project_tool E st = (Ok tool, st)
    /\ (occurs "[tool.poetry]" contents -> tool = Some "poetry")
    /\ (~ occurs "[tool.poetry]" contents ->
        occurs "[tool.hatch]" contents -> tool = Some "hatch")
    /\ (~ occurs "[tool.poetry]" contents ->
        ~ occurs "[tool.hatch]" contents ->
        occurs "[tool.flit]" contents -> tool = Some "flit")
    /\ (~ occurs "[tool.poetry]" contents ->
        ~ occurs "[tool.hatch]" contents ->
        ~ occurs "[tool.flit]" contents -> tool = None).
Proof.
  intros Hr. exists (tool_of contents).
  split; [now apply detect_project_tool_read|].
  unfold tool_of. repeat split.
  - intros H%contains_spec. now rewrite H.
  - intros Hp%not_occurs_contains H%contains_spec. now rewrite Hp, H.
  - intros Hp%not_occurs_contains Hh%not_occurs_contains H%contains_spec.
    now rewrite Hp, Hh, H.
  - intros Hp%not_occurs_contains Hh%not_occurs_contains Hf%not_occurs_contains.
    now rewrite Hp, Hh, Hf.
Qed.

Lemma tool_detection_priority_witness :
  Os.read Sample.fs_configured (resolve Sample.project_dir "pyproject.toml")
  = inr Sample.poetry_manifest
  /\ occurs "[tool.hatch]" Sample.poetry_manifest
  /\ occurs "[tool.poetry]" Sample.poetry_manifest
  /\ _detect_project_tool Sample.linux (Sample.state Sample.fs_configured [])
     = (Ok (Some "poetry"), Sample.state Sample.fs_configured []).
Proof.
  assert (Hr : Os.read (fs (Sample.state Sample.fs_configured []))
                 (resolve (cwd Sample.linux) "pyproject.toml")
               = inr Sample.poetry_manifest) by (vm_compute; reflexivity).
  assert (Hp : occurs "[tool.poetry]" Sample.poetry_manifest)
    by (apply contains_spec; vm_compute; reflexivity).
  split; [exact Hr|]. split; [apply contains_spec; vm_compute; reflexivity|].
  split; [exact Hp|].
  destruct (tool_detection_priority Sample.linux _ _ Hr) as (tool & -> & H & _).
  now rewrite (H Hp).
Defined.

(* ===================================================================== *)
(** * The dependency block *)
(* ===================================================================== *)

Section DependencyBlock.

Variable E : Env.

Lemma collect_deps_from (lines acc : list string) :
  fold_left
    (fun deps line =>
       let line := Py.strip line in
       if is_dep line then deps ++ [line] else deps)
    lines acc
  = acc ++ List.filter is_dep (map Py.strip lines).
Proof.
  revert acc. induction lines as [|l lines IH]; intros acc; simpl.
  - now rewrite app_nil_r.
  - rewrite IH. destruct (is_dep (Py.strip l)); [|reflexivity].
    now rewrite <- app_assoc.
Qed.

Lemma collect_deps_requirement_lines (text : string) :
  collect_deps (Py.iter_lines text) = requirement_lines text.
Proof. unfold collect_deps. now rewrite collect_deps_from. Qed.

Lemma requirement_lines_stripped (text : string) :
  Forall (fun d => d <> "" /\ Py.truthy (Py.strip d) = true)
    (requirement_lines text).
Proof.
  unfold requirement_lines. apply List.Forall_forall. intros d Hd.
  apply filter_In in Hd as [Hin Hdep].
  apply in_map_iff in Hin as (l & <- & _).
  unfold is_dep in Hdep. apply andb_true_iff in Hdep as [Ht _].
  split; [now destruct (Py.strip l) | now rewrite strip_again].
Qed.

Lemma filter_all {A} (p : A -> bool) (l : list A) :
  Forall (fun x => p x = true) l -> List.filter p l = l.
Proof.
  induction 1 as [|x l Hx _ IH]; simpl; [reflexivity|]. now rewrite Hx, IH.
Qed.

Lemma indent_requirement_lines (text : string) :
  Forall (fun d => single_line d = true) (requirement_lines text) ->
  _indent_dependencies (Py.join Py.nl (requirement_lines text))
  = Py.join Py.nl (map indent4 (requirement_lines text)).
Proof.
  intros Hs. unfold _indent_dependencies.
  pose proof (requirement_lines_stripped text) as Hst.
  rewrite splitlines_join; [| exact Hs | eapply List.Forall_impl; [|exact Hst]; now intros ? []].
  rewrite filter_all; [reflexivity|].
  eapply List.Forall_impl; [|exact Hst]. now intros ? [].
Qed.

Lemma dependency_block_run st text :
  Os.read (fs st) (resolve (cwd E) "requirements.txt") = inr text ->
  dependency_block E st
  = (Ok (_indent_dependencies (Py.join Py.nl (requirement_lines text))), st).
Proof.
  intros Hr. unfold dependency_block, _convert_requirements_to_poetry.
  assert (Hex : Os.exists_ (fs st) (resolve (cwd E) "requirements.txt") = true).
  { unfold Os.read in Hr. unfold Os.exists_.
    destruct (stat _ _) as [[?|]|]; [reflexivity | reflexivity | discriminate]. }
  erewrite bind_ok; cycle 1.
  { erewrite bind_ok by (apply path_exists_run). rewrite Hex.
    erewrite bind_ok; cycle 1.
    { erewrite bind_ok by (apply open_read_run; exact Hr). reflexivity. }
    reflexivity. }
  now rewrite collect_deps_requirement_lines.
Qed.

End DependencyBlock.

(* ===================================================================== *)
(** * Discovery of the requirements files *)
(* ===================================================================== *)

Section Listing.

Lemma child_of_spec (d k : path) (n : string) :
  Os.child_of d k = Some n <-> k = d ++ [n].
Proof.
  revert k. induction d as [|x d IH]; intros k; simpl.
  - destruct k as [|y [|z k]]; split; intros H; try discriminate;
      injection H as ->; reflexivity.
  - destruct k as [|y k]; [split; discriminate|].
    destruct (decide (x = y)) as [->|Hne].
    + rewrite IH. split; [now intros -> | now intros [= ->]].
    + split; [discriminate | intros [= -> _]; contradiction].
Qed.

(** [os.listdir] returns exactly the names of the entries of the
    directory. *)
Lemma listdir_spec (f : gmap path node) (d : path) (names : list string) :
  Os.listdir f d = inr names ->
  forall n, n ∈ names <-> is_Some (f !! (d ++ [n])).
Proof.
  unfold Os.listdir. destruct (stat f d) as [[?|]|]; try discriminate.
  intros [= <-] n. rewrite list_elem_of_omap. split.
  - intros ([k v] & Hin & Hc). apply elem_of_map_to_list in Hin.
    apply child_of_spec in Hc. simpl in Hc. subst k. now exists v.
  - intros [v Hv]. exists (d ++ [n], v). split.
    + now apply elem_of_map_to_list.
    + now apply child_of_spec.
Qed.

End Listing.

Section PipStrategy.

Variable E : Env.

Hypothesis spawn_succeeds : every_command_succeeds E.

Lemma subprocess_run_succeeds cmd capture check st :
  exists out st',
    subprocess_run E cmd capture check st = (Ok (0%Z, out), st')
    /\ spawned st' = spawned st ++ [cmd].
Proof.
  unfold subprocess_run.
  destruct (spawn_succeeds cmd (environ_PATH st) (fs st)) as (out & f' & ->).
  rewrite andb_false_r. exists out. eexists. split; [reflexivity|].
  now destruct capture.
Qed.

Lemma install_requirements_succeeds req_file st :
  exists st',
    install_requirements E req_file st = (Ok tt, st')
    /\ spawned st' = spawned st ++ [install_cmd req_file].
Proof.
  unfold install_requirements. step_with print_run.
  match goal with
  | |- context [Run.bind (subprocess_run E ?c ?a ?b) _ ?s] =>
      destruct (subprocess_run_succeeds c a b s) as (out & st' & Hrun & Hsp)
  end.
  exists st'. rewrite (bind_ok _ _ _ _ _ Hrun). split; [reflexivity|].
  exact Hsp.
Qed.

(** The loop of [_setup_pip] spawns one installation per file, in the
    order of the list. *)
Lemma for_each_install (req_files : list string) st :
  exists st',
    for_each (install_requirements E) req_files st = (Ok tt, st')
    /\ spawned st' = spawned st ++ map install_cmd req_files.
Proof.
  revert st. induction req_files as [|f l IH]; intros st; simpl.
  - exists st. split; [reflexivity | now rewrite app_nil_r].
  - destruct (install_requirements_succeeds f st) as (s1 & Hrun & Hsp).
    destruct (IH s1) as (s2 & Hrun2 & Hsp2).
    exists s2. rewrite (bind_ok _ _ _ _ _ Hrun). split; [exact Hrun2|].
    now rewrite Hsp2, Hsp, <- app_assoc.
Qed.

Lemma get_list_of_requirements_files_run st names :
  Os.listdir (fs st) (resolve (cwd E) (script_dir E)) = inr names ->
  get_list_of_requirements_files E st
  = (Ok (List.filter is_requirements_file names), st).
Proof.
  intros H. unfold get_list_of_requirements_files.
  step_with get_run. now rewrite H.
Qed.

End PipStrategy.

(** C5, as the code has it.  The requirements files that the pip
    strategy installs are the entries of the directory of the script,
    [Path(__file__).parent], whose names start with [requirements] and
    end with [.txt]: when every command succeeds, [_setup_pip] spawns the
    creation of the virtual environment, the upgrade of pip, then
    [pip install -r name --upgrade] once for each such name, in the order
    of the listing, then the editable installation, and nothing else. *)
Theorem requirements_files_of_script_dir
  (E : Env) (st st1 st2 : State) (r2 : Z * string) (names : list string) :
  every_command_succeeds E ->
  _create_pyproject_toml E st = (Ok tt, st1) ->
  (subprocess_run E venv_cmd false true ;;
   subprocess_run E pip_upgrade_cmd false true)%run
    (emit (line ("🐍 Setting up Python virtual environment at " +:+ VENV +:+ "..."))
       st1)
  = (Ok r2, st2) ->
  Os.listdir (fs st2) (resolve (cwd E) (script_dir E)) = inr names ->
  (forall f,
      In f (List.filter is_requirements_file names)
      <-> is_Some (fs st2 !! (resolve (cwd E) (script_dir E) ++ [f]))
          /\ Py.startswith "requirements" f = true
          /\ Py.endswith ".txt" f = true)
  /\ get_list_of_requirements_files E st2
     = (Ok (List.filter is_requirements_file names), st2)
  /\ exists st',
       _setup_pip E st = (Ok tt, st')
       /\ spawned st'
          = spawned st1
            ++ [venv_cmd; pip_upgrade_cmd]
            ++ map install_cmd (List.filter is_requirements_file names)
            ++ [editable_cmd].
Proof.
  intros Hs Hc Hpre Hls. split; [|split].
  - intros f. rewrite filter_In, <- list_elem_of_In, (listdir_spec _ _ _ Hls).
    unfold is_requirements_file. rewrite andb_true_iff. tauto.
  - now apply get_list_of_requirements_files_run.
  - unfold _setup_pip. rewrite (bind_ok _ _ _ _ _ Hc). step_with print_run.
    unfold try_except.
    apply bind_inv_ok in Hpre as (r1 & s1 & Hv & Hp).
    destruct (subprocess_run_succeeds E Hs venv_cmd false true
                (emit (line ("🐍 Setting up Python virtual environment at "
                             +:+ VENV +:+ "...")) st1))
      as (o1 & s1' & Hv' & Hsp1).
    rewrite Hv in Hv'. injection Hv' as -> <-.
    destruct (subprocess_run_succeeds E Hs pip_upgrade_cmd false true s1)
      as (o2 & s2' & Hp' & Hsp2).
    rewrite Hp in Hp'. injection Hp' as -> <-.
    destruct (for_each_install E Hs (List.filter is_requirements_file names) st2)
      as (s3 & Hfor & Hsp3).
    destruct (subprocess_run_succeeds E Hs editable_cmd false true
                (emit (line "🔗 Installing local package in editable mode...") s3))
      as (o4 & s4 & He & Hsp4).
    exists s4. split.
    + change (line ?m) with (m +:+ Py.nl) in *.
      rewrite (bind_ok _ _ _ _ _ Hv), (bind_ok _ _ _ _ _ Hp).
      rewrite (bind_ok _ _ _ _ _
                 (get_list_of_requirements_files_run E st2 names Hls)).
      rewrite (bind_ok _ _ _ _ _ Hfor). step_with print_run.
      rewrite (bind_ok _ _ _ _ _ He). reflexivity.
    + rewrite Hsp4. simpl spawned at 1. rewrite Hsp3, Hsp2, Hsp1. simpl.
      rewrite <- !app_assoc. reflexivity.
Qed.

Lemma requirements_files_of_script_dir_witness :
  every_command_succeeds Sample.linux
  /\ requirements_files_in Sample.fs_configured
       (resolve (cwd Sample.linux) (script_dir Sample.linux))
     = ["requirements.txt"]
  /\ (_setup_pip Sample.linux (Sample.state Sample.fs_configured [])).1 = Ok tt
  /\ spawned (_setup_pip Sample.linux (Sample.state Sample.fs_configured [])).2
     = [venv_cmd; pip_upgrade_cmd; install_cmd "requirements.txt"; editable_cmd].
Proof.
  assert (Hs : every_command_succeeds Sample.linux)
    by (intros cmd p f; exists "out", f; reflexivity).
  split; [exact Hs|]. split; [vm_compute; reflexivity|].
  pose (st0 := Sample.state Sample.fs_configured []).
  pose (st1 := (_create_pyproject_toml Sample.linux st0).2).
  pose (st2 := (subprocess_run Sample.linux pip_upgrade_cmd false true
                  (subprocess_run Sample.linux venv_cmd false true
                     (emit (line ("🐍 Setting up Python virtual environment at "
                                  +:+ VENV +:+ "...")) st1)).2).2).
  pose (names := match Os.listdir (fs st2)
                         (resolve (cwd Sample.linux) (script_dir Sample.linux)) with
                 | inr l => l
                 | inl _ => []
                 end).
  destruct (requirements_files_of_script_dir Sample.linux st0 st1 st2
              (0%Z, "out") names Hs)
    as (_ & _ & st' & Hrun & Hsp).
  - vm_compute. reflexivity.
  - vm_compute. reflexivity.
  - vm_compute. reflexivity.
  - fold st0. rewrite Hrun. split; [reflexivity|]. simpl. rewrite Hsp.
    vm_compute. reflexivity.
Defined.

(** C5, as it is stated, fails when the script does not lie in the
    working directory: the working directory holds [requirements.txt],
    the directory of the script holds [requirements.extra.txt], and the
    pip strategy installs the latter and not the former. *)
Lemma requirements_files_not_of_cwd :
  requirements_files_in Sample.fs_elsewhere
    (resolve (cwd Sample.linux_elsewhere) ".")
  = ["requirements.txt"]
  /\ requirements_files_in Sample.fs_elsewhere
       (resolve (cwd Sample.linux_elsewhere) (script_dir Sample.linux_elsewhere))
     = ["requirements.extra.txt"]
  /\ (_setup_pip Sample.linux_elsewhere (Sample.state Sample.fs_elsewhere [])).1
     = Ok tt
  /\ spawned
       (_setup_pip Sample.linux_elsewhere (Sample.state Sample.fs_elsewhere [])).2
     = [venv_cmd; pip_upgrade_cmd; install_cmd "requirements.extra.txt";
        editable_cmd].
Proof. repeat split; vm_compute; reflexivity. Qed.

(* ===================================================================== *)
(** * Further properties: the requirements files and the manifest probe *)
(* ===================================================================== *)

Section PlainNames.

(** A component other than [..] is kept by the lexical resolution. *)
Lemma normalize_snoc (parts : list string) (x : string) :
  x <> ".." -> normalize (parts ++ [x]) = normalize parts ++ [x].
Proof.
  intros Hx. unfold normalize. rewrite fold_left_app. simpl.
  now destruct (decide (x = "..")).
Qed.

Lemma resolve_dot (cwd : string) :
  resolve cwd "." = normalize (Py.path_parts cwd).
Proof. unfold resolve, lexical. simpl. now rewrite app_nil_r. Qed.

Lemma resolve_base_requirements (cwd : string) :
  resolve cwd base_requirements = resolve cwd "." ++ [base_requirements].
Proof. rewrite resolve_dot. unfold resolve, lexical. simpl. now apply normalize_snoc. Qed.

Lemma resolve_dev_requirements (cwd : string) :
  resolve cwd dev_requirements = resolve cwd "." ++ [dev_requirements].
Proof. rewrite resolve_dot. unfold resolve, lexical. simpl. now apply normalize_snoc. Qed.

End PlainNames.

Section RequirementsWriter.

Variable E : Env.

Lemma open_write_run p content st :
  open_write E p content st
  = match Os.write (fs st) (resolve (cwd E) p) content with
    | inr f' => (Ok tt, set_fs f' st)
    | inl e => (Raise e, st)
    end.
Proof.
  unfold open_write. step_with get_run.
  destruct (Os.write _ _ _); reflexivity.
Qed.

(** [_write_if_missing] on a missing target, step by step. *)
Lemma write_if_missing_absent filename content st :
  Os.exists_ (fs st) (resolve (cwd E) filename) = false ->
  _write_if_missing E filename content st
  = match Os.write (fs st) (resolve (cwd E) filename) content with
    | inr f' =>
        (Ok tt,
         emit (success_line (filename +:+ " created."))
           (set_fs f'
              (emit (info_line (filename +:+ " not found. Let's create one.")) st)))
    | inl e =>
        (Raise e,
         emit (info_line (filename +:+ " not found. Let's create one.")) st)
    end.
Proof.
  intros Hex. unfold _write_if_missing.
  step_with path_exists_run. rewrite Hex. cbn [negb]. cbv beta iota.
  step_with print_info_run.
  unfold Run.bind. rewrite open_write_run. cbn [fs emit set_stdout].
  destruct (Os.write _ _ _) as [e|f']; reflexivity.
Qed.

End RequirementsWriter.

(** X2. When the target is missing and the directory it goes to exists,
    [_write_if_missing] creates the file with exactly the content given,
    touches no other path, and prints that the file was not found and
    then that it was created.  When that directory is missing the call
    raises [FileNotFoundError] and the file system is as before. *)
Theorem write_if_missing_creates
  (E : Env) (filename content : string) (st : State) :
  Os.exists_ (fs st) (resolve (cwd E) filename) = false ->
  (Os.stat (fs st) (removelast (resolve (cwd E) filename)) = Some Dir ->
   exists st',
     _write_if_missing E filename content st = (Ok tt, st')
     /\ fs st' = <[resolve (cwd E) filename := File content]> (fs st)
     /\ Os.stat (fs st') (resolve (cwd E) filename) = Some (File content)
     /\ stdout st'
        = stdout st
          ++ [info_line (filename +:+ " not found. Let's create one.");
              success_line (filename +:+ " created.")])
  /\ (Os.stat (fs st) (removelast (resolve (cwd E) filename)) = None ->
      exists st',
        _write_if_missing E filename content st = (Raise FileNotFoundError, st')
        /\ fs st' = fs st).
Proof.
  intros Hex. rewrite (write_if_missing_absent E _ content _ Hex).
  assert (Hst : Os.stat (fs st) (resolve (cwd E) filename) = None).
  { unfold Os.exists_ in Hex. now destruct (Os.stat _ _). }
  split; intros Hp.
  - assert (Hw : Os.write (fs st) (resolve (cwd E) filename) content
                 = inr (<[resolve (cwd E) filename := File content]> (fs st)))
      by (unfold Os.write; now rewrite Hst, Hp).
    rewrite Hw. eexists. split; [reflexivity|]. split; [reflexivity|].
    split; [apply (write_stat _ _ _ _ Hw)|].
    simpl. now rewrite <- app_assoc.
  - assert (Hw : Os.write (fs st) (resolve (cwd E) filename) content
                 = inl FileNotFoundError)
      by (unfold Os.write; now rewrite Hst, Hp).
    rewrite Hw. eexists. split; reflexivity.
Qed.

Lemma write_if_missing_creates_witness :
  Os.exists_ Sample.fs_empty (resolve Sample.project_dir "requirements.txt")
  = false
  /\ Os.stat
       (fs (_write_if_missing Sample.linux "requirements.txt"
              "# project requirements" (Sample.state Sample.fs_empty [])).2)
       (Sample.project_path ++ ["requirements.txt"])
     = Some (File "# project requirements").
Proof.
  assert (Hex : Os.exists_ (fs (Sample.state Sample.fs_empty []))
                  (resolve (cwd Sample.linux) "requirements.txt") = false)
    by (vm_compute; reflexivity).
  split; [exact Hex|].
  destruct (proj1 (write_if_missing_creates Sample.linux "requirements.txt"
                     "# project requirements" _ Hex))
    as (st' & -> & _ & Hstat & _).
  - vm_compute. reflexivity.
  - exact Hstat.
Defined.

(** X1. Once [_setup_requirements] has ended normally, running it again
    ends normally, changes no file, and only prints that the two files
    already exist. *)
Theorem setup_requirements_twice (E : Env) (st st1 : State) :
  _setup_requirements E st = (Ok tt, st1) ->
  exists st2,
    _setup_requirements E st1 = (Ok tt, st2)
    /\ fs st2 = fs st1
    /\ stdout st2
       = stdout st1
         ++ [success_line (base_requirements +:+ " already exists.");
             success_line (dev_requirements +:+ " already exists.")]
    /\ spawned st2 = spawned st1.
Proof.
  unfold _setup_requirements. intros H.
  apply bind_inv_ok in H as ([] & s & H1 & H2).
  apply write_if_missing_ok in H1 as [Hbase _].
  apply write_if_missing_ok in H2 as [Hdev Hkeep].
  apply Hkeep in Hbase.
  rewrite (bind_ok _ _ _ _ _ (write_if_missing_present E _ _ st1 Hbase)).
  rewrite write_if_missing_present by exact Hdev.
  eexists. split; [reflexivity|]. split; [reflexivity|].
  split; [|reflexivity]. simpl. now rewrite <- app_assoc.
Qed.

Lemma setup_requirements_twice_witness :
  (_setup_requirements Sample.linux (Sample.state Sample.fs_empty [])).1 = Ok tt
  /\ fs (_setup_requirements Sample.linux
           (_setup_requirements Sample.linux (Sample.state Sample.fs_empty [])).2).2
     = fs (_setup_requirements Sample.linux (Sample.state Sample.fs_empty [])).2.
Proof.
  split; [vm_compute; reflexivity|].
  destruct (setup_requirements_twice Sample.linux
              (Sample.state Sample.fs_empty [])
              (_setup_requirements Sample.linux (Sample.state Sample.fs_empty [])).2)
    as (st2 & -> & Hfs & _).
  - vm_compute. reflexivity.
  - exact Hfs.
Defined.

Section ManifestProbe.

Variable E : Env.

Lemma detect_project_tool_run st :
  _detect_project_tool E st = (Ok (detected_tool E (fs st)), st).
Proof.
  unfold detected_tool.
  destruct (Os.read (fs st) (resolve (cwd E) "pyproject.toml"))
    as [e|contents] eqn:Hr.
  - unfold _detect_project_tool. step_with path_exists_run.
    destruct (Os.exists_ _ _); cbn [negb]; cbv beta iota; [|reflexivity].
    unfold try_except, open_read.
    unfold Run.bind. simpl. now rewrite Hr.
  - now apply detect_project_tool_read.
Qed.

Lemma detected_tool_cases (f : gmap path node) t :
  detected_tool E f = Some t -> t = "poetry" \/ t = "hatch" \/ t = "flit".
Proof.
  unfold detected_tool, tool_of. destruct (Os.read _ _) as [|c]; [discriminate|].
  repeat (destruct (Py.contains _ c); [intros [= <-]; auto|]).
  discriminate.
Qed.

End ManifestProbe.

(** X3. [_detect_project_tool] never raises and never changes anything:
    it answers by the markers when the manifest can be read, and [None]
    when it is missing or cannot be read (a directory, for one). *)
Theorem detect_project_tool_never_raises (E : Env) (st : State) :
  _detect_project_tool E st = (Ok (detected_tool E (fs st)), st)
  /\ (Os.exists_ (fs st) (resolve (cwd E) "pyproject.toml") = false ->
      detected_tool E (fs st) = None)
  /\ (Os.stat (fs st) (resolve (cwd E) "pyproject.toml") = Some Dir ->
      detected_tool E (fs st) = None).
Proof.
  split; [apply detect_project_tool_run|]. unfold detected_tool. split.
  - unfold Os.exists_, Os.read. now destruct (Os.stat _ _).
  - unfold Os.read. now intros ->.
Qed.

(* ===================================================================== *)
(** * Further properties: the manifest generator at its edges *)
(* ===================================================================== *)

Section ManifestEdges.

Variable E : Env.

(** The continuation of [_create_pyproject_toml] after the package-name
    prompt keeps the stored name, whatever was typed. *)
Lemma create_pyproject_toml_name st i rest r st' :
  Os.exists_ (fs st) (resolve (cwd E) "pyproject.toml") = false ->
  stdin st = i :: rest ->
  _create_pyproject_toml E st = (r, st') ->
  package_name st'
  = if Py.truthy i
    then Py.replace "-" "_" (str_lower E (Py.replace " " "-" i))
    else _get_default_package_name E.
Proof.
  intros Hex Hin H. unfold _create_pyproject_toml in H.
  step_in H path_exists_run. rewrite Hex in H.
  step_in H print_info_run. step_in H modify_run. step_in H get_run.
  erewrite bind_ok in H by (apply input_run; simpl; exact Hin).
  destruct (Py.truthy i).
  - step_in H modify_run.
    match type of H with
    | ?k ?s = _ => assert (Hk : quiet k); [|apply Hk in H]
    end.
    { repeat first
        [ apply quiet_get_git_config | apply quiet_mkdir_p
        | apply quiet_path_touch | apply quiet_open_write
        | apply quiet_convert_requirements | quiet_step ]. }
    now destruct H as (-> & _).
  - rewrite (bind_ok _ _ _ _ _ (eq_refl : ret tt _ = (Ok tt, _))) in H.
    match type of H with
    | ?k ?s = _ => assert (Hk : quiet k); [|apply Hk in H]
    end.
    { repeat first
        [ apply quiet_get_git_config | apply quiet_mkdir_p
        | apply quiet_path_touch | apply quiet_open_write
        | apply quiet_convert_requirements | quiet_step ]. }
    now destruct H as (-> & _).
Qed.

(** Lower-casing leaves the default name of an ASCII base name as it
    is. *)
Lemma default_name_lower_fixed :
  Py.isascii (Py.path_name (cwd E)) = true ->
  str_lower E (_get_default_package_name E) = _get_default_package_name E.
Proof.
  intros Ha. unfold _get_default_package_name.
  rewrite (default_name_chars E _ Ha). unfold str_lower.
  rewrite lower_ascii.
  - rewrite ascii_lower_map, map_chars_compose. apply map_chars_ext.
    intros [[] [] [] [] [] [] [] []]; reflexivity.
  - apply isascii_map; [|exact Ha].
    intros [[] [] [] [] [] [] [] []]; now vm_compute.
Qed.

(** A default name that lower-casing leaves as it is comes back from
    the normalisation of typed names. *)
Lemma typed_default_name :
  str_lower E (_get_default_package_name E) = _get_default_package_name E ->
  Py.replace "-" "_"
    (str_lower E (Py.replace " " "-" (_get_default_package_name E)))
  = _get_default_package_name E.
Proof.
  intros Hfix.
  destruct (default_package_name_parts E) as (_ & Hfree).
  rewrite (replace_absent " ")
    by (eapply all_chars_impl; [|exact Hfree];
        now intros c [H _]%andb_true_iff).
  rewrite Hfix. apply replace_absent.
  eapply all_chars_impl; [|exact Hfree]. now intros c [_ H]%andb_true_iff.
Qed.

End ManifestEdges.

(** X4. At the package-name prompt of [_create_pyproject_toml], pressing
    Enter keeps the default name, and typing the default name back
    stores it unchanged whenever lower-casing leaves that name as it is,
    which it does for every ASCII name of the working directory: the
    name offered is then a fixed point of the normalisation applied to
    typed names.  This holds however the call ends. *)
Theorem offered_name_is_kept
  (E : Env) (st : State) (i : string) (rest : list string)
  (r : outcome unit) (st' : State) :
  Os.exists_ (fs st) (resolve (cwd E) "pyproject.toml") = false ->
  stdin st = i :: rest ->
  i = ""
  \/ (i = _get_default_package_name E
      /\ (Py.isascii (Py.path_name (cwd E)) = true
          \/ str_lower E (_get_default_package_name E)
             = _get_default_package_name E)) ->
  _create_pyproject_toml E st = (r, st') ->
  package_name st' = _get_default_package_name E.
Proof.
  intros Hex Hin Hi H.
  rewrite (create_pyproject_toml_name E st i rest r st' Hex Hin H).
  destruct Hi as [->|[-> Hfix]]; [reflexivity|].
  destruct (Py.truthy _); [|reflexivity].
  apply typed_default_name.
  destruct Hfix as [Ha|Hfix]; [now apply default_name_lower_fixed | exact Hfix].
Qed.

Lemma offered_name_is_kept_witness :
  _get_default_package_name Sample.linux = "my_project"
  /\ package_name
       (_create_pyproject_toml Sample.linux
          (Sample.state Sample.fs_requirements ["my_project"; "1.0"])).2
     = "my_project"
  /\ package_name
       (_create_pyproject_toml Sample.linux
          (Sample.state Sample.fs_requirements [""; "1.0"])).2
     = "my_project".
Proof.
  split; [reflexivity|]. split.
  - apply (offered_name_is_kept Sample.linux
             (Sample.state Sample.fs_requirements ["my_project"; "1.0"])
             "my_project" ["1.0"]
             (_create_pyproject_toml Sample.linux
                (Sample.state Sample.fs_requirements ["my_project"; "1.0"])).1).
    + vm_compute. reflexivity.
    + reflexivity.
    + right. split; [reflexivity|]. left. vm_compute. reflexivity.
    + apply surjective_pairing.
  - apply (offered_name_is_kept Sample.linux
             (Sample.state Sample.fs_requirements [""; "1.0"])
             "" ["1.0"]
             (_create_pyproject_toml Sample.linux
                (Sample.state Sample.fs_requirements [""; "1.0"])).1).
    + vm_compute. reflexivity.
    + reflexivity.
    + left. reflexivity.
    + apply surjective_pairing.
Defined.

(** X5. When there is no manifest and standard input is at its end,
    [_create_pyproject_toml] raises [EOFError] at the package-name
    prompt: it has printed its notice and the prompt with the default
    name, has stored that default, and has created no file or directory
    and spawned no command. *)
Theorem create_pyproject_toml_at_eof (E : Env) (st : State) :
  Os.exists_ (fs st) (resolve (cwd E) "pyproject.toml") = false ->
  stdin st = [] ->
  exists st',
    _create_pyproject_toml E st = (Raise EOFError, st')
    /\ fs st' = fs st
    /\ spawned st' = spawned st
    /\ package_name st' = _get_default_package_name E
    /\ stdout st'
       = stdout st
         ++ [info_line "pyproject.toml not found. Let's create one.";
             "Package name (default: " +:+ _get_default_package_name E +:+ "): "].
Proof.
  intros Hex Hin. unfold _create_pyproject_toml.
  step_with path_exists_run. rewrite Hex.
  step_with print_info_run. step_with modify_run. step_with get_run.
  erewrite bind_raise by (apply input_eof; simpl; exact Hin).
  eexists. split; [reflexivity|]. repeat split.
  simpl. now rewrite <- app_assoc.
Qed.

Lemma create_pyproject_toml_at_eof_witness :
  Os.exists_ Sample.fs_empty (resolve Sample.project_dir "pyproject.toml") = false
  /\ (_create_pyproject_toml Sample.linux (Sample.state Sample.fs_empty [])).1
     = Raise EOFError
  /\ fs (_create_pyproject_toml Sample.linux (Sample.state Sample.fs_empty [])).2
     = Sample.fs_empty.
Proof.
  assert (Hex : Os.exists_ (fs (Sample.state Sample.fs_empty []))
                  (resolve (cwd Sample.linux) "pyproject.toml") = false)
    by (vm_compute; reflexivity).
  split; [exact Hex|].
  destruct (create_pyproject_toml_at_eof Sample.linux
              (Sample.state Sample.fs_empty []) Hex eq_refl)
    as (st' & -> & Hfs & _).
  split; [reflexivity | exact Hfs].
Defined.

(* ===================================================================== *)
(** * Further properties: [_strip_content] *)
(* ===================================================================== *)

Section StripContent.

Import Py.

Lemma strip_content_lines (content : string) :
  _strip_content content = join nl (stripped_lines content).
Proof. reflexivity. Qed.

Lemma split_not_nil (sep : ascii) (s : string) : split sep s <> [].
Proof.
  induction s as [|c s IH]; simpl; [discriminate|].
  destruct (Ascii.eqb c sep); [discriminate|].
  now destruct (split sep s).
Qed.

Lemma split_at (c : ascii) (s : string) :
  Ascii.eqb c LF = true -> split LF (String c s) = "" :: split LF s.
Proof. intros Hc. simpl. now rewrite Hc. Qed.

(** Splitting at line feeds goes through a line feed. *)
Lemma split_app (a b : string) :
  split LF (a +:+ nl +:+ b) = split LF a ++ split LF b.
Proof.
  induction a as [|c a IH]; [reflexivity|].
  change (String c a +:+ nl +:+ b) with (String c (a +:+ nl +:+ b)).
  destruct (Ascii.eqb c LF) eqn:Hc.
  - now rewrite !(split_at _ _ Hc), IH.
  - rewrite !(split_cons _ _ Hc), IH.
    pose proof (split_not_nil LF a). now destruct (split LF a).
Qed.

Lemma stripped_lines_app (a b : string) :
  stripped_lines (a +:+ nl +:+ b) = stripped_lines a ++ stripped_lines b.
Proof.
  unfold stripped_lines. now rewrite split_app, List.filter_app, map_app.
Qed.

Lemma split_no_lf (s : string) : Forall (fun l => no_lf l = true) (split LF s).
Proof.
  induction s as [|c s IH]; simpl.
  - now constructor.
  - destruct (Ascii.eqb c LF) eqn:Hc.
    + now constructor.
    + destruct (split LF s) as [|h t]; simpl.
      * constructor; [|constructor]. unfold no_lf. simpl. now rewrite Hc.
      * inversion IH as [|? ? Hh Ht]; subst. constructor; [|exact Ht].
        unfold no_lf in *. simpl. now rewrite Hc, Hh.
Qed.

Lemma split_one (s : string) : no_lf s = true -> split LF s = [s].
Proof.
  induction s as [|c s IH]; [reflexivity|].
  intros [Hc Hs]%andb_true_iff. apply negb_true_iff in Hc.
  simpl. now rewrite Hc, (IH Hs).
Qed.

Lemma all_chars_remove (P : ascii -> bool) (old : ascii) (s : string) :
  all_chars P s = true -> all_chars P (replace old "" s) = true.
Proof.
  induction s as [|c s IH]; simpl; [reflexivity|].
  intros [Hc Hs]%andb_true_iff.
  destruct (Ascii.eqb c old); simpl; [now apply IH | now rewrite Hc, IH].
Qed.

(** ** Stripping and removing twice *)

Lemma remove_removed (old : ascii) (s : string) :
  replace old "" (replace old "" s) = replace old "" s.
Proof.
  induction s as [|c s IH]; simpl; [reflexivity|].
  destruct (Ascii.eqb c old) eqn:Hc; simpl; [exact IH|].
  now rewrite Hc, IH.
Qed.

(** A line that [_strip_content] keeps comes out tidy. *)
Lemma stripped_line_tidy (l : string) :
  is_text l = true -> no_lf l = true -> truthy (strip l) = true ->
  tidy (replace TAB "" (strip l)).
Proof.
  intros Htext Hlf Ht. destruct (strip_remove_tabs l Htext) as [Hfix Hne].
  repeat split.
  - specialize (Hne Ht). now destruct (replace TAB "" (strip l)).
  - now apply all_chars_remove, all_chars_strip.
  - exact Hfix.
  - apply remove_removed.
Qed.

Lemma stripped_lines_tidy (content : string) :
  is_text content = true -> Forall tidy (stripped_lines content).
Proof.
  intros Htext. unfold stripped_lines. apply List.Forall_forall. intros x Hx.
  apply in_map_iff in Hx as (l & <- & Hl).
  apply filter_In in Hl as [Hin Ht].
  pose proof (split_no_lf content) as Hall.
  pose proof (split_text content Htext) as Htexts.
  rewrite List.Forall_forall in Hall, Htexts.
  apply stripped_line_tidy; [now apply Htexts | now apply Hall | exact Ht].
Qed.

(** The stripped lines of a text made of lines without line feed that
    are not blank. *)
Lemma stripped_lines_join (L : list string) :
  Forall (fun x => no_lf x = true /\ truthy (strip x) = true) L ->
  stripped_lines (join nl L)
  = map (fun x => replace TAB "" (strip x)) L.
Proof.
  induction L as [|x L IH]; intros H; [reflexivity|].
  inversion H as [|? ? [Hlf Ht] HL]; subst.
  assert (Hx : stripped_lines x = [replace TAB "" (strip x)]).
  { unfold stripped_lines. rewrite (split_one x Hlf). simpl. now rewrite Ht. }
  destruct L as [|y L].
  - exact Hx.
  - change (join nl (x :: y :: L)) with (x +:+ nl +:+ join nl (y :: L)).
    rewrite stripped_lines_app, Hx, (IH HL). reflexivity.
Qed.

End StripContent.

(** X6. On a text (a string in which every character is complete),
    [_strip_content] leaves lines that are tidy (none is empty, none has
    a tab or a line feed, none has white space of any kind left at
    either end), and applying it again changes nothing. *)
Theorem strip_content_idempotent (content : string) :
  Py.is_text content = true ->
  Forall tidy (stripped_lines content)
  /\ _strip_content content = Py.join Py.nl (stripped_lines content)
  /\ _strip_content (_strip_content content) = _strip_content content.
Proof.
  intros Htext. pose proof (stripped_lines_tidy content Htext) as Ht.
  split; [exact Ht|]. split; [reflexivity|].
  rewrite !strip_content_lines. f_equal.
  rewrite stripped_lines_join.
  - induction Ht as [|x L (Hne & Hlf & Hs & Hr) _ IH]; [reflexivity|].
    simpl. now rewrite Hs, Hr, IH.
  - eapply List.Forall_impl; [|exact Ht].
    intros x (Hne & Hlf & Hs & Hr). split; [exact Hlf|].
    rewrite Hs. now destruct x.
Qed.

Lemma strip_content_idempotent_witness :
  _strip_content
    ("  a" +:+ Py.tab +:+ "b " +:+ Sample.no_break_space +:+ Py.nl
     +:+ Sample.em_space +:+ Py.tab +:+ Py.nl
     +:+ Sample.next_line +:+ "é" +:+ Sample.em_space +:+ "c" +:+ Py.tab)
  = "ab" +:+ Py.nl +:+ "é" +:+ Sample.em_space +:+ "c"
  /\ _strip_content ("ab" +:+ Py.nl +:+ "é" +:+ Sample.em_space +:+ "c")
     = "ab" +:+ Py.nl +:+ "é" +:+ Sample.em_space +:+ "c".
Proof.
  pose (content :=
          "  a" +:+ Py.tab +:+ "b " +:+ Sample.no_break_space +:+ Py.nl
          +:+ Sample.em_space +:+ Py.tab +:+ Py.nl
          +:+ Sample.next_line +:+ "é" +:+ Sample.em_space +:+ "c" +:+ Py.tab).
  assert (Hc : _strip_content content
               = "ab" +:+ Py.nl +:+ "é" +:+ Sample.em_space +:+ "c")
    by (vm_compute; reflexivity).
  split; [exact Hc|].
  destruct (strip_content_idempotent content) as (_ & _ & Hi).
  - vm_compute. reflexivity.
  - now rewrite Hc in Hi.
Defined.

(* ===================================================================== *)
(** * Further properties: dependencies in the poetry manifest *)
(* ===================================================================== *)

Section ManifestDependencies.

Import Py.

Lemma strip_indent4 (d : string) : strip (indent4 d) = strip d.
Proof. reflexivity. Qed.

Lemma no_lf_indent4 (d : string) : no_lf (indent4 d) = no_lf d.
Proof. reflexivity. Qed.

(** A requirement line has nothing left to strip. *)
Lemma requirement_lines_fixed (text : string) :
  Forall (fun d => strip d = d /\ truthy d = true) (requirement_lines text).
Proof.
  unfold requirement_lines. apply List.Forall_forall. intros d Hd.
  apply filter_In in Hd as [Hin Hdep].
  apply in_map_iff in Hin as (l & <- & _).
  split; [apply strip_again|].
  unfold is_dep in Hdep. now apply andb_true_iff in Hdep as [Ht _].
Qed.

(** The indented block, once through the line-wise stripping, is the
    requirement lines again. *)
Lemma stripped_lines_block (text : string) :
  Forall (fun d => single_line d = true) (requirement_lines text) ->
  stripped_lines (_indent_dependencies (join nl (requirement_lines text)))
  = map (replace TAB "") (requirement_lines text).
Proof.
  intros Hs. rewrite (indent_requirement_lines text Hs).
  pose proof (requirement_lines_fixed text) as Hf.
  rewrite stripped_lines_join.
  - rewrite map_map. apply map_ext_in. intros d Hd.
    rewrite List.Forall_forall in Hf. destruct (Hf d Hd) as [Hfix _].
    now rewrite strip_indent4, Hfix.
  - apply List.Forall_forall. intros x Hx.
    apply in_map_iff in Hx as (d & <- & Hd).
    rewrite List.Forall_forall in Hf, Hs. destruct (Hf d Hd) as [Hfix Ht].
    split.
    + rewrite no_lf_indent4. now apply single_line_no_lf, Hs.
    + now rewrite strip_indent4, Hfix.
Qed.

Lemma poetry_template_parts
  (package_name version description author_name author_email deps : string) :
  poetry_template package_name version description author_name author_email deps
  = poetry_template_head package_name version description author_name
      author_email
    +:+ nl +:+ deps +:+ nl +:+ poetry_template_tail.
Proof.
  unfold poetry_template, poetry_template_head, poetry_template_tail, tpl.
  rewrite !app_assoc_s. reflexivity.
Qed.

End ManifestDependencies.


(* ===================================================================== *)
(** * Further properties: what [_setup_requirements] leaves behind *)
(* ===================================================================== *)

Section AfterSetupRequirements.

Variable E : Env.

Lemma write_other (f f' : gmap path node) k k' content :
  Os.write f k content = inr f' -> k <> k' -> Os.stat f' k' = Os.stat f k'.
Proof.
  intros ->%write_inv Hne. destruct k' as [|c k']; [reflexivity|].
  simpl. now apply lookup_insert_ne.
Qed.

Lemma base_is_not_dev :
  resolve (cwd E) base_requirements <> resolve (cwd E) dev_requirements.
Proof.
  rewrite resolve_base_requirements, resolve_dev_requirements.
  intros H. apply List.app_inv_head in H.
  apply (f_equal (map String.length)) in H. discriminate H.
Qed.

(** What [_write_if_missing] leaves at another path. *)
Lemma write_if_missing_other filename content st st' k :
  _write_if_missing E filename content st = (Ok tt, st') ->
  resolve (cwd E) filename <> k ->
  Os.stat (fs st') k = Os.stat (fs st) k.
Proof.
  intros H Hne.
  destruct (Os.exists_ (fs st) (resolve (cwd E) filename)) eqn:Hex.
  - rewrite (write_if_missing_present E _ _ _ Hex) in H. now injection H as <-.
  - rewrite (write_if_missing_absent E _ _ _ Hex) in H.
    destruct (Os.write _ _ _) as [e|f'] eqn:Hw; [discriminate|].
    injection H as <-. simpl. now apply (write_other _ _ _ _ _ Hw).
Qed.

(** What [_write_if_missing] leaves at its target when it was missing. *)
Lemma write_if_missing_content filename content st st' :
  Os.exists_ (fs st) (resolve (cwd E) filename) = false ->
  _write_if_missing E filename content st = (Ok tt, st') ->
  Os.stat (fs st') (resolve (cwd E) filename) = Some (File content).
Proof.
  intros Hex H. rewrite (write_if_missing_absent E _ _ _ Hex) in H.
  destruct (Os.write _ _ _) as [e|f'] eqn:Hw; [discriminate|].
  injection H as <-. simpl. now apply (write_stat _ _ _ _ Hw).
Qed.

Lemma exists_lookup (f : gmap path node) (d : path) (n : string) :
  Os.exists_ f (d ++ [n]) = true -> is_Some (f !! (d ++ [n])).
Proof.
  intros H. unfold Os.exists_ in H.
  destruct (Os.stat f (d ++ [n])) as [x|] eqn:Hs; [|discriminate].
  destruct d; simpl in Hs; eauto.
Qed.

End AfterSetupRequirements.

(** X8. In a directory that has neither requirements file,
    [_setup_requirements], when it ends normally, has created
    [requirements.txt] holding the one comment line
    [# project requirements] and [requirements.dev.txt] holding the ten
    tool names, one per line; the dependency block computed from that
    base file for the poetry manifest is then empty. *)
Theorem fresh_directory_requirements (E : Env) (st st1 : State) :
  Os.exists_ (fs st) (resolve (cwd E) base_requirements) = false ->
  Os.exists_ (fs st) (resolve (cwd E) dev_requirements) = false ->
  _setup_requirements E st = (Ok tt, st1) ->
  Os.stat (fs st1) (resolve (cwd E) base_requirements)
  = Some (File "# project requirements")
  /\ Os.stat (fs st1) (resolve (cwd E) dev_requirements)
     = Some (File (Py.join Py.nl
                     ["pytest"; "mypy"; "types-python-dateutil"; "build";
                      "toml"; "twine"; "wheel"; "pkginfo"; "hatchling"; "moto"]))
  /\ dependency_block E st1 = (Ok "", st1).
Proof.
  intros Hb Hd H. unfold _setup_requirements in H.
  apply bind_inv_ok in H as ([] & s & H1 & H2).
  pose proof (write_if_missing_content E _ _ _ _ Hb H1) as Hbase.
  assert (Hd' : Os.exists_ (fs s) (resolve (cwd E) dev_requirements) = false).
  { unfold Os.exists_ in *.
    rewrite (write_if_missing_other E _ _ _ _ _ H1 (base_is_not_dev E)).
    exact Hd. }
  pose proof (write_if_missing_content E _ _ _ _ Hd' H2) as Hdev.
  assert (Hbase1 : Os.stat (fs st1) (resolve (cwd E) base_requirements)
                   = Some (File "# project requirements")).
  { rewrite (write_if_missing_other E _ _ _ _ _ H2); [exact Hbase|].
    intros Heq. now apply (base_is_not_dev E). }
  split; [exact Hbase1|]. split; [exact Hdev|].
  rewrite (dependency_block_run E st1 "# project requirements");
    [reflexivity|].
  unfold Os.read. unfold base_requirements in Hbase1. now rewrite Hbase1.
Qed.

Lemma fresh_directory_requirements_witness :
  Os.exists_ Sample.fs_empty (resolve Sample.project_dir base_requirements) = false
  /\ Os.exists_ Sample.fs_empty (resolve Sample.project_dir dev_requirements) = false
  /\ (_setup_requirements Sample.linux (Sample.state Sample.fs_empty [])).1 = Ok tt
  /\ (dependency_block Sample.linux
        (_setup_requirements Sample.linux (Sample.state Sample.fs_empty [])).2).1
     = Ok "".
Proof.
  assert (Hb : Os.exists_ (fs (Sample.state Sample.fs_empty []))
                 (resolve (cwd Sample.linux) base_requirements) = false)
    by (vm_compute; reflexivity).
  assert (Hd : Os.exists_ (fs (Sample.state Sample.fs_empty []))
                 (resolve (cwd Sample.linux) dev_requirements) = false)
    by (vm_compute; reflexivity).
  split; [exact Hb|]. split; [exact Hd|]. split; [vm_compute; reflexivity|].
  destruct (fresh_directory_requirements Sample.linux
              (Sample.state Sample.fs_empty [])
              (_setup_requirements Sample.linux (Sample.state Sample.fs_empty [])).2
              Hb Hd) as (_ & _ & ->).
  - vm_compute. reflexivity.
  - reflexivity.
Defined.

(** X9. When the script lies in the working directory, the two files
    that [_setup_requirements] looks after are among those that
    [get_list_of_requirements_files] then returns, whether it created
    them or found them: what the script writes, the pip strategy
    installs. *)
Theorem ensured_files_are_discovered
  (E : Env) (st st1 : State) (names : list string) :
  _setup_requirements E st = (Ok tt, st1) ->
  resolve (cwd E) (script_dir E) = resolve (cwd E) "." ->
  Os.listdir (fs st1) (resolve (cwd E) (script_dir E)) = inr names ->
  exists req_files,
    get_list_of_requirements_files E st1 = (Ok req_files, st1)
    /\ In base_requirements req_files
    /\ In dev_requirements req_files.
Proof.
  intros H Hdir Hls. unfold _setup_requirements in H.
  apply bind_inv_ok in H as ([] & s & H1 & H2).
  apply write_if_missing_ok in H1 as [Hbase _].
  apply write_if_missing_ok in H2 as [Hdev Hkeep].
  apply Hkeep in Hbase.
  exists (List.filter is_requirements_file names).
  split; [now apply get_list_of_requirements_files_run|].
  fold base_requirements in Hbase. fold dev_requirements in Hdev.
  rewrite resolve_base_requirements in Hbase.
  rewrite resolve_dev_requirements in Hdev.
  rewrite <- Hdir in Hbase, Hdev.
  split; apply filter_In; (split; [|reflexivity]);
    apply list_elem_of_In, (listdir_spec _ _ _ Hls); now apply exists_lookup.
Qed.

Lemma ensured_files_are_discovered_witness :
  (_setup_requirements Sample.linux (Sample.state Sample.fs_empty [])).1 = Ok tt
  /\ exists req_files,
       (get_list_of_requirements_files Sample.linux
          (_setup_requirements Sample.linux (Sample.state Sample.fs_empty [])).2).1
       = Ok req_files
       /\ In base_requirements req_files
       /\ In dev_requirements req_files.
Proof.
  split; [vm_compute; reflexivity|].
  pose (st1 := (_setup_requirements Sample.linux (Sample.state Sample.fs_empty [])).2).
  destruct (ensured_files_are_discovered Sample.linux
              (Sample.state Sample.fs_empty []) st1
              (match Os.listdir (fs st1)
                       (resolve (cwd Sample.linux) (script_dir Sample.linux)) with
               | inr l => l
               | inl _ => []
               end))
    as (l & Hrun & Hb & Hd).
  - vm_compute. reflexivity.
  - vm_compute. reflexivity.
  - vm_compute. reflexivity.
  - exists l. fold st1. rewrite Hrun. auto.
Defined.

(* ===================================================================== *)
(** * Further properties: the choice of the workflow *)
(* ===================================================================== *)

Section WorkflowChoice.

Variable E : Env.

(** On a supported system [_detect_platform] gets as far as the probe
    of the manifest. *)
Lemma detect_platform_supported st os :
  os_type_of E (fs st) = Some os ->
  _detect_platform E st
  = (let project_tool := detected_tool E (fs st) in
     (if bool_decide (project_tool = Some "poetry") then
        modify (set_use_poetry true) ;;
        print_info "Detected Poetry project from pyproject.toml."
      else if bool_decide (project_tool = Some "hatch") then
        modify (set_use_poetry false) ;;
        print_info "Detected Hatch project from pyproject.toml."
      else if bool_decide (project_tool = Some "flit") then
        modify (set_use_poetry false) ;;
        print_info "Detected Flit project from pyproject.toml."
      else
        a <- input "📦 Do you want to use pip or poetry? (default: pip): " ;;
        modify (set_use_poetry
                  (String.eqb (str_lower E (Py.str_or a "pip")) "poetry"))) ;;
     ret os)%run
      (emit (line ("📟 OS: " +:+ os +:+ " | Architecture: " +:+ machine E))
         (emit (line "🧠 Detecting OS and architecture...") st)).
Proof.
  unfold os_type_of, _detect_platform. intros Hos.
  step_with print_run.
  destruct (String.eqb (sysname E) "Darwin").
  - injection Hos as <-.
    rewrite (bind_ok _ _ _ _ _ (eq_refl : ret "mac" _ = (Ok "mac", _))).
    step_with print_run. step_with detect_project_tool_run. reflexivity.
  - destruct (String.eqb (sysname E) "Linux"); [|discriminate].
    injection Hos as <-.
    erewrite bind_ok; cycle 1.
    { step_with path_exists_run. reflexivity. }
    cbn [fs emit set_stdout].
    step_with print_run. step_with detect_project_tool_run. reflexivity.
Qed.

End WorkflowChoice.

(** X10. On a supported system, a manifest that names a tool decides the
    workflow without a question: [_detect_platform] reads nothing from
    standard input and selects poetry for the poetry marker and pip for
    the hatch and flit markers.  Without such a manifest it reads one
    line and selects poetry exactly when the answer, or [pip] for an
    empty answer, is [poetry] in any letter case; at the end of input
    it raises [EOFError].  The file system is the same in every case. *)
Theorem workflow_choice (E : Env) (st : State) (os : string) :
  os_type_of E (fs st) = Some os ->
  (forall t,
      detected_tool E (fs st) = Some t ->
      exists st',
        _detect_platform E st = (Ok os, st')
        /\ use_poetry st' = String.eqb t "poetry"
        /\ stdin st' = stdin st
        /\ fs st' = fs st)
  /\ (detected_tool E (fs st) = None ->
      (forall a rest,
          stdin st = a :: rest ->
          exists st',
            _detect_platform E st = (Ok os, st')
            /\ use_poetry st'
               = String.eqb (str_lower E (if Py.truthy a then a else "pip")) "poetry"
            /\ stdin st' = rest
            /\ fs st' = fs st)
      /\ (stdin st = [] ->
          exists st',
            _detect_platform E st = (Raise EOFError, st')
            /\ fs st' = fs st)).
Proof.
  intros Hos. rewrite (detect_platform_supported E st os Hos). cbv zeta.
  split.
  - intros t Ht. rewrite Ht.
    destruct (detected_tool_cases E _ _ Ht) as [->|[->| ->]];
      eexists; (split; [reflexivity|]); repeat split.
  - intros ->. split.
    + intros a rest Hin. cbn [bool_decide decide_rel].
      rewrite !bool_decide_eq_false_2 by discriminate.
      erewrite bind_ok; cycle 1.
      { erewrite bind_ok by (apply input_run; simpl; exact Hin). reflexivity. }
      eexists. split; [reflexivity|]. repeat split.
    + intros Hin. rewrite !bool_decide_eq_false_2 by discriminate.
      erewrite bind_raise; cycle 1.
      { erewrite bind_raise by (apply input_eof; simpl; exact Hin). reflexivity. }
      eexists. split; reflexivity.
Qed.

Lemma workflow_choice_witness :
  os_type_of Sample.linux Sample.fs_configured = Some "linux"
  /\ detected_tool Sample.linux Sample.fs_configured = Some "poetry"
  /\ use_poetry
       (_detect_platform Sample.linux
          (Sample.state Sample.fs_configured ["pip"])).2
     = true
  /\ stdin
       (_detect_platform Sample.linux
          (Sample.state Sample.fs_configured ["pip"])).2
     = ["pip"].
Proof.
  assert (Hos : os_type_of Sample.linux
                  (fs (Sample.state Sample.fs_configured ["pip"]))
                = Some "linux") by (vm_compute; reflexivity).
  assert (Ht : detected_tool Sample.linux
                 (fs (Sample.state Sample.fs_configured ["pip"]))
               = Some "poetry") by (vm_compute; reflexivity).
  split; [exact Hos|]. split; [exact Ht|].
  destruct (proj1 (workflow_choice Sample.linux _ "linux" Hos) "poetry" Ht)
    as (st' & -> & Hu & Hin & _).
  split; [exact Hu | exact Hin].
Defined.

(* ===================================================================== *)
(** * Further properties: the pip strategy when a command fails *)
(* ===================================================================== *)

Section PipFailure.

Variable E : Env.

(** Every call of [subprocess.run] is recorded, however it ends, and
    leaves the search path alone. *)
Lemma subprocess_run_spawned cmd capture check st r st' :
  subprocess_run E cmd capture check st = (r, st') ->
  spawned st' = spawned st ++ [cmd] /\ environ_PATH st' = environ_PATH st.
Proof.
  unfold subprocess_run.
  destruct (spawn E cmd (environ_PATH st) (fs st)) as [[[rc out] f']|].
  - destruct (check && negb (rc =? 0)%Z); intros [= <- <-];
      now destruct capture.
  - now intros [= <- <-].
Qed.

Lemma subprocess_run_ok cmd capture check st :
  succeeds_on E cmd ->
  exists out st',
    subprocess_run E cmd capture check st = (Ok (0%Z, out), st').
Proof.
  intros Hs. unfold subprocess_run.
  destruct (Hs (environ_PATH st) (fs st)) as (out & f' & ->).
  rewrite andb_false_r. now exists out; eexists.
Qed.

Lemma subprocess_run_fails cmd capture st :
  fails_on E cmd ->
  exists rc st',
    subprocess_run E cmd capture true st = (Raise (CalledProcessError cmd rc), st')
    /\ rc <> 0%Z.
Proof.
  intros Hf. unfold subprocess_run.
  destruct (Hf (environ_PATH st) (fs st)) as (rc & out & f' & -> & Hrc).
  apply Z.eqb_neq in Hrc. rewrite Hrc. simpl. exists rc. eexists.
  split; [reflexivity | now apply Z.eqb_neq].
Qed.

Lemma install_requirements_ok req_file st :
  succeeds_on E (install_cmd req_file) ->
  exists st',
    install_requirements E req_file st = (Ok tt, st')
    /\ spawned st' = spawned st ++ [install_cmd req_file].
Proof.
  intros Hs. unfold install_requirements. step_with print_run.
  match goal with
  | |- context [Run.bind (subprocess_run E ?c ?a ?b) _ ?s] =>
      destruct (subprocess_run_ok c a b s Hs) as (out & st' & Hrun)
  end.
  exists st'. rewrite (bind_ok _ _ _ _ _ Hrun). split; [reflexivity|].
  now apply subprocess_run_spawned in Hrun as [-> _].
Qed.

Lemma install_requirements_fails req_file st :
  fails_on E (install_cmd req_file) ->
  exists rc st',
    install_requirements E req_file st
    = (Raise (CalledProcessError (install_cmd req_file) rc), st')
    /\ rc <> 0%Z
    /\ spawned st' = spawned st ++ [install_cmd req_file].
Proof.
  intros Hf. unfold install_requirements. step_with print_run.
  match goal with
  | |- context [Run.bind (subprocess_run E ?c ?a ?b) _ ?s] =>
      destruct (subprocess_run_fails c a s Hf) as (rc & st' & Hrun & Hrc)
  end.
  exists rc, st'. rewrite (bind_raise _ _ _ _ _ Hrun).
  split; [reflexivity|]. split; [exact Hrc|].
  now apply subprocess_run_spawned in Hrun as [-> _].
Qed.

(** The loop of [_setup_pip] stops at the first file whose installation
    fails. *)
Lemma for_each_install_stops (before after : list string) (bad : string) st :
  Forall (fun f => succeeds_on E (install_cmd f)) before ->
  fails_on E (install_cmd bad) ->
  exists rc st',
    for_each (install_requirements E) (before ++ bad :: after) st
    = (Raise (CalledProcessError (install_cmd bad) rc), st')
    /\ rc <> 0%Z
    /\ spawned st'
       = spawned st ++ map install_cmd before ++ [install_cmd bad].
Proof.
  intros Hb Hf. revert st. induction Hb as [|f l Hfok _ IH]; intros st; simpl.
  - destruct (install_requirements_fails bad st Hf) as (rc & st' & Hrun & Hrc & Hsp).
    exists rc, st'. now rewrite (bind_raise _ _ _ _ _ Hrun).
  - destruct (install_requirements_ok f st Hfok) as (s1 & Hrun & Hsp).
    destruct (IH s1) as (rc & st' & Hrun' & Hrc & Hsp').
    exists rc, st'. rewrite (bind_ok _ _ _ _ _ Hrun).
    split; [exact Hrun'|]. split; [exact Hrc|].
    now rewrite Hsp', Hsp, <- app_assoc.
Qed.

End PipFailure.

(** X11. The pip strategy stops at the first requirements file whose
    installation ends with a status other than 0: the files before it
    have been installed, the files after it and the project itself are
    not, the error [pip setup failed: ...] is the last thing printed,
    and the process exits with status 1. *)
Theorem pip_stops_at_first_failure
  (E : Env) (st st1 st2 : State) (r2 : Z * string)
  (names before after : list string) (bad : string) :
  _create_pyproject_toml E st = (Ok tt, st1) ->
  (subprocess_run E venv_cmd false true ;;
   subprocess_run E pip_upgrade_cmd false true)%run (emit pip_banner st1)
  = (Ok r2, st2) ->
  Os.listdir (fs st2) (resolve (cwd E) (script_dir E)) = inr names ->
  List.filter is_requirements_file names = before ++ bad :: after ->
  Forall (fun f => succeeds_on E (install_cmd f)) before ->
  fails_on E (install_cmd bad) ->
  exists st' rc out,
    _setup_pip E st = (Exit 1, st')
    /\ rc <> 0%Z
    /\ spawned st'
       = spawned st1 ++ [venv_cmd; pip_upgrade_cmd]
         ++ map install_cmd before ++ [install_cmd bad]
    /\ stdout st'
       = out
         ++ [error_line ("pip setup failed: "
                         +:+ str_exn E (CalledProcessError (install_cmd bad) rc))].
Proof.
  intros Hc Hpre Hls Hsplit Hb Hf.
  destruct (for_each_install_stops E before after bad st2 Hb Hf)
    as (rc & s3 & Hfor & Hrc & Hsp3).
  assert (Hsp2 : spawned st2 = spawned st1 ++ [venv_cmd; pip_upgrade_cmd]).
  { pose proof Hpre as Hpre'.
    apply bind_inv_ok in Hpre' as (r1 & s1 & Hv & Hp).
    apply subprocess_run_spawned in Hv as [Hv _].
    apply subprocess_run_spawned in Hp as [Hp _].
    rewrite Hp, Hv. simpl. now rewrite <- app_assoc. }
  unfold _setup_pip. rewrite (bind_ok _ _ _ _ _ Hc). step_with print_run.
  unfold try_except, pip_banner, line in *.
  apply bind_inv_ok in Hpre as (r1 & s1 & Hv & Hp).
  rewrite (bind_ok _ _ _ _ _ Hv), (bind_ok _ _ _ _ _ Hp).
  rewrite (bind_ok _ _ _ _ _
             (get_list_of_requirements_files_run E st2 names Hls)).
  rewrite Hsplit, (bind_raise _ _ _ _ _ Hfor).
  eexists. exists rc. eexists. split; [reflexivity|]. split; [exact Hrc|].
  split.
  - simpl. rewrite Hsp3, Hsp2. now rewrite <- !app_assoc.
  - reflexivity.
Qed.

Lemma pip_stops_at_first_failure_witness :
  succeeds_on Scenario.linux_base_fails (install_cmd "requirements.dev.txt")
  /\ fails_on Scenario.linux_base_fails (install_cmd "requirements.txt")
  /\ (_setup_pip Scenario.linux_base_fails (Sample.state Scenario.fs_both [])).1
     = Exit 1
  /\ spawned
       (_setup_pip Scenario.linux_base_fails (Sample.state Scenario.fs_both [])).2
     = [venv_cmd; pip_upgrade_cmd; install_cmd "requirements.dev.txt";
        install_cmd "requirements.txt"].
Proof.
  assert (Hs : succeeds_on Scenario.linux_base_fails
                 (install_cmd "requirements.dev.txt"))
    by (intros p f; exists "out", f; reflexivity).
  assert (Hf : fails_on Scenario.linux_base_fails
                 (install_cmd "requirements.txt"))
    by (intros p f; exists 1%Z, "", f; split; [reflexivity | discriminate]).
  split; [exact Hs|]. split; [exact Hf|].
  pose (st0 := Sample.state Scenario.fs_both []).
  pose (st1 := (_create_pyproject_toml Scenario.linux_base_fails st0).2).
  pose (st2 := (subprocess_run Scenario.linux_base_fails pip_upgrade_cmd false true
                  (subprocess_run Scenario.linux_base_fails venv_cmd false true
                     (emit pip_banner st1)).2).2).
  destruct (pip_stops_at_first_failure Scenario.linux_base_fails st0 st1 st2
              (0%Z, "out")
              (match Os.listdir (fs st2)
                       (resolve (cwd Scenario.linux_base_fails)
                          (script_dir Scenario.linux_base_fails)) with
               | inr l => l
               | inl _ => []
               end)
              ["requirements.dev.txt"] [] "requirements.txt")
    as (st' & rc & out & Hrun & _ & Hsp & _).
  - vm_compute. reflexivity.
  - vm_compute. reflexivity.
  - vm_compute. reflexivity.
  - vm_compute. reflexivity.
  - constructor; [exact Hs | constructor].
  - exact Hf.
  - fold st0. rewrite Hrun. split; [reflexivity|]. simpl. rewrite Hsp.
    vm_compute. reflexivity.
Defined.

(** X12. When [python3] cannot be started, the pip strategy does not
    exit with status 1: [subprocess.run] raises [FileNotFoundError],
    which the handler for [CalledProcessError] does not catch, so the
    exception leaves [_setup_pip]; no error line is printed and no other
    command is tried. *)
Theorem pip_without_python_raises (E : Env) (st st1 : State) :
  _create_pyproject_toml E st = (Ok tt, st1) ->
  spawn E venv_cmd (environ_PATH st1) (fs st1) = None ->
  exists st',
    _setup_pip E st = (Raise FileNotFoundError, st')
    /\ spawned st' = spawned st1 ++ [venv_cmd]
    /\ stdout st' = stdout st1 ++ [pip_banner]
    /\ fs st' = fs st1.
Proof.
  intros Hc Hsp. unfold _setup_pip.
  rewrite (bind_ok _ _ _ _ _ Hc). step_with print_run.
  unfold try_except.
  assert (Hv : subprocess_run E venv_cmd false true (emit pip_banner st1)
               = (Raise FileNotFoundError,
                  set_spawned (spawned st1 ++ [venv_cmd]) (emit pip_banner st1))).
  { unfold subprocess_run. cbn [environ_PATH fs emit set_stdout]. now rewrite Hsp. }
  unfold pip_banner, line in Hv. rewrite (bind_raise _ _ _ _ _ Hv).
  eexists. split; [reflexivity|]. repeat split.
Qed.

Lemma pip_without_python_raises_witness :
  (_setup_pip Sample.linux_no_git (Sample.state Sample.fs_configured [])).1
  = Raise FileNotFoundError
  /\ spawned
       (_setup_pip Sample.linux_no_git (Sample.state Sample.fs_configured [])).2
     = [venv_cmd].
Proof.
  destruct (pip_without_python_raises Sample.linux_no_git
              (Sample.state Sample.fs_configured [])
              (_create_pyproject_toml Sample.linux_no_git
                 (Sample.state Sample.fs_configured [])).2)
    as (st' & -> & Hsp & _).
  - vm_compute. reflexivity.
  - reflexivity.
  - split; [reflexivity|]. simpl. rewrite Hsp. reflexivity.
Defined.

(* ===================================================================== *)
(** * Further properties: the poetry strategy *)
(* ===================================================================== *)

Section PoetryStrategy.

Variable E : Env.

Lemma subprocess_run_succeeds_path cmd capture check st :
  every_command_succeeds E ->
  exists out st',
    subprocess_run E cmd capture check st = (Ok (0%Z, out), st')
    /\ spawned st' = spawned st ++ [cmd]
    /\ environ_PATH st' = environ_PATH st.
Proof.
  intros Hs. destruct (subprocess_run_succeeds E Hs cmd capture check st)
    as (out & st' & Hrun & Hsp).
  exists out, st'. split; [exact Hrun|]. split; [exact Hsp|].
  now apply subprocess_run_spawned in Hrun as [_ ->].
Qed.

(** The part of [_setup_poetry] after poetry is known to be there. *)
Lemma poetry_check_and_install st :
  every_command_succeeds E ->
  exists st',
    (result <- subprocess_run E poetry_version_cmd true false ;;
     (if negb (result.1 =? 0)%Z then
        print_error "Poetry installation failed." ;; sys_exit 1
      else ret tt) ;;
     print_success (Py.strip result.2) ;;
     print "🔧 Creating virtual environment with Poetry..." ;;
     subprocess_run E poetry_install_cmd false true ;;
     ret tt)%run st
    = (Ok tt, st')
    /\ spawned st' = spawned st ++ [poetry_version_cmd; poetry_install_cmd]
    /\ environ_PATH st' = environ_PATH st.
Proof.
  intros Hs.
  destruct (subprocess_run_succeeds_path poetry_version_cmd true false st Hs)
    as (o1 & s1 & Hv & Hsp1 & Hp1).
  rewrite (bind_ok _ _ _ _ _ Hv). cbn [fst snd Z.eqb negb]. cbv beta iota.
  rewrite (bind_ok _ _ _ _ _ (eq_refl : ret tt s1 = (Ok tt, s1))).
  step_with print_success_run. step_with print_run.
  match goal with
  | |- context [Run.bind (subprocess_run E ?c ?a ?b) _ ?s] =>
      destruct (subprocess_run_succeeds_path c a b s Hs)
        as (o2 & s2 & Hi & Hsp2 & Hp2)
  end.
  rewrite (bind_ok _ _ _ _ _ Hi). exists s2. split; [reflexivity|].
  split.
  - rewrite Hsp2. simpl. rewrite Hsp1. now rewrite <- app_assoc.
  - rewrite Hp2. simpl. exact Hp1.
Qed.

End PoetryStrategy.

(** X13. The poetry strategy downloads and runs the installer only when
    [poetry] is not on the search path.  When every command succeeds:
    with poetry found it spawns [poetry --version] and [poetry install]
    and leaves [PATH] alone; with poetry missing it first runs the
    installer through the shell and puts [~/.local/bin] in front of
    [PATH], then spawns the same two commands. *)
Theorem poetry_installer_only_when_missing
  (E : Env) (st st1 : State) (p : string) :
  every_command_succeeds E ->
  _create_pyproject_toml E st = (Ok tt, st1) ->
  environ_PATH st1 = Some p ->
  exists st',
    _setup_poetry E st = (Ok tt, st')
    /\ match which E "poetry" (Some p) (fs st1) with
       | Some _ =>
           spawned st'
           = spawned st1 ++ [poetry_version_cmd; poetry_install_cmd]
           /\ environ_PATH st' = Some p
       | None =>
           spawned st'
           = spawned st1
             ++ [poetry_installer_cmd; poetry_version_cmd; poetry_install_cmd]
           /\ environ_PATH st' = Some (home E +:+ "/.local/bin:" +:+ p)
       end.
Proof.
  intros Hs Hc Hp. unfold _setup_poetry.
  rewrite (bind_ok _ _ _ _ _ Hc). step_with print_run. unfold try_except.
  step_with get_run. cbn [environ_PATH fs emit set_stdout]. rewrite Hp.
  destruct (which E "poetry" (Some p) (fs st1)) as [w|].
  - rewrite (bind_ok _ _ _ _ _ (eq_refl : ret tt _ = (Ok tt, _))).
    match goal with
    | |- context [Run.bind (subprocess_run E _ _ _) _ ?s] =>
        destruct (poetry_check_and_install E s Hs) as (st' & Hrun & Hsp & Hpath)
    end.
    unfold poetry_version_cmd, poetry_install_cmd in Hrun.
    rewrite Hrun. exists st'. split; [reflexivity|].
    split; [exact Hsp | now rewrite Hpath].
  - destruct (subprocess_run_succeeds_path E poetry_installer_cmd false true
                (emit (line "⬇️ Installing Poetry...") (emit poetry_banner st1)) Hs)
      as (o & s1 & Hi & Hsp1 & Hp1).
    unfold poetry_installer_cmd, poetry_banner, line in Hi.
    erewrite bind_ok; cycle 1.
    { step_with print_run. unfold subprocess_shell.
      rewrite (bind_ok _ _ _ _ _ Hi). step_with get_run.
      rewrite Hp1. cbn [environ_PATH emit set_stdout]. rewrite Hp.
      reflexivity. }
    match goal with
    | |- context [Run.bind (subprocess_run E _ _ _) _ ?s] =>
        destruct (poetry_check_and_install E s Hs) as (st' & Hrun & Hsp & Hpath)
    end.
    unfold poetry_version_cmd, poetry_install_cmd in Hrun.
    rewrite Hrun. exists st'. split; [reflexivity|].
    split; [|now rewrite Hpath].
    rewrite Hsp. cbn [spawned set_PATH]. rewrite Hsp1. simpl.
    now rewrite <- app_assoc.
Qed.

Lemma poetry_installer_only_when_missing_witness :
  every_command_succeeds Scenario.linux_no_poetry
  /\ (_setup_poetry Scenario.linux_no_poetry
        (Sample.state Sample.fs_configured [])).1
     = Ok tt
  /\ spawned
       (_setup_poetry Scenario.linux_no_poetry
          (Sample.state Sample.fs_configured [])).2
     = [poetry_installer_cmd; poetry_version_cmd; poetry_install_cmd]
  /\ environ_PATH
       (_setup_poetry Scenario.linux_no_poetry
          (Sample.state Sample.fs_configured [])).2
     = Some "/home/me/.local/bin:/usr/bin".
Proof.
  assert (Hs : every_command_succeeds Scenario.linux_no_poetry)
    by (intros cmd p f; exists "out", f; reflexivity).
  split; [exact Hs|].
  destruct (poetry_installer_only_when_missing Scenario.linux_no_poetry
              (Sample.state Sample.fs_configured [])
              (_create_pyproject_toml Scenario.linux_no_poetry
                 (Sample.state Sample.fs_configured [])).2
              "/usr/bin" Hs)
    as (st' & -> & Hsp & Hpath).
  - vm_compute. reflexivity.
  - reflexivity.
  - split; [reflexivity|]. simpl. rewrite Hsp, Hpath.
    split; reflexivity.
Defined.

(** X14. When [poetry --version] ends with a status other than 0, the
    poetry strategy prints [Poetry installation failed.] and exits with
    status 1 without running [poetry install]; when the version check
    passes and [poetry install] ends with a status other than 0, it
    prints [Poetry setup failed: ...] and exits with status 1. *)
Theorem poetry_failures_exit
  (E : Env) (st st1 : State) (w : string) (rc : Z) (out : string)
  (f' : gmap path node) :
  _create_pyproject_toml E st = (Ok tt, st1) ->
  which E "poetry" (environ_PATH st1) (fs st1) = Some w ->
  spawn E poetry_version_cmd (environ_PATH st1) (fs st1) = Some (rc, out, f') ->
  (rc <> 0%Z ->
   exists st',
     _setup_poetry E st = (Exit 1, st')
     /\ spawned st' = spawned st1 ++ [poetry_version_cmd]
     /\ stdout st'
        = stdout st1
          ++ [poetry_banner; error_line "Poetry installation failed."])
  /\ (rc = 0%Z ->
      forall rc2 out2 f2,
        spawn E poetry_install_cmd (environ_PATH st1) f' = Some (rc2, out2, f2) ->
        rc2 <> 0%Z ->
        exists st',
          _setup_poetry E st = (Exit 1, st')
          /\ spawned st'
             = spawned st1 ++ [poetry_version_cmd; poetry_install_cmd]
          /\ exists pre,
               stdout st'
               = pre
                 ++ [error_line
                       ("Poetry setup failed: "
                        +:+ str_exn E (CalledProcessError poetry_install_cmd rc2))]).
Proof.
  intros Hc Hw Hv.
  assert (Hstart :
             _setup_poetry E st
             = try_except
                 ((result <- subprocess_run E poetry_version_cmd true false ;;
                   (if negb (result.1 =? 0)%Z then
                      print_error "Poetry installation failed." ;; sys_exit 1
                    else ret tt) ;;
                   print_success (Py.strip result.2) ;;
                   print "🔧 Creating virtual environment with Poetry..." ;;
                   subprocess_run E poetry_install_cmd false true ;;
                   ret tt)%run)
                 (fun e =>
                    match e with
                    | CalledProcessError _ _ =>
                        Some (print_error ("Poetry setup failed: " +:+ str_exn E e) ;;
                              sys_exit 1)%run
                    | _ => None
                    end)
                 (emit poetry_banner st1)).
  { unfold _setup_poetry.
    rewrite (bind_ok _ _ _ _ _ Hc). step_with print_run.
    unfold try_except. step_with get_run.
    cbn [environ_PATH fs emit set_stdout]. rewrite Hw.
    rewrite (bind_ok _ _ _ _ _ (eq_refl : ret tt _ = (Ok tt, _))).
    reflexivity. }
  rewrite Hstart. clear Hstart. unfold try_except.
  assert (Hrun : subprocess_run E poetry_version_cmd true false
                   (emit poetry_banner st1)
                 = (Ok (rc, out),
                    set_fs f' (set_spawned (spawned st1 ++ [poetry_version_cmd])
                                 (emit poetry_banner st1)))).
  { unfold subprocess_run. cbn [environ_PATH fs emit set_stdout].
    now rewrite Hv. }
  rewrite (bind_ok _ _ _ _ _ Hrun). cbn [fst snd].
  split.
  - intros Hrc. apply Z.eqb_neq in Hrc. rewrite Hrc. cbn [negb].
    eexists. split; [reflexivity|]. split; [reflexivity|].
    simpl. now rewrite <- app_assoc.
  - intros -> rc2 out2 f2 Hi Hrc2. cbn [Z.eqb negb]. cbv beta iota.
    rewrite (bind_ok _ _ _ _ _ (eq_refl : ret tt _ = (Ok tt, _))).
    step_with print_success_run. step_with print_run.
    erewrite bind_raise; cycle 1.
    { unfold subprocess_run. cbn [environ_PATH fs emit set_stdout set_fs set_spawned].
      rewrite Hi. apply Z.eqb_neq in Hrc2. rewrite Hrc2. reflexivity. }
    eexists. split; [reflexivity|]. split.
    + simpl. now rewrite <- app_assoc.
    + eexists. simpl. reflexivity.
Qed.

Lemma poetry_failures_exit_witness :
  (_setup_poetry Scenario.linux_commands_fail
     (Sample.state Sample.fs_configured [])).1
  = Exit 1
  /\ spawned
       (_setup_poetry Scenario.linux_commands_fail
          (Sample.state Sample.fs_configured [])).2
     = [poetry_version_cmd].
Proof.
  destruct (proj1 (poetry_failures_exit Scenario.linux_commands_fail
                     (Sample.state Sample.fs_configured [])
                     (_create_pyproject_toml Scenario.linux_commands_fail
                        (Sample.state Sample.fs_configured [])).2
                     "/usr/bin/poetry" 1%Z "" Sample.fs_configured
                     ltac:(vm_compute; reflexivity) eq_refl eq_refl))
    as (st' & -> & Hsp & _).
  - discriminate.
  - split; [reflexivity|]. simpl. rewrite Hsp. reflexivity.
Defined.
(* ===================================================================== *)
(** * Further properties: the commands a run may spawn *)
(* ===================================================================== *)

Section SpawnsOnly.

Variable E : Env.
Variable P : list string -> Prop.

Lemma spawns_none st st' :
  spawned st' = spawned st ->
  exists l, spawned st' = spawned st ++ l /\ Forall P l.
Proof. intros ->. exists []. split; [now rewrite app_nil_r | constructor]. Qed.

Lemma so_ret {A} (a : A) : spawns_only P (ret a).
Proof. intros st r st' [= <- <-]. now apply spawns_none. Qed.

Lemma so_raise {A} e : spawns_only P (@raise A e).
Proof. intros st r st' [= <- <-]. now apply spawns_none. Qed.

Lemma so_sys_exit c : spawns_only P (sys_exit c).
Proof. intros st r st' [= <- <-]. now apply spawns_none. Qed.

Lemma so_get : spawns_only P get.
Proof. intros st r st' [= <- <-]. now apply spawns_none. Qed.

Lemma so_lift {A} (x : exn + A) : spawns_only P (lift x).
Proof. destruct x; [apply so_raise | apply so_ret]. Qed.

Lemma so_modify (f : State -> State) :
  (forall st, spawned (f st) = spawned st) -> spawns_only P (modify f).
Proof. intros Hf st r st' [= <- <-]. apply spawns_none, Hf. Qed.

Lemma so_print msg : spawns_only P (print msg).
Proof. now apply so_modify. Qed.

Lemma so_input prompt : spawns_only P (input prompt).
Proof.
  intros st r st'. unfold input.
  destruct (stdin (emit prompt st)); intros [= <- <-]; now apply spawns_none.
Qed.

Lemma so_bind {A B} (m : M A) (k : A -> M B) :
  spawns_only P m -> (forall a, spawns_only P (k a)) ->
  spawns_only P (Run.bind m k).
Proof.
  intros Hm Hk st r st'. unfold Run.bind.
  destruct (m st) as [[a|c|e] s1] eqn:Hrun; intros H.
  - destruct (Hm _ _ _ Hrun) as (l1 & Hl1 & HP1).
    destruct (Hk a _ _ _ H) as (l2 & Hl2 & HP2).
    exists (l1 ++ l2). split; [now rewrite Hl2, Hl1, app_assoc|].
    now apply Forall_app.
  - injection H as <- <-. eapply Hm, Hrun.
  - injection H as <- <-. eapply Hm, Hrun.
Qed.

Lemma so_try {A} (m : M A) (h : exn -> option (M A)) :
  spawns_only P m -> (forall e k, h e = Some k -> spawns_only P k) ->
  spawns_only P (try_except m h).
Proof.
  intros Hm Hh st r st'. unfold try_except.
  destruct (m st) as [[a|c|e] s1] eqn:Hrun.
  - intros [= <- <-]. eapply Hm, Hrun.
  - intros [= <- <-]. eapply Hm, Hrun.
  - destruct (h e) as [k|] eqn:He.
    + intros H. destruct (Hm _ _ _ Hrun) as (l1 & Hl1 & HP1).
      destruct (Hh e k He _ _ _ H) as (l2 & Hl2 & HP2).
      exists (l1 ++ l2). split; [now rewrite Hl2, Hl1, app_assoc|].
      now apply Forall_app.
    + intros [= <- <-]. eapply Hm, Hrun.
Qed.

Lemma so_subprocess_run cmd capture check :
  P cmd -> spawns_only P (subprocess_run E cmd capture check).
Proof.
  intros HP st r st' H. apply subprocess_run_spawned in H as [-> _].
  exists [cmd]. split; [reflexivity | now constructor].
Qed.

Lemma so_for_each {A} (body : A -> M unit) (l : list A) :
  Forall (fun x => spawns_only P (body x)) l ->
  spawns_only P (for_each body l).
Proof.
  induction 1 as [|x l Hx _ IH]; simpl; [apply so_ret|].
  apply so_bind; [exact Hx | intros _; exact IH].
Qed.

End SpawnsOnly.

(** Break a goal [spawns_only P m] along the structure of [m]. *)
Ltac so_step :=
  first
    [ apply so_ret | apply so_raise | apply so_sys_exit | apply so_get
    | apply so_lift | apply so_print | apply so_input
    | apply so_modify; intros ?; reflexivity
    | apply so_bind; [|intros ?]
    | apply so_try; [|intros ? ? ?]
    | match goal with
      | |- spawns_only _ (if ?b then _ else _) => destruct b
      | |- spawns_only _ (match ?x with _ => _ end) => destruct x
      end ].

Ltac so_auto := repeat so_step.

Section SpawnsOfMethods.

Variable E : Env.

Lemma so_weaken (P Q : list string -> Prop) {A} (m : M A) :
  (forall c, P c -> Q c) -> spawns_only P m -> spawns_only Q m.
Proof.
  intros HPQ Hm st r st' H. destruct (Hm _ _ _ H) as (l & Hl & HP).
  exists l. split; [exact Hl|]. eapply List.Forall_impl; [exact HPQ | exact HP].
Qed.

Lemma so_detect_platform P : spawns_only P (_detect_platform E).
Proof.
  unfold _detect_platform, _detect_project_tool, path_exists, open_read,
    print_error, print_info.
  so_auto; try discriminate;
    match goal with H : Some _ = Some _ |- _ => injection H as <- end; so_auto.
Qed.

Lemma so_setup_requirements P : spawns_only P (_setup_requirements E).
Proof.
  unfold _setup_requirements, _write_if_missing, path_exists, open_write,
    print_info, print_success.
  so_auto.
Qed.

Lemma so_print_env_info P : spawns_only P (print_env_info E).
Proof. unfold print_env_info, print_header. so_auto. Qed.

Lemma so_get_git_config key :
  key = "user.name" \/ key = "user.email" ->
  spawns_only is_identity_lookup (_get_git_config E key).
Proof.
  intros Hk. unfold _get_git_config.
  apply so_try.
  - apply so_bind; [|intros ?; so_auto].
    apply so_subprocess_run. unfold is_identity_lookup, git_config_cmd.
    destruct Hk as [->| ->]; auto.
  - intros e k [= <-]. so_auto.
Qed.

(** [_create_pyproject_toml] spawns nothing but the two identity
    lookups. *)
Lemma so_create_pyproject_toml :
  spawns_only is_identity_lookup (_create_pyproject_toml E).
Proof.
  unfold _create_pyproject_toml, _convert_requirements_to_poetry,
    path_exists, open_read, open_write, mkdir_p, path_touch,
    print_info, print_success.
  repeat first
    [ apply so_get_git_config; auto | so_step ].
Qed.

Lemma so_setup_poetry : spawns_only poetry_side (_setup_poetry E).
Proof.
  unfold _setup_poetry.
  apply so_bind;
    [eapply so_weaken; [|apply so_create_pyproject_toml]; now left | intros _].
  apply so_bind; [apply so_print | intros _].
  unfold subprocess_shell, print_error, print_success.
  apply so_try.
  - repeat first
      [ apply so_subprocess_run; unfold poetry_side, poetry_installer_cmd,
          poetry_version_cmd, poetry_install_cmd; tauto
      | apply so_modify; intros ?; reflexivity
      | so_step ].
  - intros e k He. destruct e; try discriminate. injection He as <-. so_auto.
Qed.

Lemma so_setup_pip : spawns_only pip_side (_setup_pip E).
Proof.
  unfold _setup_pip.
  apply so_bind;
    [eapply so_weaken; [|apply so_create_pyproject_toml]; now left | intros _].
  apply so_bind; [apply so_print | intros _].
  apply so_try.
  - apply so_bind;
      [apply so_subprocess_run; unfold pip_side, venv_cmd; tauto | intros _].
    apply so_bind;
      [apply so_subprocess_run; unfold pip_side, pip_upgrade_cmd; tauto | intros _].
    intros st r st'. unfold Run.bind at 1, get_list_of_requirements_files.
    rewrite (bind_ok _ _ _ _ _ (get_run st)).
    destruct (Os.listdir _ _) as [e|names]; simpl.
    { intros [= <- <-]. now apply spawns_none. }
    revert st r st'.
    change (spawns_only pip_side
              (for_each (install_requirements E)
                 (List.filter is_requirements_file names) ;;
               print "🔗 Installing local package in editable mode..." ;;
               subprocess_run E [VENV +:+ "/bin/pip"; "install"; "-e"; "."]
                 false true ;;
               ret tt)%run).
    apply so_bind.
    + apply so_for_each, List.Forall_forall. intros f Hf.
      apply filter_In in Hf as [_ Hf]. unfold install_requirements.
      apply so_bind; [apply so_print | intros _].
      apply so_bind; [|intros ?; so_auto].
      apply so_subprocess_run. right. right. right. left. now exists f.
    + intros _. apply so_bind; [apply so_print | intros _].
      apply so_bind; [|intros ?; so_auto].
      apply so_subprocess_run. unfold pip_side, editable_cmd. tauto.
  - intros e k He. destruct e; try discriminate. injection He as <-.
    unfold print_error. so_auto.
Qed.

End SpawnsOfMethods.

(** Break a goal [spawns_only any_command m] along the structure of
    [m]. *)
Ltac so_any :=
  repeat first [ apply so_subprocess_run; exact I | so_step ].

(* ===================================================================== *)
(** * Further properties: the choice of the workflow during a run *)
(* ===================================================================== *)

Section KeepsChoice.

Variable E : Env.

Lemma kc_quiet {A} (m : M A) : quiet m -> keeps_choice m.
Proof. intros Hq st r st' H. now destruct (Hq _ _ _ H) as (_ & Hu & _). Qed.

Lemma kc_bind {A B} (m : M A) (k : A -> M B) :
  keeps_choice m -> (forall a, keeps_choice (k a)) ->
  keeps_choice (Run.bind m k).
Proof.
  intros Hm Hk st r st'. unfold Run.bind.
  destruct (m st) as [[a|c|e] s1] eqn:Hrun; intros H.
  - rewrite (Hk a _ _ _ H). eapply Hm, Hrun.
  - injection H as <- <-. eapply Hm, Hrun.
  - injection H as <- <-. eapply Hm, Hrun.
Qed.

Lemma kc_try {A} (m : M A) (h : exn -> option (M A)) :
  keeps_choice m -> (forall e k, h e = Some k -> keeps_choice k) ->
  keeps_choice (try_except m h).
Proof.
  intros Hm Hh st r st'. unfold try_except.
  destruct (m st) as [[a|c|e] s1] eqn:Hrun.
  - intros [= <- <-]. eapply Hm, Hrun.
  - intros [= <- <-]. eapply Hm, Hrun.
  - destruct (h e) as [k|] eqn:He.
    + intros H. rewrite (Hh e k He _ _ _ H). eapply Hm, Hrun.
    + intros [= <- <-]. eapply Hm, Hrun.
Qed.

Lemma kc_modify (f : State -> State) :
  (forall st, use_poetry (f st) = use_poetry st) -> keeps_choice (modify f).
Proof. intros Hf st r st' [= <- <-]. apply Hf. Qed.

Lemma kc_for_each {A} (body : A -> M unit) (l : list A) :
  (forall x, keeps_choice (body x)) -> keeps_choice (for_each body l).
Proof.
  intros Hb. induction l as [|x l IH]; simpl.
  - apply kc_quiet, quiet_ret.
  - apply kc_bind; [apply Hb | intros _; exact IH].
Qed.

End KeepsChoice.

(** Break a goal [keeps_choice m] along the structure of [m]. *)
Ltac kc_step :=
  first
    [ apply kc_quiet;
      first
        [ apply quiet_get_git_config | apply quiet_mkdir_p
        | apply quiet_path_touch | apply quiet_open_write
        | apply quiet_open_read | apply quiet_path_exists
        | apply quiet_convert_requirements
        | apply quiet_ret | apply quiet_raise | apply quiet_sys_exit
        | apply quiet_get | apply quiet_lift | apply quiet_print
        | apply quiet_input | apply quiet_subprocess_run ]
    | apply kc_modify; intros ?; reflexivity
    | apply kc_bind; [|intros ?]
    | apply kc_try; [|intros ? ? ?]
    | match goal with
      | |- keeps_choice (if ?b then _ else _) => destruct b
      | |- keeps_choice (match ?x with _ => _ end) => destruct x
      end ].

Ltac kc_auto := repeat kc_step.

Section ChoiceOfMethods.

Variable E : Env.

Lemma kc_setup_requirements : keeps_choice (_setup_requirements E).
Proof.
  unfold _setup_requirements, _write_if_missing, print_info, print_success.
  kc_auto.
Qed.

Lemma kc_create_pyproject_toml : keeps_choice (_create_pyproject_toml E).
Proof.
  unfold _create_pyproject_toml, print_info, print_success. kc_auto.
Qed.

Lemma kc_setup_poetry : keeps_choice (_setup_poetry E).
Proof.
  unfold _setup_poetry.
  apply kc_bind; [apply kc_create_pyproject_toml | intros _].
  unfold subprocess_shell, print_error, print_success. kc_auto.
  match goal with H : _ = Some _ |- _ => destruct e; try discriminate H;
                                          injection H as <- end.
  kc_auto.
Qed.

Lemma kc_setup_pip : keeps_choice (_setup_pip E).
Proof.
  unfold _setup_pip.
  apply kc_bind; [apply kc_create_pyproject_toml | intros _].
  unfold get_list_of_requirements_files, print_error.
  repeat first
    [ apply kc_for_each; intros ?; unfold install_requirements | kc_step ].
  match goal with H : _ = Some _ |- _ => destruct e; try discriminate H;
                                          injection H as <- end.
  kc_auto.
Qed.

Lemma kc_print_env_info : keeps_choice (print_env_info E).
Proof. unfold print_env_info, print_header. kc_auto. Qed.

End ChoiceOfMethods.

(* ===================================================================== *)
(** * Further properties: what a strategy has run when it ends normally *)
(* ===================================================================== *)

Section SpawnsOnSuccess.

Variable E : Env.

Lemma sos_subprocess_run cmd capture check :
  spawns_on_success cmd (subprocess_run E cmd capture check).
Proof.
  intros st a st' H. apply subprocess_run_spawned in H as [-> _].
  exists [cmd]. split; [reflexivity | now left].
Qed.

Lemma sos_first {A B} (m : M A) (k : A -> M B) cmd :
  spawns_on_success cmd m ->
  (forall a, spawns_only any_command (k a)) ->
  spawns_on_success cmd (Run.bind m k).
Proof.
  intros Hm Hk st b st' H.
  apply bind_inv_ok in H as (a & s1 & H1 & H2).
  destruct (Hm _ _ _ H1) as (l1 & Hl1 & Hin).
  destruct (Hk a _ _ _ H2) as (l2 & Hl2 & _).
  exists (l1 ++ l2). split; [now rewrite Hl2, Hl1, app_assoc|].
  apply in_or_app. now left.
Qed.

Lemma sos_later {A B} (m : M A) (k : A -> M B) cmd :
  spawns_only any_command m ->
  (forall a, spawns_on_success cmd (k a)) ->
  spawns_on_success cmd (Run.bind m k).
Proof.
  intros Hm Hk st b st' H.
  apply bind_inv_ok in H as (a & s1 & H1 & H2).
  destruct (Hm _ _ _ H1) as (l1 & Hl1 & _).
  destruct (Hk a _ _ _ H2) as (l2 & Hl2 & Hin).
  exists (l1 ++ l2). split; [now rewrite Hl2, Hl1, app_assoc|].
  apply in_or_app. now right.
Qed.

(** A handler that reports and exits never makes the statement end
    normally. *)
Lemma sos_try {A} (m : M A) (h : exn -> option (M A)) cmd :
  spawns_on_success cmd m ->
  (forall e k, h e = Some k -> forall st r st', k st = (r, st') ->
               exists c, r = Exit c) ->
  spawns_on_success cmd (try_except m h).
Proof.
  intros Hm Hh st a st'. unfold try_except.
  destruct (m st) as [[x|c|e] s1] eqn:Hrun.
  - intros [= <- <-]. eapply Hm, Hrun.
  - discriminate.
  - destruct (h e) as [k|] eqn:He; [|discriminate].
    intros H. destruct (Hh e k He _ _ _ H) as (c & Hc). discriminate Hc.
Qed.

Lemma report_and_exit msg st r st' :
  (print_error msg ;; sys_exit 1)%run st = (r, st') -> exists c, r = Exit c.
Proof. intros [= <- <-]. now exists 1%Z. Qed.

(** A poetry strategy that ends normally has run [poetry install]. *)
Lemma sos_setup_poetry : spawns_on_success poetry_install_cmd (_setup_poetry E).
Proof.
  unfold _setup_poetry.
  apply sos_later;
    [eapply so_weaken; [|apply so_create_pyproject_toml]; now intros | intros _].
  apply sos_later; [apply so_print | intros _].
  apply sos_try.
  - apply sos_later; [apply so_get | intros s].
    apply sos_later; [unfold subprocess_shell; so_any | intros _].
    apply sos_later; [so_any | intros result].
    apply sos_later; [unfold print_error; so_any | intros _].
    apply sos_later; [unfold print_success; so_any | intros _].
    apply sos_later; [so_any | intros _].
    apply sos_first; [apply sos_subprocess_run | intros ?; apply so_ret].
  - intros e k He. destruct e; try discriminate. injection He as <-.
    apply report_and_exit.
Qed.

(** A pip strategy that ends normally has created the virtual
    environment. *)
Lemma sos_setup_pip : spawns_on_success venv_cmd (_setup_pip E).
Proof.
  unfold _setup_pip.
  apply sos_later;
    [eapply so_weaken; [|apply so_create_pyproject_toml]; now intros | intros _].
  apply sos_later; [apply so_print | intros _].
  apply sos_try.
  - apply sos_first; [apply sos_subprocess_run | intros ?].
    unfold get_list_of_requirements_files.
    repeat first
      [ apply so_for_each, List.Forall_forall; intros ? ?;
        unfold install_requirements
      | apply so_subprocess_run; exact I
      | so_step ].
  - intros e k He. destruct e; try discriminate. injection He as <-.
    apply report_and_exit.
Qed.

Lemma not_poetry_side_venv : ~ poetry_side venv_cmd.
Proof.
  unfold poetry_side, is_identity_lookup.
  intros [[H|H]|[H|[H|H]]]; discriminate H.
Qed.

Lemma not_pip_side_poetry (cmd : list string) :
  cmd = poetry_installer_cmd \/ cmd = poetry_version_cmd
  \/ cmd = poetry_install_cmd ->
  ~ pip_side cmd.
Proof.
  unfold pip_side, is_identity_lookup.
  intros [->|[->| ->]] [[H|H]|[H|[H|[(f & _ & H)|H]]]]; discriminate H.
Qed.

(** The run of [setup], stage by stage: what the first two stages
    leave, the strategy selected by the choice they leave, and the
    report. *)
Lemma setup_stages st r st' :
  setup E st = (r, st') ->
  (exists r1, _detect_platform E st = (r1, st')
              /\ spawned st' = spawned st /\ (forall os, r1 <> Ok os)
              /\ r <> Ok tt)
  \/ exists os s1,
       _detect_platform E st = (Ok os, s1)
       /\ spawned s1 = spawned st
       /\ ((exists r2, _setup_requirements E s1 = (r2, st')
                       /\ spawned st' = spawned s1 /\ r2 <> Ok tt
                       /\ r <> Ok tt)
           \/ exists s2 r3 s3,
                _setup_requirements E s1 = (Ok tt, s2)
                /\ spawned s2 = spawned s1
                /\ use_poetry s2 = use_poetry s1
                /\ (if use_poetry s1 then _setup_poetry E else _setup_pip E) s2
                   = (r3, s3)
                /\ use_poetry s3 = use_poetry s1
                /\ spawned st' = spawned s3
                /\ (r3 <> Ok tt -> st' = s3 /\ r <> Ok tt)
                /\ (r3 = Ok tt ->
                    r = Ok tt
                    /\ exists pre,
                         stdout st'
                         = pre ++ complete_line
                                  :: (if use_poetry s1 then []
                                      else [activate_line]))).
Proof.
  unfold setup. unfold Run.bind at 1.
  destruct (_detect_platform E st) as [r1 s1] eqn:H1.
  destruct (so_detect_platform E no_command _ _ _ H1) as (l1 & Hl1 & HP1).
  assert (l1 = []) as -> by (destruct HP1 as [|? ? []]; reflexivity).
  rewrite app_nil_r in Hl1.
  destruct r1 as [os|c|e];
    [| intros [= <- <-]; left; eexists; repeat split;
       [exact Hl1 | discriminate | discriminate] ..].
  intros H. right. exists os, s1. split; [reflexivity|]. split; [exact Hl1|].
  unfold Run.bind at 1 in H.
  destruct (_setup_requirements E s1) as [r2 s2] eqn:H2.
  destruct (so_setup_requirements E no_command _ _ _ H2) as (l2 & Hl2 & HP2).
  assert (l2 = []) as -> by (destruct HP2 as [|? ? []]; reflexivity).
  rewrite app_nil_r in Hl2.
  destruct r2 as [[]|c|e];
    [| injection H as <- <-; left; eexists; repeat split;
       [exact Hl2 | discriminate | discriminate] ..].
  right. pose proof (kc_setup_requirements E _ _ _ H2) as Hu2.
  rewrite (bind_ok _ _ _ _ _ (get_run s2)) in H. rewrite Hu2 in H.
  unfold Run.bind at 1 in H.
  destruct ((if use_poetry s1 then _setup_poetry E else _setup_pip E) s2)
    as [r3 s3] eqn:H3.
  assert (Hu3 : use_poetry s3 = use_poetry s1).
  { rewrite <- Hu2. destruct (use_poetry s1).
    - apply (kc_setup_poetry E _ _ _ H3).
    - apply (kc_setup_pip E _ _ _ H3). }
  exists s2, r3, s3. split; [reflexivity|]. split; [exact Hl2|].
  split; [exact Hu2|]. split; [exact H3|]. split; [exact Hu3|].
  destruct r3 as [[]|c|e];
    [| injection H as <- <-; repeat split; congruence || discriminate ..].
  unfold Run.bind at 1 in H.
  destruct (print_env_info E s3) as [r4 s4] eqn:H4.
  pose proof (kc_print_env_info E _ _ _ H4) as Hu4.
  destruct (so_print_env_info E no_command _ _ _ H4) as (l4 & Hl4 & HP4).
  assert (l4 = []) as -> by (destruct HP4 as [|? ? []]; reflexivity).
  rewrite app_nil_r in Hl4.
  assert (Hr4 : r4 = Ok tt).
  { unfold print_env_info, print_header in H4.
    repeat (rewrite (bind_ok _ _ _ _ _ (print_run _ _)) in H4).
    destruct (is_virtual_environment E); now injection H4 as <-. }
  subst r4.
  rewrite (bind_ok _ _ _ _ _ (print_run _ s4)) in H.
  rewrite (bind_ok _ _ _ _ _ (get_run _)) in H.
  cbn [use_poetry emit set_stdout] in H. rewrite Hu4, Hu3 in H.
  destruct (use_poetry s1); cbn [negb] in H; injection H as <- <-;
    (split; [exact Hl4|]); (split; [intros Hne; now contradiction Hne|]);
    intros _;
    (split; [reflexivity|]); exists (stdout s4); simpl.
  - reflexivity.
  - now rewrite <- app_assoc.
Qed.

End SpawnsOnSuccess.

(** X15. A run of [setup] that ends normally has run one strategy to
    its end and closes its output accordingly.  Either the choice was
    pip: the virtual environment was created, every command spawned
    belongs to the pip strategy, and the output ends with the line
    [Setup complete!] followed by the hint to activate the virtual
    environment.  Or the choice was poetry: [poetry install] was run,
    every command spawned belongs to the poetry strategy, and the output
    ends with the line [Setup complete!], without the hint. *)
Theorem setup_closing_lines (E : Env) (st st' : State) :
  setup E st = (Ok tt, st') ->
  exists pre l,
    spawned st' = spawned st ++ l
    /\ ((use_poetry st' = false
         /\ In venv_cmd l /\ Forall pip_side l
         /\ stdout st' = pre ++ [complete_line; activate_line])
        \/ (use_poetry st' = true
            /\ In poetry_install_cmd l /\ Forall poetry_side l
            /\ stdout st' = pre ++ [complete_line])).
Proof.
  intros H.
  assert (Hu : use_poetry st'
               = match _detect_platform E st with
                 | (_, s1) => use_poetry s1
                 end).
  { unfold setup in H.
    apply bind_inv_ok in H as (os & s1 & H1 & H). rewrite H1.
    match type of H with
    | ?k s1 = _ => assert (Hk : keeps_choice k); [|exact (Hk _ _ _ H)]
    end.
    apply kc_bind; [apply kc_setup_requirements | intros _].
    apply kc_bind; [apply kc_quiet, quiet_get | intros s].
    apply kc_bind;
      [destruct (use_poetry s); [apply kc_setup_poetry | apply kc_setup_pip]
      | intros _].
    apply kc_bind; [apply kc_print_env_info | intros _]. kc_auto. }
  destruct (setup_stages E _ _ _ H)
    as [(r1 & _ & _ & _ & Hr)
       |(os & s1 & H1 & Hl1
         & [(r2 & _ & _ & _ & Hr)
           |(s2 & r3 & s3 & H2 & Hl2 & Hu2 & H3 & Hu3 & Hl3 & Hne & Hok)])];
    [congruence | congruence |].
  rewrite H1 in Hu.
  destruct r3 as [[]|c|e];
    [| destruct Hne as [_ Hr]; [discriminate | congruence] ..].
  destruct (Hok eq_refl) as (_ & pre & Hout). exists pre.
  destruct (use_poetry s1) eqn:Hc.
  - destruct (so_setup_poetry E _ _ _ H3) as (l & Hl & HP).
    destruct (sos_setup_poetry E _ _ _ H3) as (l' & Hl' & Hin).
    assert (l' = l) as -> by (rewrite Hl in Hl'; now apply List.app_inv_head in Hl').
    exists l. split; [now rewrite Hl3, Hl, Hl2, Hl1|]. right. now repeat split.
  - destruct (so_setup_pip E _ _ _ H3) as (l & Hl & HP).
    destruct (sos_setup_pip E _ _ _ H3) as (l' & Hl' & Hin).
    assert (l' = l) as -> by (rewrite Hl in Hl'; now apply List.app_inv_head in Hl').
    exists l. split; [now rewrite Hl3, Hl, Hl2, Hl1|]. left. now repeat split.
Qed.

Lemma setup_closing_lines_witness :
  (setup Sample.linux (Sample.state Sample.fs_configured [])).1 = Ok tt
  /\ In poetry_install_cmd
       (spawned (setup Sample.linux (Sample.state Sample.fs_configured [])).2)
  /\ exists pre,
       stdout (setup Sample.linux (Sample.state Sample.fs_configured [])).2
       = pre ++ [complete_line].
Proof.
  split; [vm_compute; reflexivity|].
  destruct (setup_closing_lines Sample.linux
              (Sample.state Sample.fs_configured [])
              (setup Sample.linux (Sample.state Sample.fs_configured [])).2)
    as (pre & l & Hl & [(Hu & _)|(_ & Hin & _ & Hout)]).
  - vm_compute. reflexivity.
  - vm_compute in Hu. discriminate Hu.
  - split; [|now exists pre].
    rewrite Hl. apply in_or_app. now right.
Defined.

(** X16. A run of [setup], however it ends, spawns the commands of the
    strategy that the choice of [_detect_platform] selects, and no
    other: after the choice of poetry, only the two identity lookups of
    git, the poetry installer, [poetry --version] and [poetry install];
    after the choice of pip, only the two identity lookups,
    [python3 -m venv], the upgrade of pip, [pip install -r] for files
    that match [requirements*.txt], and the editable installation, so
    neither the poetry installer nor [poetry install].  A run that ends
    in [_detect_platform] spawns nothing. *)
Theorem setup_runs_one_strategy (E : Env) (st st' : State) (r : outcome unit) :
  setup E st = (r, st') ->
  exists l,
    spawned st' = spawned st ++ l
    /\ match _detect_platform E st with
       | (Ok _, s1) =>
           if use_poetry s1 then Forall poetry_side l
           else Forall pip_side l
                /\ ~ In poetry_installer_cmd l /\ ~ In poetry_install_cmd l
       | _ => l = []
       end.
Proof.
  intros H.
  destruct (setup_stages E _ _ _ H)
    as [(r1 & H1 & Hl1 & Hr1 & _)
       |(os & s1 & H1 & Hl1
         & [(r2 & _ & Hl2 & _)
           |(s2 & r3 & s3 & H2 & Hl2 & Hu2 & H3 & Hu3 & Hl3 & _)])];
    rewrite H1.
  - exists []. rewrite app_nil_r. split; [exact Hl1|].
    destruct r1 as [os|c|e]; [now contradiction (Hr1 os) | reflexivity ..].
  - exists []. rewrite app_nil_r. split; [congruence|].
    destruct (use_poetry s1); [constructor|].
    split; [constructor | split; intros []].
  - destruct (use_poetry s1).
    + destruct (so_setup_poetry E _ _ _ H3) as (l & Hl & HP).
      exists l. split; [now rewrite Hl3, Hl, Hl2, Hl1 | exact HP].
    + destruct (so_setup_pip E _ _ _ H3) as (l & Hl & HP).
      exists l. split; [now rewrite Hl3, Hl, Hl2, Hl1|].
      split; [exact HP|]. rewrite List.Forall_forall in HP.
      split; intros Hin; apply HP in Hin; revert Hin;
        apply not_pip_side_poetry; auto.
Qed.

Lemma setup_runs_one_strategy_witness :
  use_poetry
    (_detect_platform Sample.linux (Sample.state Sample.fs_configured [])).2
  = true
  /\ Forall poetry_side
       (spawned (setup Sample.linux (Sample.state Sample.fs_configured [])).2)
  /\ In poetry_install_cmd
       (spawned (setup Sample.linux (Sample.state Sample.fs_configured [])).2).
Proof.
  split; [vm_compute; reflexivity|].
  destruct (setup_runs_one_strategy Sample.linux
              (Sample.state Sample.fs_configured [])
              (setup Sample.linux (Sample.state Sample.fs_configured [])).2
              (setup Sample.linux (Sample.state Sample.fs_configured [])).1)
    as (l & Hl & Hside).
  - apply surjective_pairing.
  - simpl in Hl. rewrite Hl.
    split; [exact Hside|]. rewrite <- Hl. vm_compute. auto.
Defined.

(* ===================================================================== *)
(** * Further properties: the manifest once generated *)
(* ===================================================================== *)

Section Generated.

Variable E : Env.

(** [makedirs] removes nothing. *)
Lemma makedirs_keeps (f f' : gmap path node) (pre rest : list string) k :
  Os.makedirs f pre rest = inr f' ->
  Os.exists_ f k = true -> Os.exists_ f' k = true.
Proof.
  revert f pre. induction rest as [|c rest IH]; intros f pre; simpl.
  - now intros [= <-].
  - destruct (Os.stat f (normalize (pre ++ [c]))) as [[?|]|]; intros H Hk.
    + discriminate.
    + eapply IH; eassumption.
    + eapply IH; [exact H|]. unfold Os.exists_, Os.stat in *.
      destruct k as [|x k]; [reflexivity|].
      rewrite lookup_insert.
      now destruct (decide (normalize (pre ++ [c]) = x :: k)).
Qed.

(** What a successful [_create_pyproject_toml] leaves behind when there
    was no manifest: the manifest of the branch selected by
    [_use_poetry], the package directory with its [__init__.py], and in
    the pip branch the [tests] directory. *)
Lemma create_pyproject_toml_written st st' :
  Os.exists_ (fs st) (resolve (cwd E) "pyproject.toml") = false ->
  _create_pyproject_toml E st = (Ok tt, st') ->
  use_poetry st' = use_poetry st
  /\ Os.exists_ (fs st')
       (resolve (cwd E) (("src/" +:+ package_name st') +:+ "/" +:+ "__init__.py"))
     = true
  /\ (use_poetry st = false ->
      Os.stat (fs st') (resolve (cwd E) "tests") = Some Dir)
  /\ exists version description author_name author_email x,
       Os.stat (fs st') (resolve (cwd E) "pyproject.toml")
       = Some (File (_strip_content
                       (if use_poetry st
                        then poetry_template (package_name st') version
                               description author_name author_email x
                        else project_template (package_name st') version
                               description author_name author_email x))).
Proof.
  intros Hex H. unfold _create_pyproject_toml in H.
  step_in H path_exists_run. rewrite Hex in H.
  step_in H print_info_run. step_in H modify_run. step_in H get_run.
  apply bind_inv_ok in H as (i & s1 & H1 & H).
  apply bind_inv_ok in H as ([] & s2 & H2 & H).
  apply bind_inv_ok in H as (v & s3 & H3 & H).
  apply bind_inv_ok in H as (d & s4 & H4 & H).
  apply bind_inv_ok in H as (g1 & s5 & H5 & H).
  apply bind_inv_ok in H as (g2 & s6 & H6 & H).
  apply bind_inv_ok in H as (a1 & s7 & H7 & H).
  apply bind_inv_ok in H as (a2 & s8 & H8 & H).
  rewrite (bind_ok _ _ _ _ _ (get_run s8)) in H.
  assert (Hu : use_poetry s8 = use_poetry st).
  { apply quiet_input in H1 as (_ & Hu1 & _).
    assert (Hu2 : use_poetry s2 = use_poetry s1)
      by (destruct (Py.truthy i); now injection H2 as <-).
    apply quiet_input in H3 as (_ & Hu3 & _).
    apply quiet_input in H4 as (_ & Hu4 & _).
    apply quiet_get_git_config in H5 as (_ & Hu5 & _).
    apply quiet_get_git_config in H6 as (_ & Hu6 & _).
    apply quiet_input in H7 as (_ & Hu7 & _).
    apply quiet_input in H8 as (_ & Hu8 & _).
    rewrite Hu8, Hu7, Hu6, Hu5, Hu4, Hu3, Hu2, Hu1. reflexivity. }
  apply bind_inv_ok in H as ([] & s9 & H9 & H).
  apply bind_inv_ok in H as ([] & s10 & H10 & H).
  apply bind_inv_ok in H as (content & s11 & H11 & H).
  apply bind_inv_ok in H as ([] & s12 & H12 & H).
  injection H as <-.
  apply mkdir_p_inv in H9 as (f9 & Hmk & ->).
  apply path_touch_inv in H10 as (f10 & Hto & ->).
  apply open_write_inv in H12 as (f12 & Hwr & ->).
  cbn [fs use_poetry package_name emit set_stdout set_fs] in *.
  assert (Hinit10 : Os.exists_ f10
                      (resolve (cwd E)
                         (("src/" +:+ package_name s8) +:+ "/" +:+ "__init__.py"))
                    = true).
  { unfold Os.touch in Hto. unfold Os.exists_.
    destruct (Os.stat f9 _) eqn:Hs.
    - injection Hto as <-. now rewrite Hs.
    - now rewrite (write_stat _ _ _ _ Hto). }
  rewrite <- Hu.
  destruct (use_poetry s8) eqn:Hu8.
  - apply bind_inv_ok in H11 as (deps & s' & Hc & Hr).
    apply convert_requirements_inv in Hc as ->. injection Hr as <- <-.
    cbn [fs use_poetry package_name emit set_stdout set_fs] in *.
    split; [exact Hu8|]. split; [eapply write_keeps; eassumption|].
    split; [discriminate|].
    do 5 eexists. eapply write_stat. exact Hwr.
  - apply bind_inv_ok in H11 as (b & s' & Hb & Hr).
    apply bind_inv_ok in Hr as ([] & s'' & Hm & Hr).
    injection Hr as <- <-.
    apply mkdir_p_inv in Hm as (f11 & Hmk11 & ->).
    pose proof (quiet_input _ _ _ _ Hb) as (Hnb & Hub & _).
    apply input_inv in Hb.
    cbn [fs use_poetry package_name emit set_stdout set_fs] in *.
    rewrite Hb in Hmk11. rewrite Hnb.
    split; [now rewrite Hub|]. split.
    { eapply write_keeps; [exact Hwr|].
      eapply makedirs_keeps; eassumption. }
    split.
    { intros _. eapply write_keeps_dir; [exact Hwr|].
      apply (makedirs_creates _ _ [] _ Hmk11).
      unfold lexical. simpl. now destruct (Py.path_parts (cwd E)). }
    do 5 eexists. eapply write_stat. exact Hwr.
Qed.

End Generated.

Section FirstLine.

Import Py.

(** The first line of a stripped template that opens with a blank line
    and a section header. *)
Lemma stripped_lines_header (header tail : string) :
  stripped_lines (nl +:+ tpl 16 header +:+ tail)
  = stripped_lines (repeat " " 16 +:+ header) ++ stripped_lines tail.
Proof.
  rewrite tpl_app.
  change (nl +:+ ?x) with ("" +:+ nl +:+ x).
  now rewrite !stripped_lines_app.
Qed.

Lemma stripped_lines_poetry_template
  (package_name version description author_name author_email deps : string) :
  exists rest,
    stripped_lines
      (poetry_template package_name version description author_name
         author_email deps)
    = "[tool.poetry]" :: rest.
Proof.
  unfold poetry_template. rewrite stripped_lines_header. now eexists.
Qed.

Lemma stripped_lines_project_template
  (package_name version description author_name author_email build : string) :
  exists rest,
    stripped_lines
      (project_template package_name version description author_name
         author_email build)
    = "[project]" :: rest.
Proof.
  unfold project_template. rewrite stripped_lines_header. now eexists.
Qed.

Lemma join_cons (h : string) (rest : list string) :
  exists t, join nl (h :: rest) = h +:+ t.
Proof.
  destruct rest as [|x rest].
  - exists "". simpl. now rewrite app_empty_r.
  - now exists (nl +:+ join nl (x :: rest)).
Qed.

End FirstLine.

(** X17. A manifest generated by the poetry branch is recognised on the
    next run: after [_create_pyproject_toml] has ended normally with
    [_use_poetry] set, in a directory that had no manifest,
    [_detect_project_tool] answers ["poetry"], whatever was typed at the
    prompts. *)
Theorem generated_poetry_manifest_is_detected (E : Env) (st st' : State) :
  Os.exists_ (fs st) (resolve (cwd E) "pyproject.toml") = false ->
  use_poetry st = true ->
  _create_pyproject_toml E st = (Ok tt, st') ->
  _detect_project_tool E st' = (Ok (Some "poetry"), st').
Proof.
  intros Hex Hu H.
  destruct (create_pyproject_toml_written E st st' Hex H)
    as (_ & _ & _ & v & d & an & ae & x & Hm).
  rewrite Hu in Hm. rewrite detect_project_tool_run. f_equal. f_equal.
  unfold detected_tool, Os.read. rewrite Hm.
  rewrite strip_content_lines.
  destruct (stripped_lines_poetry_template (package_name st') v d an ae x)
    as (rest & ->).
  destruct (join_cons "[tool.poetry]" rest) as (t & ->).
  unfold tool_of.
  assert (Hc : Py.contains "[tool.poetry]"
                 (Py.translate_newlines ("[tool.poetry]" +:+ t)) = true).
  { apply contains_spec. exists "", (Py.translate_newlines t). reflexivity. }
  now rewrite Hc.
Qed.

Lemma generated_poetry_manifest_is_detected_witness :
  (_create_pyproject_toml Sample.linux
     (set_use_poetry true
        (Sample.state Sample.fs_requirements [""; ""; ""; ""; ""]))).1
  = Ok tt
  /\ (_detect_project_tool Sample.linux
        (_create_pyproject_toml Sample.linux
           (set_use_poetry true
              (Sample.state Sample.fs_requirements [""; ""; ""; ""; ""]))).2).1
     = Ok (Some "poetry").
Proof.
  split; [vm_compute; reflexivity|].
  rewrite (generated_poetry_manifest_is_detected Sample.linux
             (set_use_poetry true
                (Sample.state Sample.fs_requirements [""; ""; ""; ""; ""]))
             (_create_pyproject_toml Sample.linux
                (set_use_poetry true
                   (Sample.state Sample.fs_requirements [""; ""; ""; ""; ""]))).2).
  - reflexivity.
  - vm_compute. reflexivity.
  - reflexivity.
  - vm_compute. reflexivity.
Defined.

(** X18. When [_create_pyproject_toml] ends normally in a directory that
    had no manifest, it leaves [src/<name>/__init__.py] for the stored
    package name and a manifest whose first line is [[tool.poetry]] in
    the poetry branch and [[project]] in the other; the other branch
    also leaves the directory [tests].  The choice of the branch is not
    changed by the call. *)
Theorem generated_project_layout (E : Env) (st st' : State) :
  Os.exists_ (fs st) (resolve (cwd E) "pyproject.toml") = false ->
  _create_pyproject_toml E st = (Ok tt, st') ->
  use_poetry st' = use_poetry st
  /\ Os.exists_ (fs st')
       (resolve (cwd E) (("src/" +:+ package_name st') +:+ "/" +:+ "__init__.py"))
     = true
  /\ (use_poetry st = false ->
      Os.stat (fs st') (resolve (cwd E) "tests") = Some Dir)
  /\ exists more,
       Os.stat (fs st') (resolve (cwd E) "pyproject.toml")
       = Some (File (Py.join Py.nl
                       ((if use_poetry st then "[tool.poetry]" else "[project]")
                        :: more))).
Proof.
  intros Hex H.
  destruct (create_pyproject_toml_written E st st' Hex H)
    as (Hu & Hinit & Htests & v & d & an & ae & x & Hm).
  split; [exact Hu|]. split; [exact Hinit|]. split; [exact Htests|].
  rewrite Hm, strip_content_lines. destruct (use_poetry st).
  - destruct (stripped_lines_poetry_template (package_name st') v d an ae x)
      as (rest & ->). now exists rest.
  - destruct (stripped_lines_project_template (package_name st') v d an ae x)
      as (rest & ->). now exists rest.
Qed.

Lemma generated_project_layout_witness :
  (_create_pyproject_toml Sample.linux
     (Sample.state Sample.fs_requirements [""; ""; ""; ""; ""; ""])).1
  = Ok tt
  /\ Os.stat
       (fs (_create_pyproject_toml Sample.linux
              (Sample.state Sample.fs_requirements [""; ""; ""; ""; ""; ""])).2)
       (Sample.project_path ++ ["tests"])
     = Some Dir
  /\ Os.exists_
       (fs (_create_pyproject_toml Sample.linux
              (Sample.state Sample.fs_requirements [""; ""; ""; ""; ""; ""])).2)
       (Sample.project_path ++ ["src"; "my_project"; "__init__.py"])
     = true.
Proof.
  split; [vm_compute; reflexivity|].
  destruct (generated_project_layout Sample.linux
              (Sample.state Sample.fs_requirements [""; ""; ""; ""; ""; ""])
              (_create_pyproject_toml Sample.linux
                 (Sample.state Sample.fs_requirements [""; ""; ""; ""; ""; ""])).2)
    as (_ & Hinit & Htests & _).
  - vm_compute. reflexivity.
  - vm_compute. reflexivity.
  - split; [exact (Htests eq_refl)|].
    replace (Sample.project_path ++ ["src"; "my_project"; "__init__.py"])
      with (resolve (cwd Sample.linux)
              (("src/" +:+ package_name
                             (_create_pyproject_toml Sample.linux
                                (Sample.state Sample.fs_requirements
                                   [""; ""; ""; ""; ""; ""])).2)
               +:+ "/" +:+ "__init__.py"))
      by (vm_compute; reflexivity).
    exact Hinit.
Defined.
(* ===================================================================== *)
(** * The dependencies in the manifest that is written *)
(* ===================================================================== *)

Section WrittenDependencies.

Variable E : Env.

(** What [_convert_requirements_to_poetry] returns: the requirement
    lines of the base-requirements file, joined. *)
Lemma convert_requirements_ok st deps st' :
  _convert_requirements_to_poetry E st = (Ok deps, st') ->
  st' = st /\ deps = Py.join Py.nl (base_requirement_lines E (fs st)).
Proof.
  unfold _convert_requirements_to_poetry, base_requirement_lines.
  step_with path_exists_run.
  intros H. apply bind_inv_ok in H as (l & s1 & Hl & H).
  injection H as <- <-.
  destruct (Os.exists_ _ _) eqn:Hex.
  - unfold open_read in Hl.
    apply bind_inv_ok in Hl as (t & s2 & Hl & H).
    injection H as <- <-.
    rewrite (bind_ok _ _ _ _ _ (get_run st)) in Hl.
    apply lift_inv in Hl as [Hr ->]. rewrite Hr.
    split; [reflexivity|]. now rewrite collect_deps_requirement_lines.
  - injection Hl as <- <-. split; [reflexivity|].
    unfold Os.exists_ in Hex. unfold Os.read.
    now destruct (stat _ _).
Qed.

Lemma resolve_manifest (cwd : string) :
  resolve cwd "pyproject.toml" = resolve cwd "." ++ ["pyproject.toml"].
Proof.
  rewrite resolve_dot. unfold resolve, lexical. simpl. now apply normalize_snoc.
Qed.

Lemma manifest_is_not_base :
  resolve (cwd E) "pyproject.toml" <> resolve (cwd E) "requirements.txt".
Proof.
  rewrite resolve_manifest.
  change "requirements.txt" with base_requirements.
  rewrite resolve_base_requirements.
  intros H. apply List.app_inv_head in H.
  apply (f_equal (map String.length)) in H. discriminate H.
Qed.

(** The text that the poetry branch of [_create_pyproject_toml] writes:
    the template filled with the stored name, the values of the four
    other prompts, and the indented requirement lines of the
    base-requirements file. *)
Lemma create_pyproject_toml_poetry st st' :
  Os.exists_ (fs st) (resolve (cwd E) "pyproject.toml") = false ->
  use_poetry st = true ->
  _create_pyproject_toml E st = (Ok tt, st') ->
  exists version description author_name author_email,
    Os.stat (fs st') (resolve (cwd E) "pyproject.toml")
    = Some (File (_strip_content
                    (poetry_template (package_name st') version description
                       author_name author_email
                       (_indent_dependencies
                          (Py.join Py.nl
                             (base_requirement_lines E (fs st'))))))).
Proof.
  intros Hex Hp H. unfold _create_pyproject_toml in H.
  step_in H path_exists_run. rewrite Hex in H.
  step_in H print_info_run. step_in H modify_run. step_in H get_run.
  apply bind_inv_ok in H as (i & s1 & H1 & H).
  apply bind_inv_ok in H as ([] & s2 & H2 & H).
  apply bind_inv_ok in H as (v & s3 & H3 & H).
  apply bind_inv_ok in H as (d & s4 & H4 & H).
  apply bind_inv_ok in H as (g1 & s5 & H5 & H).
  apply bind_inv_ok in H as (g2 & s6 & H6 & H).
  apply bind_inv_ok in H as (a1 & s7 & H7 & H).
  apply bind_inv_ok in H as (a2 & s8 & H8 & H).
  rewrite (bind_ok _ _ _ _ _ (get_run s8)) in H.
  assert (Hu : use_poetry s8 = true).
  { apply quiet_input in H1 as (_ & Hu1 & _).
    assert (Hu2 : use_poetry s2 = use_poetry s1)
      by (destruct (Py.truthy i); now injection H2 as <-).
    apply quiet_input in H3 as (_ & Hu3 & _).
    apply quiet_input in H4 as (_ & Hu4 & _).
    apply quiet_get_git_config in H5 as (_ & Hu5 & _).
    apply quiet_get_git_config in H6 as (_ & Hu6 & _).
    apply quiet_input in H7 as (_ & Hu7 & _).
    apply quiet_input in H8 as (_ & Hu8 & _).
    rewrite Hu8, Hu7, Hu6, Hu5, Hu4, Hu3, Hu2, Hu1. exact Hp. }
  apply bind_inv_ok in H as ([] & s9 & H9 & H).
  apply bind_inv_ok in H as ([] & s10 & H10 & H).
  apply bind_inv_ok in H as (content & s11 & H11 & H).
  apply bind_inv_ok in H as ([] & s12 & H12 & H).
  injection H as <-.
  apply mkdir_p_inv in H9 as (f9 & Hmk & ->).
  apply path_touch_inv in H10 as (f10 & Hto & ->).
  apply open_write_inv in H12 as (f12 & Hwr & ->).
  cbn [fs use_poetry package_name emit set_stdout set_fs] in *.
  rewrite Hu in H11.
  apply bind_inv_ok in H11 as (deps & s' & Hc & Hr).
  apply convert_requirements_ok in Hc as [-> ->]. injection Hr as <- <-.
  cbn [fs use_poetry package_name emit set_stdout set_fs] in *.
  assert (Hsame : base_requirement_lines E f12 = base_requirement_lines E f10).
  { unfold base_requirement_lines, Os.read.
    now rewrite (write_other _ _ _ _ _ Hwr manifest_is_not_base). }
  rewrite Hsame. do 4 eexists. eapply write_stat. exact Hwr.
Qed.

End WrittenDependencies.

Section WrittenLines.

Import Py.

Lemma poetry_template_head_top
  (package_name version description author_name author_email : string) :
  stripped_lines
    (poetry_template_head package_name version description author_name
       author_email)
  = stripped_lines
      (poetry_template_top package_name version description author_name
         author_email)
    ++ poetry_dependencies_head.
Proof.
  assert (H : poetry_template_head package_name version description
                author_name author_email
              = poetry_template_top package_name version description
                  author_name author_email
                +:+ nl
                +:+ (nl +:+ tpl 16 "[tool.poetry.dependencies]"
                     +:+ repeat " " 16
                     +:+ ("python = " +:+ dq +:+ "^3.8" +:+ dq))).
  { unfold poetry_template_head, poetry_template_top, tpl.
    rewrite !app_assoc_s. reflexivity. }
  rewrite H, stripped_lines_app. reflexivity.
Qed.

(** The manifest of the poetry branch, line by line, around the
    requirement lines. *)
Lemma poetry_manifest_lines
  (package_name version description author_name author_email text : string)
  (deps : list string) :
  deps = requirement_lines text ->
  Forall (fun d => single_line d = true) deps ->
  _strip_content
    (poetry_template package_name version description author_name author_email
       (_indent_dependencies (join nl deps)))
  = join nl
      (stripped_lines
         (poetry_template_top package_name version description author_name
            author_email)
       ++ poetry_dependencies_head
       ++ map (replace TAB "") deps
       ++ poetry_manifest_tail).
Proof.
  intros -> Hs. rewrite strip_content_lines, poetry_template_parts.
  rewrite !stripped_lines_app, (stripped_lines_block text Hs).
  now rewrite poetry_template_head_top, <- app_assoc.
Qed.

End WrittenLines.

(** C4, as the code has it.  When the poetry branch of
    [_create_pyproject_toml] writes the manifest, the lines between
    [python = "^3.8"] and the header [[tool.poetry.dev-dependencies]]
    are the requirement lines of the base-requirements file (its
    stripped lines that are neither empty nor start with [#]), each
    once, in the order of the file, and nothing else; they stand flush
    left, the line-wise stripping of [_strip_content] having removed the
    four blanks of [_indent_dependencies], and without their tabs.  This
    holds when no requirement line contains a line boundary of
    [str.splitlines].  The base-requirements file is the one the call
    leaves behind: the call reads it and never writes it. *)
Theorem dependency_block_entries (E : Env) (st st' : State) :
  Os.exists_ (fs st) (resolve (cwd E) "pyproject.toml") = false ->
  use_poetry st = true ->
  _create_pyproject_toml E st = (Ok tt, st') ->
  Forall (fun d => single_line d = true) (base_requirement_lines E (fs st')) ->
  exists version description author_name author_email,
    Os.stat (fs st') (resolve (cwd E) "pyproject.toml")
    = Some (File (Py.join Py.nl
                    (stripped_lines
                       (poetry_template_top (package_name st') version
                          description author_name author_email)
                     ++ poetry_dependencies_head
                     ++ map (Py.replace Py.TAB "")
                          (base_requirement_lines E (fs st'))
                     ++ poetry_manifest_tail))).
Proof.
  intros Hex Hp H Hs.
  destruct (create_pyproject_toml_poetry E st st' Hex Hp H)
    as (v & d & an & ae & Hm).
  exists v, d, an, ae. rewrite Hm. f_equal. f_equal.
  unfold base_requirement_lines in *.
  destruct (Os.read (fs st') _) as [e|text].
  - now apply (poetry_manifest_lines _ _ _ _ _ "").
  - now apply (poetry_manifest_lines _ _ _ _ _ text).
Qed.

Lemma dependency_block_entries_witness :
  base_requirement_lines Sample.linux_no_git Sample.fs_requirements
  = ["requests>=2"; "flask"]
  /\ exists version description author_name author_email,
       Os.stat
         (fs (_create_pyproject_toml Sample.linux_no_git
                (set_use_poetry true
                   (Sample.state Sample.fs_requirements
                      ["My Pkg-X"; ""; "a demo"; ""; ""]))).2)
         (Sample.project_path ++ ["pyproject.toml"])
       = Some (File (Py.join Py.nl
                       (stripped_lines
                          (poetry_template_top "my_pkg_x" version description
                             author_name author_email)
                        ++ poetry_dependencies_head
                        ++ ["requests>=2"; "flask"]
                        ++ poetry_manifest_tail))).
Proof.
  split; [vm_compute; reflexivity|].
  pose (st := set_use_poetry true
                (Sample.state Sample.fs_requirements
                   ["My Pkg-X"; ""; "a demo"; ""; ""])).
  destruct (dependency_block_entries Sample.linux_no_git st
              (_create_pyproject_toml Sample.linux_no_git st).2)
    as (v & d & an & ae & Hm).
  - vm_compute. reflexivity.
  - reflexivity.
  - vm_compute. reflexivity.
  - vm_compute. repeat constructor.
  - exists v, d, an, ae. fold st.
    replace (Sample.project_path ++ ["pyproject.toml"])
      with (resolve (cwd Sample.linux_no_git) "pyproject.toml")
      by (vm_compute; reflexivity).
    rewrite Hm. reflexivity.
Defined.

(** C4, as it is stated, fails in three ways.  On the file of the
    example the two entries are written flush left: no line of the
    manifest starts with a blank.  A requirement line that carries a
    form feed is written as two entries, and one that carries a tab is
    written without it. *)
Lemma dependency_entries_as_written :
  (Os.stat
     (fs (_create_pyproject_toml Sample.linux_no_git
            (set_use_poetry true
               (Sample.state Sample.fs_requirements
                  ["My Pkg-X"; ""; "a demo"; ""; ""]))).2)
     (Sample.project_path ++ ["pyproject.toml"])
   = Some (File (Py.join Py.nl Sample.example_manifest))
   /\ forallb (fun l => negb (Py.startswith " " l)) Sample.example_manifest
      = true)
  /\ (requirement_lines Sample.form_feed_requirements
      = ["a" +:+ String "012" "b"]
      /\ option_map (Sample.lines_from 6 4)
           (Os.stat
              (fs (_create_pyproject_toml Sample.linux_no_git
                     (set_use_poetry true
                        (Sample.state Sample.fs_form_feed
                           ["demo"; ""; ""; ""; ""]))).2)
              (Sample.project_path ++ ["pyproject.toml"]))
         = Some ["python = " +:+ Py.dq +:+ "^3.8" +:+ Py.dq; "a"; "b";
                 "[tool.poetry.dev-dependencies]"])
  /\ (requirement_lines Sample.tab_requirements
      = ["requests" +:+ Py.tab +:+ ">=2"]
      /\ option_map (Sample.lines_from 6 3)
           (Os.stat
              (fs (_create_pyproject_toml Sample.linux_no_git
                     (set_use_poetry true
                        (Sample.state Sample.fs_tab
                           ["demo"; ""; ""; ""; ""]))).2)
              (Sample.project_path ++ ["pyproject.toml"]))
         = Some ["python = " +:+ Py.dq +:+ "^3.8" +:+ Py.dq; "requests>=2";
                 "[tool.poetry.dev-dependencies]"]).
Proof.
  split; [split; vm_compute; reflexivity|].
  split; split; vm_compute; reflexivity.
Qed.
(* ===================================================================== *)
(** * Further properties: the poetry manifest, line by line *)
(* ===================================================================== *)

Section ManifestFields.

Import Py.

(** A line of a template, with its text free of line feeds and of white
    space at either end, comes out of the stripping without its tabs. *)
Lemma stripped_lines_tpl (body rest : string) :
  no_lf body = true ->
  strip (repeat " " 16 +:+ body) = body ->
  body <> "" ->
  stripped_lines (tpl 16 body +:+ rest)
  = replace TAB "" body :: stripped_lines rest.
Proof.
  intros Hlf Hs Hne. rewrite tpl_app, stripped_lines_app.
  unfold stripped_lines at 1.
  rewrite split_one by (unfold no_lf in *; now rewrite all_chars_app, Hlf).
  cbn [List.filter]. rewrite Hs.
  destruct body as [|c b]; [congruence|].
  cbn [truthy map app]. now rewrite Hs.
Qed.

Lemma stripped_lines_last (body : string) :
  no_lf body = true ->
  strip (repeat " " 16 +:+ body) = body ->
  body <> "" ->
  stripped_lines (repeat " " 16 +:+ body) = [replace TAB "" body].
Proof.
  intros Hlf Hs Hne. unfold stripped_lines.
  rewrite split_one by (unfold no_lf in *; now rewrite all_chars_app, Hlf).
  cbn [List.filter]. rewrite Hs.
  destruct body as [|c b]; [congruence|].
  cbn [truthy map app]. now rewrite Hs.
Qed.

(** A line that starts with a letter and ends with a quote or a bracket
    has nothing to strip but its indentation. *)
Lemma strip_framed (body x : string) (z : ascii) :
  body = x +:+ String z "" ->
  space_tail z = false ->
  lstrip (repeat " " 16 +:+ body) = body ->
  strip (repeat " " 16 +:+ body) = body.
Proof.
  intros Hb Hz Hl. unfold strip. rewrite Hl, Hb. now apply rstrip_app_last.
Qed.

Lemma no_lf_app (a b : string) : no_lf (a +:+ b) = no_lf a && no_lf b.
Proof. apply all_chars_app. Qed.

(** The lines of the poetry manifest above its dependency section. *)
Lemma poetry_top_lines
  (package_name version description author_name author_email : string) :
  no_lf package_name = true -> no_lf version = true ->
  no_lf description = true -> no_lf author_name = true ->
  no_lf author_email = true ->
  stripped_lines
    (poetry_template_top package_name version description author_name
       author_email)
  = poetry_manifest_top package_name version description author_name
      author_email.
Proof.
  intros Hn Hv Hd Ha He. unfold poetry_template_top, poetry_manifest_top.
  change (nl +:+ ?x) with ("" +:+ nl +:+ x). rewrite stripped_lines_app.
  change (stripped_lines "") with (@nil string). cbn [app].
  rewrite (stripped_lines_tpl "[tool.poetry]") by (reflexivity || discriminate).
  rewrite stripped_lines_tpl; cycle 1.
  { rewrite !no_lf_app, Hn. reflexivity. }
  { apply (strip_framed _ ("name = " +:+ dq +:+ package_name) DQ);
      [now rewrite !app_assoc_s | reflexivity | reflexivity]. }
  { discriminate. }
  rewrite stripped_lines_tpl; cycle 1.
  { rewrite !no_lf_app, Hv. reflexivity. }
  { apply (strip_framed _ ("version = " +:+ dq +:+ version) DQ);
      [now rewrite !app_assoc_s | reflexivity | reflexivity]. }
  { discriminate. }
  rewrite stripped_lines_tpl; cycle 1.
  { rewrite !no_lf_app, Hd. reflexivity. }
  { apply (strip_framed _ ("description = " +:+ dq +:+ description) DQ);
      [now rewrite !app_assoc_s | reflexivity | reflexivity]. }
  { discriminate. }
  rewrite stripped_lines_last; cycle 1.
  { rewrite !no_lf_app, Ha, He. reflexivity. }
  { apply (strip_framed _
             ("authors = [" +:+ dq +:+ author_name +:+ " <" +:+ author_email
              +:+ ">" +:+ dq) "]"%char);
      [now rewrite !app_assoc_s | reflexivity | reflexivity]. }
  { discriminate. }
  unfold field_line, authors_line. rewrite !replace_app. reflexivity.
Qed.

End ManifestFields.

Section PoetryFields.

Variable E : Env.

(** The text that the poetry branch writes when git knows no identity
    and five lines are typed: the template filled with the stored name,
    the typed values or their defaults, and the indented requirement
    lines. *)
Lemma create_pyproject_toml_poetry_fields st n v d a e rest st' :
  Os.exists_ (fs st) (resolve (cwd E) "pyproject.toml") = false ->
  use_poetry st = true ->
  git_fails E ->
  stdin st = n :: v :: d :: a :: e :: rest ->
  _create_pyproject_toml E st = (Ok tt, st') ->
  Os.stat (fs st') (resolve (cwd E) "pyproject.toml")
  = Some (File (_strip_content
                  (poetry_template (package_name st')
                     (Py.str_or v "0.1.0") d
                     (Py.str_or a "unnamed developer")
                     (Py.str_or e "developer@example.com")
                     (_indent_dependencies
                        (Py.join Py.nl
                           (base_requirement_lines E (fs st'))))))).
Proof.
  intros Hex Hp Hf Hin H. unfold _create_pyproject_toml in H.
  step_in H path_exists_run. rewrite Hex in H.
  step_in H print_info_run. step_in H modify_run. step_in H get_run.
  erewrite bind_ok in H by (apply input_run; simpl; exact Hin).
  match type of H with
  | Run.bind ?m ?k ?s = _ =>
      assert (Hm : exists s1, m s = (Ok tt, s1)
                              /\ stdin s1 = v :: d :: a :: e :: rest
                              /\ use_poetry s1 = true)
  end.
  { destruct (Py.truthy n); eexists; (split; [reflexivity|]);
      (split; [reflexivity | exact Hp]). }
  destruct Hm as (s1 & Hm & Hin1 & Hu1). rewrite (bind_ok _ _ _ _ _ Hm) in H.
  erewrite bind_ok in H by (apply input_run; exact Hin1).
  erewrite bind_ok in H by (apply input_run; reflexivity).
  match type of H with
  | Run.bind (_get_git_config E ?k1) _ ?s = _ =>
      destruct (get_git_config_run E k1 s)
        as (g1 & s2 & Hg1 & Hv1 & Hin2 & _ & _ & Hu2)
  end.
  assert (g1 = None) as ->.
  { rewrite Hv1.
    match goal with
    | |- match spawn E ?c ?p ?f with _ => _ end = _ =>
        pose proof (Hf "user.name" p f) as Hs;
        change c with (git_config_cmd "user.name");
        destruct (spawn E (git_config_cmd "user.name") p f) as [[[rc out] f']|]
    end; [|reflexivity].
    destruct (Z.eqb_spec rc 0); [contradiction | reflexivity]. }
  rewrite (bind_ok _ _ _ _ _ Hg1) in H.
  match type of H with
  | Run.bind (_get_git_config E ?k1) _ ?s = _ =>
      destruct (get_git_config_run E k1 s)
        as (g2 & s3 & Hg2 & Hv2 & Hin3 & _ & _ & Hu3)
  end.
  assert (g2 = None) as ->.
  { rewrite Hv2.
    match goal with
    | |- match spawn E ?c ?p ?f with _ => _ end = _ =>
        pose proof (Hf "user.email" p f) as Hs;
        change c with (git_config_cmd "user.email");
        destruct (spawn E (git_config_cmd "user.email") p f) as [[[rc out] f']|]
    end; [|reflexivity].
    destruct (Z.eqb_spec rc 0); [contradiction | reflexivity]. }
  rewrite (bind_ok _ _ _ _ _ Hg2) in H.
  cbn [opt_or] in H.
  erewrite bind_ok in H
    by (apply input_run; rewrite Hin3, Hin2; reflexivity).
  erewrite bind_ok in H by (apply input_run; reflexivity).
  rewrite (bind_ok _ _ _ _ _ (get_run _)) in H.
  cbn [use_poetry package_name emit set_stdout set_stdin] in H.
  rewrite Hu3, Hu2 in H. cbn [use_poetry emit set_stdout set_stdin] in H.
  rewrite Hu1 in H.
  apply bind_inv_ok in H as ([] & s9 & H9 & H).
  apply bind_inv_ok in H as ([] & s10 & H10 & H).
  apply bind_inv_ok in H as (content & s11 & H11 & H).
  apply bind_inv_ok in H as ([] & s12 & H12 & H).
  injection H as <-.
  apply mkdir_p_inv in H9 as (f9 & Hmk & ->).
  apply path_touch_inv in H10 as (f10 & Hto & ->).
  apply open_write_inv in H12 as (f12 & Hwr & ->).
  apply bind_inv_ok in H11 as (deps & s' & Hc & Hr).
  apply convert_requirements_ok in Hc as [-> ->]. injection Hr as <- <-.
  cbn [fs use_poetry package_name emit set_stdout set_fs set_stdin] in *.
  assert (Hsame : base_requirement_lines E f12 = base_requirement_lines E f10).
  { unfold base_requirement_lines, Os.read.
    now rewrite (write_other _ _ _ _ _ Hwr (manifest_is_not_base E)). }
  rewrite Hsame. eapply write_stat. exact Hwr.
Qed.

End PoetryFields.

(** X7. The manifest of the poetry branch, in full.  When git knows no
    identity, five lines without line feed are typed at the prompts, the
    stored package name holds no line feed and no requirement line
    contains a line boundary of [str.splitlines], a call of
    [_create_pyproject_toml] that ends normally has written exactly: the
    header [[tool.poetry]]; the name, the version (typed, or [0.1.0]),
    the description and the authors (typed, or the placeholders), each
    without its tabs; the header of the dependencies and the line of
    python; the requirement lines of the base-requirements file, flush
    left and without their tabs; and the five fixed lines that start
    with the header of the dev-dependencies. *)
Theorem poetry_manifest_dependencies
  (E : Env) (st st' : State) (n v d a e : string) (rest : list string) :
  Os.exists_ (fs st) (resolve (cwd E) "pyproject.toml") = false ->
  use_poetry st = true ->
  git_fails E ->
  stdin st = n :: v :: d :: a :: e :: rest ->
  Forall (fun x => no_lf x = true) [package_name st'; v; d; a; e] ->
  Forall (fun x => single_line x = true) (base_requirement_lines E (fs st')) ->
  _create_pyproject_toml E st = (Ok tt, st') ->
  Os.stat (fs st') (resolve (cwd E) "pyproject.toml")
  = Some (File (Py.join Py.nl
                  (poetry_manifest_top (package_name st')
                     (Py.str_or v "0.1.0") d
                     (Py.str_or a "unnamed developer")
                     (Py.str_or e "developer@example.com")
                   ++ poetry_dependencies_head
                   ++ map (Py.replace Py.TAB "")
                        (base_requirement_lines E (fs st'))
                   ++ poetry_manifest_tail))).
Proof.
  intros Hex Hp Hf Hin Hlf Hs H.
  rewrite (create_pyproject_toml_poetry_fields E st n v d a e rest st'
             Hex Hp Hf Hin H).
  inversion Hlf as [|? ? Hn Hlf1]; subst.
  inversion Hlf1 as [|? ? Hv Hlf2]; subst.
  inversion Hlf2 as [|? ? Hd Hlf3]; subst.
  inversion Hlf3 as [|? ? Ha Hlf4]; subst.
  inversion Hlf4 as [|? ? He _]; subst.
  f_equal. f_equal.
  rewrite <- poetry_top_lines; try assumption.
  - unfold base_requirement_lines in *.
    destruct (Os.read (fs st') _) as [x|text].
    + now apply (poetry_manifest_lines _ _ _ _ _ "").
    + now apply (poetry_manifest_lines _ _ _ _ _ text).
  - unfold Py.str_or. now destruct (Py.truthy v).
  - unfold Py.str_or. now destruct (Py.truthy a).
  - unfold Py.str_or. now destruct (Py.truthy e).
Qed.

Lemma poetry_manifest_dependencies_witness :
  Os.stat
    (fs (_create_pyproject_toml Sample.linux_no_git
           (set_use_poetry true
              (Sample.state Sample.fs_requirements
                 ["My Pkg-X"; ""; "a demo"; ""; ""]))).2)
    (Sample.project_path ++ ["pyproject.toml"])
  = Some (File (Py.join Py.nl Sample.example_manifest)).
Proof.
  pose (st := set_use_poetry true
                (Sample.state Sample.fs_requirements
                   ["My Pkg-X"; ""; "a demo"; ""; ""])).
  fold st.
  replace (Sample.project_path ++ ["pyproject.toml"])
    with (resolve (cwd Sample.linux_no_git) "pyproject.toml")
    by (vm_compute; reflexivity).
  rewrite (poetry_manifest_dependencies Sample.linux_no_git st
             (_create_pyproject_toml Sample.linux_no_git st).2
             "My Pkg-X" "" "a demo" "" "" []).
  - vm_compute. reflexivity.
  - vm_compute. reflexivity.
  - reflexivity.
  - intros key p f. exact I.
  - reflexivity.
  - vm_compute. repeat constructor.
  - vm_compute. repeat constructor.
  - vm_compute. reflexivity.
Defined.
